(** * tools/train.py: the training entry point

    A shallow embedding of [parse_args] and [main] of [tools/train.py].

    The script is orchestration code: almost everything it does is a call
    into a collaborator (mmcv, numpy, the mmhyperspectral package).  The
    embedding keeps the script's own control and data flow and records
    every collaborator call, with its arguments, in a trace.  The
    collaborators themselves are a record of oracles; a theorem of this
    file holds for every choice of them.

    Conventions.
    - Python [int] is [Z]; [str] is [string]; a [dict] with string keys
      is a [gmap string _].
    - An object built by a collaborator (a classifier, a dataset) is
      known by its identity only; identities are handed out by a counter
      in the world, so two builds never return the same object.
    - Collaborators read [cfg] and [meta]; they are taken not to write
      to them.
    - A raised exception aborts [main]; the world reached so far is kept. *)

From stdpp Require Import gmap strings list.
From Stdlib Require Import ZArith NArith Ascii Reals Lra.
Set Warnings "-register-all".
Local Open Scope string_scope.
Local Open Scope Z_scope.

(** ** Python values stored in a configuration or in [args] *)

Inductive value : Type :=
| VNone
| VBool (b : bool)
| VInt (z : Z)
| VStr (s : string)
| VRange (stop : Z)                 (* range(stop) *)
| VList (l : list value)
| VDict (d : gmap string value).

(** Python truthiness, as used by [not x] and [if x]. *)
Definition truthy (v : value) : bool :=
  match v with
  | VNone => false
  | VBool b => b
  | VInt z => negb (z =? 0)
  | VStr s => negb (String.eqb s "")
  | VRange stop => 0 <? stop
  | VList l => match l with [] => false | _ => true end
  | VDict d => negb (bool_decide (d = ∅))
  end.

Inductive exn : Type :=
| SystemExit
| FileNotFoundError (path : string)
| AttributeError (name : string)
| TypeError
| IndexError.

(** ** Strings: the pieces of [os.path], [str] and [time.strftime] used *)

Definition slash : ascii := "/"%char.

Definition dot : ascii := "."%char.

Definition newline : string := String (ascii_of_nat 10) "".

Fixpoint contains (c : ascii) (s : string) : bool :=
  match s with
  | EmptyString => false
  | String a r => Ascii.eqb a c || contains c r
  end.

Fixpoint endswith (c : ascii) (s : string) : bool :=
  match s with
  | EmptyString => false
  | String a EmptyString => Ascii.eqb a c
  | String _ r => endswith c r
  end.

Definition startswith (c : ascii) (s : string) : bool :=
  match s with
  | EmptyString => false
  | String a _ => Ascii.eqb a c
  end.

(** [s.rfind(c)]: index of the last occurrence, or -1. *)
Fixpoint rfind (c : ascii) (s : string) : Z :=
  match s with
  | EmptyString => -1
  | String a r =>
      let i := rfind c r in
      if 0 <=? i then i + 1
      else if Ascii.eqb a c then 0 else -1
  end.

(** [posixpath.basename]: what follows the last slash. *)
Definition osp_basename (p : string) : string :=
  let i := Z.to_nat (rfind slash p + 1) in
  String.substring i (String.length p - i) p.

(** [posixpath.join] of two components. *)
Definition osp_join (a b : string) : string :=
  if startswith slash b then b
  else if String.eqb a "" || endswith slash a then a ++ b
  else a ++ String slash b.

(** [posixpath.splitext]: the extension starts at the last dot of the
    last component, unless only dots precede it there. *)
Definition osp_splitext (p : string) : string * string :=
  let sepIndex := rfind slash p in
  let dotIndex := rfind dot p in
  if sepIndex <? dotIndex then
    let filenameIndex := Z.to_nat (sepIndex + 1) in
    let lead := String.substring filenameIndex (Z.to_nat dotIndex - filenameIndex) p in
    if forallb (fun a => Ascii.eqb a dot) (String.list_ascii_of_string lead)
    then (p, "")
    else (String.substring 0 (Z.to_nat dotIndex) p,
          String.substring (Z.to_nat dotIndex) (String.length p - Z.to_nat dotIndex) p)
  else (p, "").

Definition digit (n : N) : ascii := ascii_of_N (48 + n).

Fixpoint dec_go (fuel : nat) (n : N) (acc : string) : string :=
  match fuel with
  | O => acc
  | S f =>
      let acc' := String (digit (n mod 10)) acc in
      if (n / 10 =? 0)%N then acc' else dec_go f (n / 10)%N acc'
  end.

(** Decimal digits of a natural number. *)
Definition dec (n : N) : string := dec_go (S (N.size_nat n)) n "".

(** [str(z)] for a Python int. *)
Definition str_int (z : Z) : string :=
  if z <? 0 then String "-"%char (dec (Z.to_N (- z))) else dec (Z.to_N z).

Fixpoint zeros (k : nat) : string :=
  match k with O => "" | S k' => String "0"%char (zeros k') end.

(** A field printed by a [%0wd]-like directive: zero padded to width [w]. *)
Definition zfill (w : nat) (s : string) : string :=
  zeros (w - String.length s) ++ s.

Record struct_time : Type := mk_struct_time {
  tm_year : Z; tm_mon : Z; tm_mday : Z;
  tm_hour : Z; tm_min : Z; tm_sec : Z
}.

(** [time.strftime('%Y%m%d_%H%M%S', t)]. *)
Definition strftime_Ymd_HMS (t : struct_time) : string :=
  zfill 4 (str_int (tm_year t)) ++ zfill 2 (str_int (tm_mon t))
  ++ zfill 2 (str_int (tm_mday t)) ++ "_"
  ++ zfill 2 (str_int (tm_hour t)) ++ zfill 2 (str_int (tm_min t))
  ++ zfill 2 (str_int (tm_sec t)).

Definition is_digit (a : ascii) : bool :=
  let n := N_of_ascii a in ((48 <=? n) && (n <=? 57))%N.

(** The shape YYYYMMDD_HHMMSS: eight digits, an underscore, six digits. *)
Definition is_timestamp (s : string) : bool :=
  match String.list_ascii_of_string s with
  | [y1; y2; y3; y4; m1; m2; d1; d2; u; h1; h2; i1; i2; s1; s2] =>
      forallb is_digit [y1; y2; y3; y4; m1; m2; d1; d2; h1; h2; i1; i2; s1; s2]
      && Ascii.eqb u "_"%char
  | _ => false
  end.

(** A [struct_time] as [time.localtime] returns it, in the years that have
    four digits. *)
Definition valid_time (t : struct_time) : Prop :=
  1000 <= tm_year t <= 9999 /\ 1 <= tm_mon t <= 12 /\ 1 <= tm_mday t <= 31 /\
  0 <= tm_hour t <= 23 /\ 0 <= tm_min t <= 59 /\ 0 <= tm_sec t <= 61.

(** ** The command line and [args] *)

Inductive Launcher : Type := none | pytorch | slurm | mpi.

Global Instance Launcher_eq_dec : EqDecision Launcher.
Proof. solve_decision. Defined.

(** What the user wrote on the command line: for each option, the value
    given to it, if it was given ([store_true] flags: whether present).
    [--gpus], [--seed] and [--local_rank] are converted by [type=int],
    [--gpu-ids] by [type=int, nargs='+'], [--options] by [DictAction],
    [--launcher] is restricted by [choices]. *)
Record Cli : Type := mk_Cli {
  cli_config : option string;
  cli_work_dir : option string;
  cli_resume_from : option string;
  cli_no_validate : option string;
  cli_device : option string;
  cli_gpus : option Z;
  cli_gpu_ids : option (list Z);
  cli_seed : option Z;
  cli_deterministic : bool;
  cli_options : option (gmap string value);
  cli_launcher : option Launcher;
  cli_local_rank : option Z;
  cli_autoscale_lr : bool
}.

(** The namespace [parse_args] returns.  A field that can hold [None]
    is an [option]; [no_validate] holds [False] or a [str]. *)
Record Args : Type := mk_Args {
  config : string;
  work_dir : option string;
  resume_from : option string;
  no_validate : value;
  device : string;
  gpus : option Z;
  gpu_ids : option (list Z);
  seed : Z;
  deterministic : bool;
  options : option (gmap string value);
  launcher : Launcher;
  local_rank : Z;
  autoscale_lr : bool
}.

(** The command line with nothing on it. *)
Definition no_cli : Cli :=
  mk_Cli None None None None None None None None false None None None false.

(** ** Objects built by the collaborators *)

Definition ident : Type := nat.

(** The parts of a built dataset that [main] passes on. *)
Inductive DataRef : Type :=
| train_dataset (base : ident)
| val_dataset (base : ident)
| test_dataset (base : ident).

Record Logger : Type := mk_Logger { log_file : string }.

Section Program.

(** The type of the accuracies [test_model] returns (a Python float). *)
Variable num : Type.

(** The tuple [test_model] returns, in its order. *)
Record Metrics : Type := mk_Metrics {
  overall_acc : num;
  average_acc : num;
  kappa : num;
  each_acc : list num
}.

(** The messages given to [logger.info], one constructor per call site. *)
Inductive LogMsg : Type :=
| MsgText (s : string)
| MsgDistributed (distributed : bool)
| MsgConfig (pretty : string)
| MsgSetSeed (s : Z) (deterministic : bool)
| MsgOAs (l : list num)
| MsgAAs (l : list num)
| MsgKAPPAs (l : list num)
| Msg_mean_OA_std_OA (mean std : num)
| Msg_mean_AA_std_AA (mean std : num)
| Msg_mean_KAPPA_std_KAPPA (mean std : num)
| MsgElementMean (v : list num)
| MsgElementStd (v : list num).

(** The arguments of one [train_model] call. *)
Record TrainCall : Type := mk_TrainCall {
  tr_model : ident;
  tr_datasets : list DataRef;
  tr_cfg : gmap string value;
  tr_distributed : bool;
  tr_validate : bool;
  tr_timestamp : string;
  tr_device : string;
  tr_meta : gmap string value
}.

(** The arguments of one [test_model] call; [test_indexes],
    [total_indexes] and [gt] are attributes read off the dataset [te_base]
    and its test part. *)
Record TestCall : Type := mk_TestCall {
  te_model : ident;
  te_dataset : DataRef;
  te_base : ident;
  te_cfg : gmap string value;
  te_device : string
}.

(** The calls into collaborators, in the order [main] makes them. *)
Inductive Event : Type :=
| EvInitDist (l : Launcher) (dist_params : gmap string value)
| EvMkdirOrExist (path : string)
| EvDump (cfg : gmap string value) (path : string)
| EvGetRootLogger (file : string) (log_level : value)
| EvLog (lg : Logger) (msg : LogMsg)
| EvSetRandomSeed (s : Z) (deterministic : bool)
| EvBuildClassifier (model_cfg : value) (model : ident)
| EvInitWeights (model : ident)
| EvBuildDataset (train_cfg : value) (base : ident)
| EvTrainModel (c : TrainCall)
| EvTestModel (c : TestCall) (result : Metrics).

Record World : Type := mk_World {
  trace : list Event;
  next_id : ident;
  environ : gmap string string;
  cudnn_benchmark : bool
}.

(** The collaborators of the script. *)
Record Collab : Type := mk_Collab {
  (* mmcv.Config *)
  Config_fromfile : string -> option (gmap string value);
  merge_from_dict : gmap string value -> gmap string value -> gmap string value;
  pretty_text : gmap string value -> string;
  (* mmcv.runner *)
  get_dist_info : list Event -> Z * Z;
  (* os.path.abspath, time.localtime *)
  osp_abspath : string -> string;
  time_localtime : struct_time;
  (* mmhyperspectral *)
  version : string;
  collect_env : list (string * string);
  CLASSES : DataRef -> value;
  test_model : list Event -> TestCall -> Metrics;
  (* numpy *)
  np_mean : list num -> num;
  np_std : list num -> num;
  np_mean_axis0 : list (list num) -> list num;
  np_std_axis0 : list (list num) -> list num
}.

(** ** Computations: a world is threaded, an exception aborts *)

Definition M (A : Type) : Type := World -> (exn + A) * World.

Definition ret {A} (a : A) : M A := fun w => (inr a, w).

Definition raise {A} (e : exn) : M A := fun w => (inl e, w).

Definition bind {A B} (m : M A) (k : A -> M B) : M B :=
  fun w => match m w with
           | (inr a, w') => k a w'
           | (inl e, w') => (inl e, w')
           end.

Definition emit (e : Event) : M unit :=
  fun w => (inr tt, mk_World (trace w ++ [e])%list (next_id w) (environ w)
                            (cudnn_benchmark w)).

(** A collaborator that builds a new object. *)
Definition build (ev : ident -> Event) : M ident :=
  fun w => (inr (next_id w),
            mk_World (trace w ++ [ev (next_id w)])%list (S (next_id w)) (environ w)
                     (cudnn_benchmark w)).

Definition get_trace : M (list Event) := fun w => (inr (trace w), w).

Definition of_option {A} (e : exn) (o : option A) : M A :=
  match o with Some a => ret a | None => raise e end.

End Program.

Arguments ret {num A} _ _.
Arguments raise {num A} _ _.
Arguments bind {num A B} _ _ _.
Arguments emit {num} _ _.
Arguments build {num} _ _.
Arguments get_trace {num} _.
Arguments of_option {num A} _ _ _.
Arguments overall_acc {num} _.
Arguments average_acc {num} _.
Arguments kappa {num} _.
Arguments each_acc {num} _.
Arguments trace {num} _.
Arguments next_id {num} _.
Arguments environ {num} _.
Arguments cudnn_benchmark {num} _.
Arguments mk_World {num} _ _ _ _.
Arguments EvInitDist {num} _ _.
Arguments EvMkdirOrExist {num} _.
Arguments EvDump {num} _ _.
Arguments EvGetRootLogger {num} _ _.
Arguments EvLog {num} _ _.
Arguments EvSetRandomSeed {num} _ _.
Arguments EvBuildClassifier {num} _ _.
Arguments EvInitWeights {num} _.
Arguments EvBuildDataset {num} _ _.
Arguments EvTrainModel {num} _.
Arguments EvTestModel {num} _ _.
Arguments MsgText {num} _.
Arguments MsgDistributed {num} _.
Arguments MsgConfig {num} _.
Arguments MsgSetSeed {num} _ _.
Arguments MsgOAs {num} _.
Arguments MsgAAs {num} _.
Arguments MsgKAPPAs {num} _.
Arguments Msg_mean_OA_std_OA {num} _ _.
Arguments Msg_mean_AA_std_AA {num} _ _.
Arguments Msg_mean_KAPPA_std_KAPPA {num} _ _.
Arguments MsgElementMean {num} _.
Arguments MsgElementStd {num} _.
Arguments mk_Metrics {num} _ _ _ _.
Arguments Config_fromfile {num} _ _.
Arguments merge_from_dict {num} _ _ _.
Arguments pretty_text {num} _ _.
Arguments get_dist_info {num} _ _.
Arguments osp_abspath {num} _ _.
Arguments time_localtime {num} _.
Arguments version {num} _.
Arguments collect_env {num} _.
Arguments CLASSES {num} _ _.
Arguments test_model {num} _ _ _.
Arguments np_mean {num} _ _.
Arguments np_std {num} _ _.
Arguments np_mean_axis0 {num} _ _.
Arguments np_std_axis0 {num} _ _.

Global Instance M_ret {num} : MRet (M num) := fun A => @ret num A.

Global Instance M_bind {num} : MBind (M num) := fun A B k m => bind m k.

(** The local variables of [main] that outlive the loop. *)
Record Locals (num : Type) : Type := mk_Locals {
  loc_cfg : gmap string value;
  loc_meta : gmap string value;
  KAPPA : list num;
  OA : list num;
  AA : list num;
  ELEMENT_ACC : list (list num)
}.

Arguments mk_Locals {num} _ _ _ _ _ _.
Arguments loc_cfg {num} _.
Arguments loc_meta {num} _.
Arguments KAPPA {num} _.
Arguments OA {num} _.
Arguments AA {num} _.
Arguments ELEMENT_ACC {num} _.

(** ** Small pieces of Python *)

(** [range(lo, hi)]. *)
Definition py_range (lo hi : Z) : list Z :=
  map (fun i => lo + Z.of_nat i) (seq 0 (Z.to_nat (hi - lo))).

(** A value used as an [int]; a [bool] is one. *)
Definition int_value (v : value) : option Z :=
  match v with
  | VInt z => Some z
  | VBool b => Some (if b then 1 else 0)
  | _ => None
  end.

Definition as_int {num} (v : value) : M num Z := of_option TypeError (int_value v).

Definition as_str {num} (v : value) : M num string :=
  match v with VStr s => ret s | _ => raise TypeError end.

(** A value unpacked by [**]. *)
Definition as_dict {num} (v : value) : M num (gmap string value) :=
  match v with VDict d => ret d | _ => raise TypeError end.

(** [len(v)], for the values that have one. *)
Definition len_value (v : value) : option Z :=
  match v with
  | VStr s => Some (Z.of_nat (String.length s))
  | VRange stop => Some (Z.max 0 stop)
  | VList l => Some (Z.of_nat (length l))
  | VDict d => Some (Z.of_nat (size d))
  | _ => None
  end.

Definition py_len {num} (v : value) : M num Z := of_option TypeError (len_value v).

(** [cfg.name]. *)
Definition attr {num} (cfg : gmap string value) (name : string) : M num value :=
  of_option (AttributeError name) (cfg !! name).

(** [v.name] for a value that came out of a configuration. *)
Definition attr_of {num} (v : value) (name : string) : M num value :=
  match v with
  | VDict d => attr d name
  | _ => raise (AttributeError name)
  end.

(** [for x in l: st = body(st, x)]. *)
Fixpoint for_each {num A S} (body : S -> A -> M num S) (st : S) (l : list A) : M num S :=
  match l with
  | [] => ret st
  | x :: l' => st' ← body st x; for_each body st' l'
  end.

Definition supplied {A} (o : option A) : nat :=
  match o with Some _ => 1%nat | None => 0%nat end.

Section Script.
Context {num : Type} (C : Collab num).

(** ** [parse_args] *)

(** The namespace: every option with its value or its default. *)
Definition namespace (cli : Cli) : Args := {|
  config := default "../configs/resnet/resnet50_in.py" (cli_config cli);
  work_dir := Some (default "../results" (cli_work_dir cli));
  resume_from := cli_resume_from cli;
  no_validate := match cli_no_validate cli with
                 | Some s => VStr s
                 | None => VBool false
                 end;
  device := default "cpu" (cli_device cli);
  gpus := cli_gpus cli;
  gpu_ids := cli_gpu_ids cli;
  seed := default 2021 (cli_seed cli);
  deterministic := cli_deterministic cli;
  options := cli_options cli;
  launcher := default none (cli_launcher cli);
  local_rank := default 0 (cli_local_rank cli);
  autoscale_lr := cli_autoscale_lr cli
|}.

(** [if 'LOCAL_RANK' not in os.environ:
        os.environ['LOCAL_RANK'] = str(args.local_rank)] *)
Definition set_local_rank (args : Args) : M num unit :=
  fun w =>
    match environ w !! "LOCAL_RANK" with
    | Some _ => (inr tt, w)
    | None =>
        (inr tt,
         mk_World (trace w) (next_id w)
                  (<["LOCAL_RANK" := str_int (local_rank args)]> (environ w))
                  (cudnn_benchmark w))
    end.

Definition parse_args (cli : Cli) : M num Args :=
  (* the mutually exclusive group of --device, --gpus and --gpu-ids *)
  if (1 <? supplied (cli_device cli) + supplied (cli_gpus cli)
           + supplied (cli_gpu_ids cli))%nat
  then raise SystemExit
  else
  (* nargs='+' *)
  if bool_decide (cli_gpu_ids cli = Some [])
  then raise SystemExit
  else
  let args := namespace cli in
  set_local_rank args;;
  ret args.

(** ** [main] *)

(** [torch.backends.cudnn.benchmark = True] *)
Definition set_cudnn_benchmark : M num unit :=
  fun w => (inr tt, mk_World (trace w) (next_id w) (environ w) true).

(** ['cpu' if args.device == 'cpu' else 'cuda'] *)
Definition device_arg (args : Args) : string :=
  if String.eqb (device args) "cpu" then "cpu" else "cuda".

(** [not args.no_validate] *)
Definition validate_arg (args : Args) : bool := negb (truthy (no_validate args)).

(** [dict(mmhyperspectral_version=__version__, config=cfg.pretty_text,
         CLASSES=datasets[0].CLASSES)] *)
Definition checkpoint_meta (cfg : gmap string value) (dataset0 : DataRef)
  : gmap string value :=
  <["mmhyperspectral_version" := VStr (version C)]>
    (<["config" := VStr (pretty_text C cfg)]>
       (<["CLASSES" := CLASSES C dataset0]> ∅)).

(** [if cfg.checkpoint_config is not None: cfg.checkpoint_config.meta = ...];
    the attribute can be set on a dict only. *)
Definition set_checkpoint_meta (cfg : gmap string value) (dataset0 : DataRef)
  : M num (gmap string value) :=
  checkpoint_config ← attr cfg "checkpoint_config";
  match checkpoint_config with
  | VNone => ret cfg
  | VDict d =>
      ret (<["checkpoint_config" :=
               VDict (<["meta" := VDict (checkpoint_meta cfg dataset0)]> d)]> cfg)
  | _ => raise (AttributeError "meta")
  end.

(** One pass through the body of [for index_iter in range(cfg.iter)].
    The entries of [seed] are ints, so [seed[index_iter] is not None]
    holds and the guarded statements always run. *)
Definition iteration (args : Args) (distributed : bool) (timestamp : string)
    (logger : Logger) (seed : list Z) (st : Locals num) (index_iter : nat)
  : M num (Locals num) :=
  s ← of_option IndexError (seed !! index_iter);
  emit (EvLog logger (MsgSetSeed s (deterministic args)));;
  emit (EvSetRandomSeed s (deterministic args));;
  let cfg := <["seed" := VInt s]> (loc_cfg st) in
  let meta := <["seed" := VInt s]> (loc_meta st) in
  model_cfg ← attr cfg "model";
  model ← build (EvBuildClassifier model_cfg);
  emit (EvInitWeights model);;
  data ← attr cfg "data";
  train_cfg ← attr_of data "train";
  base_dataset ← build (EvBuildDataset train_cfg);
  let datasets := [train_dataset base_dataset] in
  workflow ← attr cfg "workflow";
  n ← py_len workflow;
  let datasets := if n =? 2 then (datasets ++ [val_dataset base_dataset])%list
                  else datasets in
  cfg ← set_checkpoint_meta cfg (train_dataset base_dataset);
  emit (EvTrainModel
          (mk_TrainCall model datasets cfg distributed (validate_arg args)
                        timestamp (device_arg args) meta));;
  let call := mk_TestCall model (test_dataset base_dataset) base_dataset cfg
                          (device_arg args) in
  h ← get_trace;
  let r := test_model C h call in
  emit (EvTestModel call r);;
  ret (mk_Locals cfg meta
                 (KAPPA st ++ [kappa r])%list
                 (OA st ++ [overall_acc r])%list
                 (AA st ++ [average_acc r])%list
                 (ELEMENT_ACC st ++ [each_acc r])%list).

(** The last eight [logger.info] calls. *)
Definition report (logger : Logger) (st : Locals num) : M num unit :=
  emit (EvLog logger (MsgOAs (OA st)));;
  emit (EvLog logger (MsgAAs (AA st)));;
  emit (EvLog logger (MsgKAPPAs (KAPPA st)));;
  emit (EvLog logger (Msg_mean_OA_std_OA (np_mean C (OA st)) (np_std C (OA st))));;
  emit (EvLog logger (Msg_mean_AA_std_AA (np_mean C (AA st)) (np_std C (OA st))));;
  emit (EvLog logger
          (Msg_mean_KAPPA_std_KAPPA (np_mean C (KAPPA st)) (np_std C (KAPPA st))));;
  emit (EvLog logger (MsgElementMean (np_mean_axis0 C (ELEMENT_ACC st))));;
  emit (EvLog logger (MsgElementStd (np_std_axis0 C (ELEMENT_ACC st)))).

Definition dash_line : string := String.concat "" (replicate 60 "-") ++ newline.

(** [if args.options is not None: cfg.merge_from_dict(args.options)] *)
Definition merge_options (args : Args) (cfg : gmap string value) : gmap string value :=
  match options args with
  | Some o => merge_from_dict C cfg o
  | None => cfg
  end.

(** work_dir is determined in this priority: CLI > segment in file > filename *)
Definition set_work_dir (args : Args) (cfg : gmap string value) : gmap string value :=
  match work_dir args with
  | Some d => <["work_dir" := VStr d]> cfg
  | None =>
      match default VNone (cfg !! "work_dir") with
      | VNone =>
          <["work_dir" :=
              VStr (osp_join "./work_dirs"
                      (osp_splitext (osp_basename (config args))).1)]> cfg
      | _ => cfg
      end
  end.

Definition set_resume_from (args : Args) (cfg : gmap string value) : gmap string value :=
  match resume_from args with
  | Some r => <["resume_from" := VStr r]> cfg
  | None => cfg
  end.

Definition set_gpu_ids (args : Args) (cfg : gmap string value) : gmap string value :=
  match gpu_ids args with
  | Some ids => <["gpu_ids" := VList (VInt <$> ids)]> cfg
  | None =>
      <["gpu_ids" := VRange (match gpus args with
                             | None => 1
                             | Some g => g
                             end)]> cfg
  end.

(** Lines 68 to 96: the configuration after the file, [--options] and
    the command line have been merged, and whether the run is distributed. *)
Definition configure (args : Args) : M num (bool * gmap string value) :=
  cfg ← of_option (FileNotFoundError (config args)) (Config_fromfile C (config args));
  let cfg := merge_options args cfg in
  (if truthy (default (VBool false) (cfg !! "cudnn_benchmark"))
   then set_cudnn_benchmark else ret tt);;
  let cfg := set_gpu_ids args (set_resume_from args (set_work_dir args cfg)) in
  (* init distributed env first, since logger depends on the dist info. *)
  match launcher args with
  | none => ret (false, cfg)
  | l =>
      dist_params ← attr cfg "dist_params";
      kwargs ← as_dict dist_params;
      emit (EvInitDist l kwargs);;
      h ← get_trace;
      let world_size := (get_dist_info C h).2 in
      ret (true, <["gpu_ids" := VRange world_size]> cfg)
  end.

(** [main], returning the local variables it ends with. *)
Definition main_body (cli : Cli) : M num (Locals num) :=
  args ← parse_args cli;
  '(distributed, cfg) ← configure args;
  work_dir_v ← attr cfg "work_dir";
  cfg_work_dir ← as_str work_dir_v;
  emit (EvMkdirOrExist (osp_abspath C cfg_work_dir));;
  emit (EvDump cfg (osp_join cfg_work_dir (osp_basename (config args))));;
  let timestamp := strftime_Ymd_HMS (time_localtime C) in
  let log_file := osp_join cfg_work_dir (timestamp ++ ".log") in
  log_level ← attr cfg "log_level";
  emit (EvGetRootLogger log_file log_level);;
  let logger := mk_Logger log_file in
  let meta : gmap string value := ∅ in
  let env_info :=
    String.concat newline (map (fun kv => kv.1 ++ ": " ++ kv.2) (collect_env C)) in
  emit (EvLog logger
          (MsgText ("Environment info:" ++ newline ++ dash_line ++ env_info
                    ++ newline ++ dash_line)));;
  let meta := <["env_info" := VStr env_info]> meta in
  emit (EvLog logger (MsgDistributed distributed));;
  emit (EvLog logger (MsgConfig (pretty_text C cfg)));;
  iter_v ← attr cfg "iter";
  cfg_iter ← as_int iter_v;
  let seed := py_range (seed args) (seed args + cfg_iter) in
  st ← for_each (iteration args distributed timestamp logger seed)
                (mk_Locals cfg meta [] [] [] [])
                (seq 0 (Z.to_nat cfg_iter));
  report logger st;;
  ret st.

Definition main (cli : Cli) : M num unit :=
  main_body cli;; ret tt.

End Script.

(** ** Reading a trace *)

Section Views.
Context {num : Type}.

Definition seed_of (e : Event num) : option Z :=
  match e with EvSetRandomSeed s _ => Some s | _ => None end.

Definition train_of (e : Event num) : option TrainCall :=
  match e with EvTrainModel c => Some c | _ => None end.

Definition test_of (e : Event num) : option (TestCall * Metrics num) :=
  match e with EvTestModel c r => Some (c, r) | _ => None end.

Definition log_of (e : Event num) : option (Logger * LogMsg num) :=
  match e with EvLog lg m => Some (lg, m) | _ => None end.

Definition init_dist_of (e : Event num) : option Launcher :=
  match e with EvInitDist l _ => Some l | _ => None end.

(** The seeds given to [set_random_seed], in call order. *)
Definition seeds_set (tr : list (Event num)) : list Z := omap seed_of tr.

(** The [train_model] calls, in call order. *)
Definition train_calls (tr : list (Event num)) : list TrainCall := omap train_of tr.

(** The [test_model] calls with what they returned, in call order. *)
Definition test_calls (tr : list (Event num)) : list (TestCall * Metrics num) :=
  omap test_of tr.

(** The [logger.info] calls, in call order. *)
Definition logged (tr : list (Event num)) : list (Logger * LogMsg num) := omap log_of tr.

(** The launchers given to [init_dist], in call order. *)
Definition init_dist_calls (tr : list (Event num)) : list Launcher := omap init_dist_of tr.

(** An event of the seed loop, as opposed to the set-up before it. *)
Definition is_loop_event (e : Event num) : bool :=
  match e with
  | EvSetRandomSeed _ _ | EvBuildClassifier _ _ | EvInitWeights _
  | EvBuildDataset _ _ | EvTrainModel _ | EvTestModel _ _ => true
  | _ => false
  end.

(** The world after further calls, [k] of which built an object. *)
Definition after (w : World num) (evs : list (Event num)) (k : nat) : World num :=
  mk_World (trace w ++ evs)%list (k + next_id w)%nat (environ w) (cudnn_benchmark w).

(** What one completed pass of the loop called with, and got back. *)
Record IterRun : Type := mk_IterRun {
  it_seed : Z;
  it_model_cfg : value;
  it_model : ident;
  it_train_cfg : value;
  it_base : ident;
  it_train : TrainCall;
  it_test : TestCall;
  it_result : Metrics num
}.

(** The calls of one pass, up to [train_model]. *)
Definition iter_events_train (lg : Logger) (det : bool) (r : IterRun) : list (Event num) :=
  [EvLog lg (MsgSetSeed (it_seed r) det);
   EvSetRandomSeed (it_seed r) det;
   EvBuildClassifier (it_model_cfg r) (it_model r);
   EvInitWeights (it_model r);
   EvBuildDataset (it_train_cfg r) (it_base r);
   EvTrainModel (it_train r)].

(** The calls of one pass. *)
Definition iter_events (lg : Logger) (det : bool) (r : IterRun) : list (Event num) :=
  (iter_events_train lg det r ++ [EvTestModel (it_test r) (it_result r)])%list.

Definition loop_events (lg : Logger) (det : bool) (runs : list IterRun)
  : list (Event num) :=
  concat (iter_events lg det <$> runs).

End Views.

Arguments IterRun : clear implicits.

Section Loop.
Context {num : Type} (C : Collab num).

(** The configuration [train_model] sees in a pass that starts with [cfg]
    and seed [s], for the dataset [base] built in that pass. *)
Definition cfg_of_pass (cfg : gmap string value) (s : Z) (base : ident)
  : option (gmap string value) :=
  let cfg := <["seed" := VInt s]> cfg in
  match cfg !! "checkpoint_config" with
  | Some VNone => Some cfg
  | Some (VDict d) =>
      Some (<["checkpoint_config" :=
                VDict (<["meta" := VDict (checkpoint_meta C cfg (train_dataset base))]> d)]>
              cfg)
  | _ => None
  end.

(** One pass of the loop, started with [cfg] and [meta] after the calls
    [tr], when [nid] is the next object to be built, is described by [r]. *)
Definition pass_spec (args : Args) (distributed : bool) (timestamp : string)
    (lg : Logger) (cfg meta : gmap string value) (tr : list (Event num))
    (nid : ident) (r : IterRun num) : Prop :=
  it_model r = nid /\
  it_base r = S nid /\
  cfg !! "model" = Some (it_model_cfg r) /\
  (exists d, cfg !! "data" = Some (VDict d) /\ d !! "train" = Some (it_train_cfg r)) /\
  (exists wf n, cfg !! "workflow" = Some wf /\ len_value wf = Some n /\
     tr_datasets (it_train r) =
       if n =? 2 then [train_dataset (it_base r); val_dataset (it_base r)]
       else [train_dataset (it_base r)]) /\
  cfg_of_pass cfg (it_seed r) (it_base r) = Some (tr_cfg (it_train r)) /\
  tr_model (it_train r) = it_model r /\
  tr_distributed (it_train r) = distributed /\
  tr_validate (it_train r) = validate_arg args /\
  tr_timestamp (it_train r) = timestamp /\
  tr_device (it_train r) = device_arg args /\
  tr_meta (it_train r) = <["seed" := VInt (it_seed r)]> meta /\
  it_test r = mk_TestCall (it_model r) (test_dataset (it_base r)) (it_base r)
                          (tr_cfg (it_train r)) (device_arg args) /\
  it_result r =
    test_model C (tr ++ iter_events_train lg (deterministic args) r)%list (it_test r).

(** The local variables after a pass. *)
Definition locals_after (st : Locals num) (r : IterRun num) : Locals num :=
  mk_Locals (tr_cfg (it_train r)) (tr_meta (it_train r))
            (KAPPA st ++ [kappa (it_result r)])%list
            (OA st ++ [overall_acc (it_result r)])%list
            (AA st ++ [average_acc (it_result r)])%list
            (ELEMENT_ACC st ++ [each_acc (it_result r)])%list.

End Loop.

Section LoopSpec.
Context {num : Type} (C : Collab num).
Variables (args : Args) (distributed : bool) (timestamp : string) (lg : Logger).

(** The passes [runs] are the loop run over the seeds [seeds], started
    with [cfg] and [meta] after the calls [tr], when [nid] is the next
    object to be built. *)
Fixpoint loop_spec (cfg meta : gmap string value) (tr : list (Event num))
    (nid : ident) (seeds : list Z) (runs : list (IterRun num)) : Prop :=
  match seeds, runs with
  | [], [] => True
  | s :: seeds', r :: runs' =>
      it_seed r = s /\
      pass_spec C args distributed timestamp lg cfg meta tr nid r /\
      loop_spec (tr_cfg (it_train r)) (tr_meta (it_train r))
                (tr ++ iter_events lg (deterministic args) r)%list (S (S nid))
                seeds' runs'
  | _, _ => False
  end.

End LoopSpec.

Section MainSpec.
Context {num : Type} (C : Collab num).

(** The configuration after lines 68 to 87, for the file content [cfg0]. *)
Definition cli_cfg (args : Args) (cfg0 : gmap string value) : gmap string value :=
  set_gpu_ids args (set_resume_from args (set_work_dir args (merge_options C args cfg0))).

Definition the_timestamp : string := strftime_Ymd_HMS (time_localtime C).

Definition the_log_file (wd : string) : string := osp_join wd (the_timestamp ++ ".log").

Definition env_info : string :=
  String.concat newline (map (fun kv => kv.1 ++ ": " ++ kv.2) (collect_env C)).

(** The calls of lines 98 to 119. *)
Definition setup_events (args : Args) (distributed : bool) (cfg : gmap string value)
    (wd : string) (log_level : value) : list (Event num) :=
  let lg := mk_Logger (the_log_file wd) in
  [EvMkdirOrExist (osp_abspath C wd);
   EvDump cfg (osp_join wd (osp_basename (config args)));
   EvGetRootLogger (the_log_file wd) log_level;
   EvLog lg (MsgText ("Environment info:" ++ newline ++ dash_line ++ env_info
                      ++ newline ++ dash_line));
   EvLog lg (MsgDistributed distributed);
   EvLog lg (MsgConfig (pretty_text C cfg))].

(** The calls of lines 175 to 182. *)
Definition report_events (lg : Logger) (st : Locals num) : list (Event num) :=
  [EvLog lg (MsgOAs (OA st));
   EvLog lg (MsgAAs (AA st));
   EvLog lg (MsgKAPPAs (KAPPA st));
   EvLog lg (Msg_mean_OA_std_OA (np_mean C (OA st)) (np_std C (OA st)));
   EvLog lg (Msg_mean_AA_std_AA (np_mean C (AA st)) (np_std C (OA st)));
   EvLog lg (Msg_mean_KAPPA_std_KAPPA (np_mean C (KAPPA st)) (np_std C (KAPPA st)));
   EvLog lg (MsgElementMean (np_mean_axis0 C (ELEMENT_ACC st)));
   EvLog lg (MsgElementStd (np_std_axis0 C (ELEMENT_ACC st)))].

(** What [configure] did, once it has returned: after the calls [tr] it
    made the calls [pre] and left [cfg]. *)
Definition configured (args : Args) (tr : list (Event num)) (distributed : bool)
    (cfg : gmap string value) (pre : list (Event num)) : Prop :=
  exists cfg0,
    Config_fromfile C (config args) = Some cfg0 /\
    ((launcher args = none /\ distributed = false /\ pre = [] /\
      cfg = cli_cfg args cfg0) \/
     (launcher args <> none /\ distributed = true /\
      exists kwargs,
        cli_cfg args cfg0 !! "dist_params" = Some (VDict kwargs) /\
        pre = [EvInitDist (launcher args) kwargs] /\
        cfg = <["gpu_ids" := VRange (get_dist_info C (tr ++ pre)%list).2]>
                (cli_cfg args cfg0))).

(** What a completed [main] did. *)
Definition completed_run (cli : Cli) (w : World num) (st : Locals num)
    (w' : World num) (distributed : bool) (cfg : gmap string value)
    (pre : list (Event num)) (wd : string) (log_level : value) (n : Z)
    (runs : list (IterRun num)) : Prop :=
  let args := namespace cli in
  let lg := mk_Logger (the_log_file wd) in
  let setup := (pre ++ setup_events args distributed cfg wd log_level)%list in
  (exists w0, parse_args cli w = (inr args, w0)) /\
  configured args (trace w) distributed cfg pre /\
  cfg !! "work_dir" = Some (VStr wd) /\
  cfg !! "log_level" = Some log_level /\
  (exists v, cfg !! "iter" = Some v /\ int_value v = Some n) /\
  loop_spec C args distributed the_timestamp lg cfg
            (<["env_info" := VStr env_info]> ∅)
            (trace w ++ setup)%list (next_id w)
            (py_range (seed args) (seed args + n)) runs /\
  st = foldl locals_after (mk_Locals cfg (<["env_info" := VStr env_info]> ∅) [] [] [] [])
             runs /\
  trace w' = (trace w ++ setup ++ loop_events lg (deterministic args) runs
                ++ report_events lg st)%list /\
  next_id w' = (2 * length runs + next_id w)%nat.

End MainSpec.

Section NewTrace.
Context {num : Type}.

(** The calls [w'] has on top of [w]. *)
Definition new_trace (w w' : World num) : list (Event num) :=
  drop (length (trace w)) (trace w').

End NewTrace.

Section CfgIter.
Context {num : Type} (C : Collab num).

(** [cfg.iter], as the loop bound reads it. *)
Definition cfg_iter (cfg : gmap string value) : option Z := cfg !! "iter" ≫= int_value.

End CfgIter.

(** ** Paths and the time stamp *)

(** The separator [posixpath.join] puts after a first component. *)
Definition path_sep (a : string) : string :=
  if String.eqb a "" || endswith slash a then "" else "/".

Definition two_digits (z : Z) : bool :=
  match zfill 2 (str_int z) with
  | String a (String b EmptyString) => is_digit a && is_digit b
  | _ => false
  end.

Definition four_digits (z : Z) : bool :=
  match zfill 4 (str_int z) with
  | String a (String b (String c (String d EmptyString))) =>
      is_digit a && is_digit b && is_digit c && is_digit d
  | _ => false
  end.

Section Shapes.
Context {num : Type} (C : Collab num).

(** The calls of one pass of the loop, in the order of the source: the
    seed is set, the classifier is built from [cfg.model] and its weights
    are initialised, the dataset is built from [cfg.data.train], the
    model is trained, and that same model is tested. *)
Definition pass_shape (seg : list (Event num)) : Prop :=
  exists lg s det model_cfg model train_cfg base ctr cte res,
    seg = [EvLog lg (MsgSetSeed s det);
           EvSetRandomSeed s det;
           EvBuildClassifier model_cfg model;
           EvInitWeights model;
           EvBuildDataset train_cfg base;
           EvTrainModel ctr;
           EvTestModel cte res] /\
    tr_model ctr = model /\
    te_model cte = model /\
    tr_cfg ctr !! "model" = Some model_cfg /\
    exists d, tr_cfg ctr !! "data" = Some (VDict d) /\ d !! "train" = Some train_cfg.




End Shapes.

(** ** When [main] completes *)

Section Ready.
Context {num : Type} (C : Collab num).

(** [parse_args] accepts the command line. *)
Definition parse_ok (cli : Cli) : bool :=
  negb (1 <? supplied (cli_device cli) + supplied (cli_gpus cli)
             + supplied (cli_gpu_ids cli))%nat
  && negb (bool_decide (cli_gpu_ids cli = Some [])).

(** [cfg] has what the body of the loop reads: [model], [data.train], a
    [workflow] with a length, and a [checkpoint_config] that is [None] or
    a dict. *)
Definition loop_ready (cfg : gmap string value) : bool :=
  match cfg !! "model", cfg !! "data", cfg !! "workflow",
        cfg !! "checkpoint_config" with
  | Some _, Some (VDict d), Some wf, Some ck =>
      match d !! "train", len_value wf, ck with
      | Some _, Some _, (VNone | VDict _) => true
      | _, _, _ => false
      end
  | _, _, _, _ => false
  end.

(** The command line is accepted, the config file can be loaded, and the
    merged configuration has what [main] reads: [dist_params] (a dict)
    when the run is distributed, [log_level], an integer [iter], and, when
    [iter] is positive, what the body of the loop reads. *)
Definition ready (cli : Cli) : bool :=
  parse_ok cli &&
  match Config_fromfile C (config (namespace cli)) with
  | None => false
  | Some cfg0 =>
      let args := namespace cli in
      let cfg := cli_cfg C args cfg0 in
      match launcher args with
      | none => true
      | _ => match cfg !! "dist_params" with Some (VDict _) => true | _ => false end
      end
      && match cfg !! "log_level" with Some _ => true | None => false end
      && match cfg !! "iter" ≫= int_value with
         | Some n => (n <=? 0) || loop_ready cfg
         | None => false
         end
  end.

End Ready.

(** * Concrete runs *)

Module Demo.

Definition file_cfg : gmap string value :=
  list_to_map
    [("work_dir", VStr "from_file");
     ("log_level", VStr "INFO");
     ("iter", VInt 2);
     ("model", VDict (list_to_map [("type", VStr "ResNet")]));
     ("data", VDict (list_to_map [("train", VDict (list_to_map [("type", VStr "Pavia")]))]));
     ("workflow", VList [VList [VStr "train"; VInt 1]]);
     ("checkpoint_config", VDict (list_to_map [("interval", VInt 1)]));
     ("dist_params", VDict (list_to_map [("backend", VStr "nccl")]))].

Section Generic.
Context {num : Type}.
Variables (results : ident -> Metrics num).
Variables (mean std : list num -> num) (mean0 std0 : list (list num) -> list num).

(** Collaborators over a file system that holds the default config
    file, with the content [file_cfg]; [merge_from_dict] handles options
    whose keys have no dot; what [test_model] returns depends on the
    model it is given. *)
Definition collab : Collab num := {|
  Config_fromfile := fun path =>
    if String.eqb path "../configs/resnet/resnet50_in.py" then Some file_cfg else None;
  merge_from_dict := fun cfg o => o ∪ cfg;
  pretty_text := fun _ => "<cfg>";
  get_dist_info := fun _ => (0, 4);
  osp_abspath := fun path => osp_join "/work/tools" path;
  time_localtime := mk_struct_time 2021 3 7 9 5 0;
  version := "0.1.0";
  collect_env := [("sys.platform", "linux"); ("Python", "3.8")];
  CLASSES := fun _ => VList [VStr "Asphalt"; VStr "Meadows"];
  test_model := fun _ c => results (te_model c);
  np_mean := mean;
  np_std := std;
  np_mean_axis0 := mean0;
  np_std_axis0 := std0
|}.

Definition world0 : World num := mk_World [] 0%nat ∅ false.

(** [main] with nothing on the command line. *)
Definition outcome : (exn + Locals num) * World num :=
  main_body collab no_cli world0.

Definition no_locals : Locals num := mk_Locals ∅ ∅ [] [] [] [].

Definition locals_of (o : (exn + Locals num) * World num) : Locals num :=
  match o.1 with inr st => st | inl _ => no_locals end.

End Generic.

(** A reduction along axis 0: [f] applied to each column of [rows]. *)
Fixpoint column {A} (d : A) (j : nat) (rows : list (list A)) : list A :=
  match rows with
  | [] => []
  | row :: rows' => default d (row !! j) :: column d j rows'
  end.

Definition axis0 {A} (d : A) (f : list A -> A) (rows : list (list A)) : list A :=
  match rows with
  | [] => []
  | row :: _ => (fun j => f (column d j rows)) <$> seq 0 (length row)
  end.

(** Accuracies in percent, with integer statistics. *)
Definition mean (l : list Z) : Z := foldr Z.add 0 l / Z.of_nat (length l).

Definition std (l : list Z) : Z :=
  Z.sqrt (mean ((fun x => (x - mean l) * (x - mean l)) <$> l)).

(** The first model built scores 50, 20 and 10, every later one 50, 40
    and 30. *)
Definition results (model : ident) : Metrics Z :=
  if Nat.eqb model 0 then mk_Metrics 50 20 10 [40; 0]
  else mk_Metrics 50 40 30 [60; 20].

Definition collabZ : Collab Z := collab results mean std (axis0 0 mean) (axis0 0 std).

(** The run with nothing on the command line. *)
Definition plain : (exn + Locals Z) * World Z :=
  outcome results mean std (axis0 0 mean) (axis0 0 std).

Definition plain_st : Locals Z := locals_of plain.

Definition plain_w : World Z := plain.2.

(** [--work-dir out --resume-from last.pth --no-validate '' --gpu-ids 0 1
     --seed 7 --options iter=3 --launcher pytorch] *)
Definition full_cli : Cli :=
  mk_Cli None (Some "out") (Some "last.pth") (Some "") None None (Some [0; 1])
         (Some 7) false (Some (list_to_map [("iter", VInt 3)])) (Some pytorch)
         None false.

Definition full : (exn + Locals Z) * World Z :=
  main_body collabZ full_cli world0.

Definition full_st : Locals Z := locals_of full.

Definition full_w : World Z := full.2.

(** [--config nope.py]: there is no such file. *)
Definition no_file_cli : Cli :=
  mk_Cli (Some "nope.py") None None None None None None None false None None None false.

(** [--device cuda --gpus 2]: two options of the exclusive group. *)
Definition exclusive_cli : Cli :=
  mk_Cli None None None None (Some "cuda") (Some 2) None None false None None None false.

End Demo.

(** Accuracies as real numbers, with the mean and the population
    standard deviation that [np.mean] and [np.std] approximate in floating
    point. *)
Module RealRun.

Definition mean (l : list R) : R := (foldr Rplus 0 l / INR (length l))%R.

Definition std (l : list R) : R :=
  sqrt (mean ((fun x => (x - mean l) * (x - mean l))%R <$> l)).

(** The first model built has OA 0.5 and AA 0.2, every later one OA 0.5
    and AA 0.4. *)
Definition results (model : ident) : Metrics R :=
  if Nat.eqb model 0 then mk_Metrics (1 / 2)%R (1 / 5)%R (1 / 10)%R [(2 / 5)%R; 0%R]
  else mk_Metrics (1 / 2)%R (2 / 5)%R (3 / 10)%R [(3 / 5)%R; (1 / 5)%R].

Definition collab : Collab R :=
  Demo.collab results mean std (Demo.axis0 0%R mean) (Demo.axis0 0%R std).

(** [main] with nothing on the command line: [cfg.iter] is 2. *)
Definition run : (exn + Locals R) * World R :=
  Demo.outcome results mean std (Demo.axis0 0%R mean) (Demo.axis0 0%R std).

End RealRun.

(** ** [--options] merged into the configuration *)

(** [full_key.split('.')] *)
Fixpoint split_dots (s : string) : list string :=
  match s with
  | EmptyString => [EmptyString]
  | String a r =>
      if Ascii.eqb a dot then EmptyString :: split_dots r
      else match split_dots r with
           | x :: xs => String a x :: xs
           | [] => [String a EmptyString]
           end
  end.

(** The dict [d] with [v] stored under the path [path]:
    [d.setdefault(subkey, ConfigDict())] for every component but the
    last, [d[subkey] = v] for the last. *)
Fixpoint set_path (path : list string) (v : value) (d : gmap string value)
  : gmap string value :=
  match path with
  | [] => d
  | k :: rest =>
      match rest with
      | [] => <[k := v]> d
      | _ =>
          <[k := VDict (set_path rest v
                          (match d !! k with Some (VDict d') => d' | _ => ∅ end))]> d
      end
  end.

(** The nested dict that [merge_from_dict] builds from the pairs of the
    options, whose keys are dotted paths. *)
Definition option_cfg_dict (options : gmap string value) : gmap string value :=
  foldr (fun kv d => set_path (split_dots kv.1) kv.2 d) ∅ (map_to_list options).

(** [Config._merge_a_into_b], on one value: a dict is merged into the
    dict that is there, key by key; any other value replaces what is
    there. *)
Fixpoint merge_value (v : value) (old : option value) : value :=
  match v, old with
  | VDict a, Some (VDict b) =>
      VDict (merge (fun x o => match x with
                               | Some x => Some (merge_value x o)
                               | None => o
                               end) a b)
  | _, _ => v
  end.

Definition merge_a_into_b (a b : gmap string value) : gmap string value :=
  merge (fun x o => match x with
                    | Some x => Some (merge_value x o)
                    | None => o
                    end) a b.

(** Modelled from the spec: [Config.merge_from_dict], which is mmcv's and
    not under src/.  The configuration updated by the given key/value
    pairs: a key is a dotted path into nested dicts, the value is stored
    at the end of the path, and nothing else of the configuration
    changes.  Where mmcv raises (a path that runs through a value that
    is not a dict) the value is replaced; keys that index a list and the
    [_delete_] key are left out. *)
Definition Config_merge_from_dict (cfg options : gmap string value)
  : gmap string value :=
  merge_a_into_b (option_cfg_dict options) cfg.


(** [cfg.a.b.c], for the path [a.b.c]. *)
Fixpoint lookup_path (path : list string) (d : gmap string value) : option value :=
  match path with
  | [] => None
  | k :: rest =>
      match rest with
      | [] => d !! k
      | _ => match d !! k with
             | Some (VDict d') => lookup_path rest d'
             | _ => None
             end
      end
  end.


(** ** More to read from a trace, and more runs *)

Section MoreViews.
Context {num : Type}.

Definition seed_call_of (e : Event num) : option (Z * bool) :=
  match e with EvSetRandomSeed s d => Some (s, d) | _ => None end.

(** The arguments of the [set_random_seed] calls, in call order. *)
Definition seed_calls (tr : list (Event num)) : list (Z * bool) := omap seed_call_of tr.

End MoreViews.

(** Runs that stop early or do nothing. *)
Module Edge.

(** The demo collaborators, for a config file with the content [file]. *)
Definition collab_of (file : gmap string value) : Collab Z := {|
  Config_fromfile := fun path =>
    if String.eqb path "../configs/resnet/resnet50_in.py" then Some file else None;
  merge_from_dict := fun cfg o => o ∪ cfg;
  pretty_text := fun _ => "<cfg>";
  get_dist_info := fun _ => (0, 4);
  osp_abspath := fun path => osp_join "/work/tools" path;
  time_localtime := mk_struct_time 2021 3 7 9 5 0;
  version := "0.1.0";
  collect_env := [("sys.platform", "linux"); ("Python", "3.8")];
  CLASSES := fun _ => VList [VStr "Asphalt"; VStr "Meadows"];
  test_model := fun _ c => Demo.results (te_model c);
  np_mean := Demo.mean;
  np_std := Demo.std;
  np_mean_axis0 := Demo.axis0 0 Demo.mean;
  np_std_axis0 := Demo.axis0 0 Demo.std
|}.

(** The demo file without [log_level]. *)
Definition no_log_level : gmap string value := delete "log_level" Demo.file_cfg.

(** The demo file with [iter = '2'], a string. *)
Definition text_iter : gmap string value := <["iter" := VStr "2"]> Demo.file_cfg.

(** The demo file without [model]. *)
Definition no_model : gmap string value := delete "model" Demo.file_cfg.

(** [--options iter=0] *)
Definition zero_iter_cli : Cli :=
  mk_Cli None None None None None None None None false
         (Some (list_to_map [("iter", VInt 0)])) None None false.

Definition zero_iter : (exn + Locals Z) * World Z :=
  main_body Demo.collabZ zero_iter_cli Demo.world0.

Definition zero_iter_st : Locals Z := Demo.locals_of zero_iter.

Definition zero_iter_w : World Z := zero_iter.2.





(** The world after [parse_args] on [Demo.full_cli]. *)
Definition parsed_w : World Z := (parse_args Demo.full_cli Demo.world0).2.

End Edge.

(** * Properties *)

Section Inversion.
Context {num : Type}.

Lemma bind_inr {A B} (m : M num A) (k : A -> M num B) w b w' :
  (m ≫= k) w = (inr b, w') ->
  exists a w1, m w = (inr a, w1) /\ k a w1 = (inr b, w').
Proof.
  unfold mbind, M_bind, bind. destruct (m w) as [[e|a] w1]; [done|]. eauto.
Qed.

Lemma bind_inr_intro {A B} (m : M num A) (k : A -> M num B) w a w1 :
  m w = (inr a, w1) -> (m ≫= k) w = k a w1.
Proof. unfold mbind, M_bind, bind. by intros ->. Qed.

Lemma ret_inr {A} (a b : A) (w w' : World num) :
  ret a w = (inr b, w') -> b = a /\ w' = w.
Proof. unfold ret. by intros [= <- <-]. Qed.

Lemma of_option_inr {A} e (o : option A) a (w w' : World num) :
  of_option e o w = (inr a, w') -> o = Some a /\ w' = w.
Proof. destruct o; cbn; [by intros [= <- <-] | done]. Qed.

Lemma attr_inr cfg name v (w w' : World num) :
  attr cfg name w = (inr v, w') -> cfg !! name = Some v /\ w' = w.
Proof. apply of_option_inr. Qed.

Lemma attr_of_inr d name v (w w' : World num) :
  attr_of d name w = (inr v, w') ->
  exists m, d = VDict m /\ m !! name = Some v /\ w' = w.
Proof.
  destruct d; cbn; try done. intros [? ?]%attr_inr. eauto.
Qed.

Lemma as_int_inr v z (w w' : World num) :
  as_int v w = (inr z, w') -> int_value v = Some z /\ w' = w.
Proof. apply of_option_inr. Qed.

Lemma as_str_inr v s (w w' : World num) :
  as_str v w = (inr s, w') -> v = VStr s /\ w' = w.
Proof. destruct v; cbn; try done. by intros [= <- <-]. Qed.

Lemma as_dict_inr v d (w w' : World num) :
  as_dict v w = (inr d, w') -> v = VDict d /\ w' = w.
Proof. destruct v; cbn; try done. by intros [= <- <-]. Qed.

Lemma py_len_inr v n (w w' : World num) :
  py_len v w = (inr n, w') -> len_value v = Some n /\ w' = w.
Proof. apply of_option_inr. Qed.

Lemma emit_inr e u (w w' : World num) :
  emit e w = (inr u, w') -> w' = after w [e] 0.
Proof. by intros [= <-]. Qed.

Lemma build_inr ev a (w w' : World num) :
  build ev w = (inr a, w') -> a = next_id w /\ w' = after w [ev (next_id w)] 1.
Proof. by intros [= <- <-]. Qed.

Lemma get_trace_inr h (w w' : World num) :
  get_trace w = (inr h, w') -> h = trace w /\ w' = w.
Proof. by intros [= <- <-]. Qed.

Lemma after_after (w : World num) e1 k1 e2 k2 :
  after (after w e1 k1) e2 k2 = after w (e1 ++ e2) (k2 + k1).
Proof. unfold after. cbn. f_equal; [by rewrite app_assoc | lia]. Qed.

Lemma after_nil (w : World num) : after w [] 0 = w.
Proof. destruct w. unfold after. cbn. by rewrite app_nil_r. Qed.

End Inversion.

(** Peel one [bind] off a completed computation. *)
Tactic Notation "step" hyp(H) "as" simple_intropattern(a) ident(E) :=
  let w := fresh "w" in
  apply bind_inr in H; destruct H as (a & w & E & H).

Section LoopFacts.
Context {num : Type} (C : Collab num).

Lemma set_checkpoint_meta_inr cfg ds cfg' (w w' : World num) :
  set_checkpoint_meta C cfg ds w = (inr cfg', w') ->
  w' = w /\
  match cfg !! "checkpoint_config" with
  | Some VNone => cfg' = cfg
  | Some (VDict d) =>
      cfg' = <["checkpoint_config" :=
                 VDict (<["meta" := VDict (checkpoint_meta C cfg ds)]> d)]> cfg
  | _ => False
  end.
Proof.
  unfold set_checkpoint_meta. intros H. step H as ck E.
  apply attr_inr in E as [-> ->].
  destruct ck; cbn in H; try done; by injection H as <- <-.
Qed.

Lemma iteration_inv args distributed timestamp lg seed st i w st' w' :
  iteration C args distributed timestamp lg seed st i w = (inr st', w') ->
  exists r,
    seed !! i = Some (it_seed r) /\
    pass_spec C args distributed timestamp lg (loc_cfg st) (loc_meta st)
              (trace w) (next_id w) r /\
    st' = locals_after st r /\
    w' = after w (iter_events lg (deterministic args) r) 2.
Proof.
  unfold iteration. intros H.
  step H as s E. apply of_option_inr in E as [Hs ->].
  step H as ? E. apply emit_inr in E as ->.
  step H as ? E. apply emit_inr in E as ->.
  step H as model_cfg E. apply attr_inr in E as [Hmodel ->].
  step H as model E. apply build_inr in E as [-> ->].
  step H as ? E. apply emit_inr in E as ->.
  step H as data E. apply attr_inr in E as [Hdata ->].
  step H as train_cfg E. apply attr_of_inr in E as (d & -> & Htrain & ->).
  step H as base E. apply build_inr in E as [-> ->].
  step H as wf E. apply attr_inr in E as [Hwf ->].
  step H as n E. apply py_len_inr in E as [Hlen ->].
  step H as cfg' E. apply set_checkpoint_meta_inr in E as [-> Hck].
  step H as ? E. apply emit_inr in E as ->.
  step H as h E. apply get_trace_inr in E as [-> ->].
  step H as ? E. apply emit_inr in E as ->.
  apply ret_inr in H as [-> ->].
  rewrite lookup_insert_ne in Hmodel by done.
  rewrite lookup_insert_ne in Hdata by done.
  rewrite lookup_insert_ne in Hwf by done.
  rewrite !after_after. cbn [app Nat.add trace after next_id] in *.
  set (base := S (next_id w)) in *.
  set (ds := if n =? 2 then ([train_dataset base] ++ [val_dataset base])%list
             else [train_dataset base]).
  set (tc := mk_TrainCall (next_id w) ds cfg' distributed (validate_arg args) timestamp
                          (device_arg args) (<["seed" := VInt s]> (loc_meta st))).
  set (te := mk_TestCall (next_id w) (test_dataset base) base cfg' (device_arg args)).
  set (res := test_model C _ te).
  exists (mk_IterRun s model_cfg (next_id w) train_cfg base tc te res).
  split; [done|]. split; [|split].
  - unfold pass_spec. cbn.
    repeat split; try done.
    + eauto.
    + by exists wf, n.
    + unfold cfg_of_pass.
      destruct (<["seed" := VInt s]> (loc_cfg st) !! "checkpoint_config")
        as [[]|]; try done; by subst.
  - done.
  - done.
Qed.

End LoopFacts.

Section LoopSpecFacts.
Context {num : Type} (C : Collab num).
Variables (args : Args) (distributed : bool) (timestamp : string) (lg : Logger).

Lemma for_each_iteration_inv seed k : forall i st w st' w',
  for_each (iteration C args distributed timestamp lg seed) st (seq i k) w
    = (inr st', w') ->
  exists runs,
    loop_spec C args distributed timestamp lg (loc_cfg st) (loc_meta st) (trace w) (next_id w)
              (take k (drop i seed)) runs /\
    st' = foldl locals_after st runs /\
    w' = after w (loop_events lg (deterministic args) runs) (2 * length runs).
Proof.
  induction k as [|k IH]; intros i st w st' w' H.
  - apply ret_inr in H as [-> ->]. exists []. cbn.
    by rewrite after_nil.
  - cbn [seq for_each] in H. step H as st1 E.
    apply iteration_inv in E as (r & Hs & Hp & -> & ->).
    apply IH in H as (runs & Hl & -> & ->).
    exists (r :: runs). rewrite (drop_S _ _ _ Hs). cbn [take loop_spec].
    split; [done|]. split; [done|].
    rewrite after_after. unfold loop_events. cbn [fmap list_fmap concat length].
    f_equal. lia.
Qed.

Lemma loop_spec_length cfg meta tr nid seeds runs :
  loop_spec C args distributed timestamp lg cfg meta tr nid seeds runs -> length runs = length seeds.
Proof.
  revert cfg meta tr nid runs.
  induction seeds as [|s seeds IH]; intros cfg meta tr nid [|r runs] H;
    cbn in *; try done.
  destruct H as (_ & _ & H). f_equal. eauto.
Qed.

Lemma loop_spec_seeds cfg meta tr nid seeds runs :
  loop_spec C args distributed timestamp lg cfg meta tr nid seeds runs -> it_seed <$> runs = seeds.
Proof.
  revert cfg meta tr nid runs.
  induction seeds as [|s seeds IH]; intros cfg meta tr nid [|r runs] H;
    cbn in *; try done.
  destruct H as (<- & _ & H). f_equal. eauto.
Qed.

(** Every pass satisfies [pass_spec] for the state it started in. *)
Lemma loop_spec_each cfg meta tr nid seeds runs :
  loop_spec C args distributed timestamp lg cfg meta tr nid seeds runs ->
  Forall (fun r => exists cfg' meta' tr' nid',
            pass_spec C args distributed timestamp lg cfg' meta' tr' nid' r) runs.
Proof.
  revert cfg meta tr nid runs.
  induction seeds as [|s seeds IH]; intros cfg meta tr nid [|r runs] H;
    cbn in *; try done.
  destruct H as (_ & Hp & H). constructor; eauto 6.
Qed.

(** The pass number [j] started after the calls of the passes before it. *)
Lemma loop_spec_lookup cfg meta tr nid seeds runs j r :
  loop_spec C args distributed timestamp lg cfg meta tr nid seeds runs ->
  runs !! j = Some r ->
  exists cfg' meta',
    pass_spec C args distributed timestamp lg cfg' meta'
      (tr ++ loop_events lg (deterministic args) (take j runs))%list
      (2 * j + nid)%nat r.
Proof.
  revert cfg meta tr nid runs j.
  induction seeds as [|s seeds IH]; intros cfg meta tr nid [|r0 runs] j H Hj;
    cbn [loop_spec] in H; try done.
  destruct H as (_ & Hp & H). destruct j as [|j].
  - injection Hj as ->. exists cfg, meta. cbn [take]. unfold loop_events.
    cbn [fmap list_fmap concat]. by rewrite app_nil_r.
  - cbn [lookup list_lookup] in Hj.
    destruct (IH _ _ _ _ _ _ H Hj) as (cfg' & meta' & Hp').
    exists cfg', meta'. rewrite <- app_assoc in Hp'.
    cbn [take]. unfold loop_events. cbn [fmap list_fmap concat].
    by replace (2 * S j + nid)%nat with (2 * j + S (S nid))%nat by lia.
Qed.

End LoopSpecFacts.

Section MainSpecFacts.
Context {num : Type} (C : Collab num).

Lemma report_inr lg st u w w' :
  report C lg st w = (inr u, w') -> w' = after w (report_events C lg st) 0.
Proof.
  unfold report. intros H.
  do 7 (step H as ? E; apply emit_inr in E as ->).
  apply emit_inr in H as ->.
  by rewrite !after_after.
Qed.

Lemma parse_args_inv cli args (w w' : World num) :
  parse_args cli w = (inr args, w') ->
  args = namespace cli /\ trace w' = trace w /\ next_id w' = next_id w.
Proof.
  unfold parse_args. intros H.
  destruct (_ <? _)%nat; [done|]. destruct (bool_decide _); [done|].
  step H as ? E. apply ret_inr in H as [-> ->].
  split; [done|]. unfold set_local_rank in E.
  destruct (environ w !! "LOCAL_RANK"); by simplify_eq.
Qed.

Lemma configure_inv args w distributed cfg w' :
  configure C args w = (inr (distributed, cfg), w') ->
  exists pre,
    configured C args (trace w) distributed cfg pre /\
    trace w' = (trace w ++ pre)%list /\ next_id w' = next_id w.
Proof.
  unfold configure. intros H.
  step H as cfg0 E. apply of_option_inr in E as [Hf ->].
  step H as ? E.
  assert (Ht : trace w0 = trace w /\ next_id w0 = next_id w).
  { destruct (truthy _); [by unfold set_cudnn_benchmark in E; simplify_eq
                         | by apply ret_inr in E as [_ ->]]. }
  destruct Ht as [Ht Hn]. clear E.
  fold (cli_cfg C args cfg0) in H.
  destruct (launcher args) eqn:Hl.
  { apply ret_inr in H as [[= -> ->] ->]. exists [].
    rewrite app_nil_r. split; [|done]. exists cfg0. split; [done|]. by left. }
  all: step H as dp E; apply attr_inr in E as [Hdp ->].
  all: step H as kw E; apply as_dict_inr in E as [-> ->].
  all: step H as ? E; apply emit_inr in E as ->.
  all: step H as h E; apply get_trace_inr in E as [-> ->].
  all: apply ret_inr in H as [[= -> ->] ->].
  all: cbn [after trace next_id]; rewrite Ht.
  all: eexists [_]; split; [|done].
  all: exists cfg0; split; [done|]; right; split; [by rewrite Hl|]; split; [done|].
  all: exists kw; rewrite Hl; done.
Qed.

End MainSpecFacts.

Lemma py_range_length lo hi : length (py_range lo hi) = Z.to_nat (hi - lo).
Proof. unfold py_range. by rewrite length_map, length_seq. Qed.

Lemma py_range_lookup lo hi (i : nat) :
  (i < Z.to_nat (hi - lo))%nat -> py_range lo hi !! i = Some (lo + Z.of_nat i).
Proof.
  intros Hi. unfold py_range. rewrite list_lookup_fmap, lookup_seq_lt by done. done.
Qed.

Section MainInv.
Context {num : Type} (C : Collab num).

Lemma main_body_inv cli w st w' :
  main_body C cli w = (inr st, w') ->
  exists distributed cfg pre wd log_level n runs,
    completed_run C cli w st w' distributed cfg pre wd log_level n runs.
Proof.
  unfold main_body. intros H.
  step H as args E. pose proof (parse_args_inv _ _ _ _ E) as (-> & Ht0 & Hn0).
  step H as [distributed cfg] Ec.
  apply configure_inv in Ec as (pre & Hc & Ht1 & Hn1).
  rewrite Ht0 in Hc, Ht1. rewrite Hn0 in Hn1.
  step H as wdv Ea. apply attr_inr in Ea as [Hwd ->].
  step H as wd Ea. apply as_str_inr in Ea as [-> ->].
  step H as ? Ea. apply emit_inr in Ea as ->.
  step H as ? Ea. apply emit_inr in Ea as ->.
  step H as ll Ea. apply attr_inr in Ea as [Hll ->].
  step H as ? Ea. apply emit_inr in Ea as ->.
  step H as ? Ea. apply emit_inr in Ea as ->.
  step H as ? Ea. apply emit_inr in Ea as ->.
  step H as ? Ea. apply emit_inr in Ea as ->.
  step H as itv Ea. apply attr_inr in Ea as [Hit ->].
  step H as n Ea. apply as_int_inr in Ea as [Hn ->].
  step H as st1 Ea. apply for_each_iteration_inv in Ea as (runs & Hloop & -> & ->).
  step H as ? Ea. apply report_inr in Ea as ->.
  apply ret_inr in H as [-> ->].
  rewrite !after_after in *. cbn [app Nat.add] in *.
  exists distributed, cfg, pre, wd, ll, n, runs.
  unfold completed_run. cbn zeta.
  split; [by eauto|]. split; [done|]. split; [done|]. split; [done|].
  split; [by eauto|].
  cbn [after trace next_id loc_cfg loc_meta] in Hloop.
  rewrite Ht1, Hn1, <- app_assoc in Hloop.
  rewrite drop_0, take_ge in Hloop
    by (rewrite py_range_length; apply Nat.eq_le_incl; f_equal; lia).
  split; [exact Hloop|]. split; [done|].
  cbn [after trace next_id]. rewrite Ht1, Hn1, <- !app_assoc.
  split; [done | lia].
Qed.

End MainInv.

Section ViewFacts.
Context {num : Type}.

Implicit Types (runs : list (IterRun num)) (tr : list (Event num)).

Lemma new_trace_eq (w w' : World num) tr :
  trace w' = (trace w ++ tr)%list -> new_trace w w' = tr.
Proof. unfold new_trace. intros ->. by rewrite drop_app_length. Qed.

Lemma loop_events_cons lg det r runs :
  loop_events lg det (r :: runs)
  = (iter_events lg det r ++ loop_events lg det runs)%list.
Proof. done. Qed.

Lemma loop_events_app lg det runs1 runs2 :
  loop_events lg det (runs1 ++ runs2)
  = (loop_events lg det runs1 ++ loop_events lg det runs2)%list.
Proof. unfold loop_events. by rewrite fmap_app, concat_app. Qed.

Lemma seeds_set_app tr1 tr2 :
  seeds_set (tr1 ++ tr2) = (seeds_set tr1 ++ seeds_set tr2)%list.
Proof. apply omap_app. Qed.

Lemma train_calls_app tr1 tr2 :
  train_calls (tr1 ++ tr2) = (train_calls tr1 ++ train_calls tr2)%list.
Proof. apply omap_app. Qed.

Lemma test_calls_app tr1 tr2 :
  test_calls (tr1 ++ tr2) = (test_calls tr1 ++ test_calls tr2)%list.
Proof. apply omap_app. Qed.

Lemma init_dist_calls_app tr1 tr2 :
  init_dist_calls (tr1 ++ tr2) = (init_dist_calls tr1 ++ init_dist_calls tr2)%list.
Proof. apply omap_app. Qed.

Lemma logged_app tr1 tr2 : logged (tr1 ++ tr2) = (logged tr1 ++ logged tr2)%list.
Proof. apply omap_app. Qed.

Lemma seeds_set_loop lg det runs :
  seeds_set (loop_events lg det runs) = it_seed <$> runs.
Proof.
  induction runs as [|r runs IH]; [done|].
  by rewrite loop_events_cons, seeds_set_app, IH.
Qed.

Lemma train_calls_loop lg det runs :
  train_calls (loop_events lg det runs) = it_train <$> runs.
Proof.
  induction runs as [|r runs IH]; [done|].
  by rewrite loop_events_cons, train_calls_app, IH.
Qed.

Lemma test_calls_loop lg det runs :
  test_calls (loop_events lg det runs) = (fun r => (it_test r, it_result r)) <$> runs.
Proof.
  induction runs as [|r runs IH]; [done|].
  by rewrite loop_events_cons, test_calls_app, IH.
Qed.

Lemma init_dist_calls_loop lg det runs :
  init_dist_calls (loop_events lg det runs) = [].
Proof.
  induction runs as [|r runs IH]; [done|].
  by rewrite loop_events_cons, init_dist_calls_app, IH.
Qed.

Lemma logged_loop lg det runs :
  Forall (fun x => x.1 = lg) (logged (loop_events lg det runs)).
Proof.
  induction runs as [|r runs IH]; [constructor|].
  rewrite loop_events_cons, logged_app.
  apply Forall_app. split; [|done]. cbn. by constructor.
Qed.

Lemma foldl_locals_after_acc (st : Locals num) runs :
  let st' := foldl locals_after st runs in
  KAPPA st' = (KAPPA st ++ (kappa ∘ it_result <$> runs))%list /\
  OA st' = (OA st ++ (overall_acc ∘ it_result <$> runs))%list /\
  AA st' = (AA st ++ (average_acc ∘ it_result <$> runs))%list /\
  ELEMENT_ACC st' = (ELEMENT_ACC st ++ (each_acc ∘ it_result <$> runs))%list.
Proof.
  revert st. induction runs as [|r runs IH]; intros st; cbn.
  - by rewrite !app_nil_r.
  - destruct (IH (locals_after st r)) as (-> & -> & -> & ->). cbn.
    by rewrite <- !app_assoc.
Qed.

Lemma foldl_locals_after_cfg (st : Locals num) runs :
  loc_cfg (foldl locals_after st runs)
  = default (loc_cfg st) (tr_cfg ∘ it_train <$> last runs).
Proof.
  revert st. induction runs as [|r runs IH]; intros st; [done|].
  cbn [foldl]. rewrite IH. cbn [locals_after loc_cfg].
  destruct runs as [|r' runs]; [done|]. rewrite last_cons_cons.
  destruct (last (r' :: runs)) eqn:E; [done|]. by apply last_None in E.
Qed.

End ViewFacts.

Section Frame.
Context {num : Type} (C : Collab num).

Lemma cfg_of_pass_seed cfg s base cfg' :
  cfg_of_pass C cfg s base = Some cfg' -> cfg' !! "seed" = Some (VInt s).
Proof.
  unfold cfg_of_pass. intros H.
  destruct (<["seed" := VInt s]> cfg !! "checkpoint_config") as [[]|];
    simplify_eq; by simplify_map_eq.
Qed.

Lemma cfg_of_pass_lookup cfg s base cfg' k :
  cfg_of_pass C cfg s base = Some cfg' ->
  k <> "seed" -> k <> "checkpoint_config" -> cfg' !! k = cfg !! k.
Proof.
  unfold cfg_of_pass. intros H Hk1 Hk2.
  destruct (<["seed" := VInt s]> cfg !! "checkpoint_config") as [[]|];
    simplify_eq; by simplify_map_eq.
Qed.

(** The loop writes to [cfg.seed] and [cfg.checkpoint_config] only. *)
Lemma loop_spec_frame args distributed timestamp lg cfg meta tr nid seeds runs :
  loop_spec C args distributed timestamp lg cfg meta tr nid seeds runs ->
  Forall (fun r => forall k, k <> "seed" -> k <> "checkpoint_config" ->
                   tr_cfg (it_train r) !! k = cfg !! k) runs.
Proof.
  revert cfg meta tr nid runs.
  induction seeds as [|s seeds IH]; intros cfg meta tr nid [|r runs] H;
    cbn [loop_spec] in H; try done.
  destruct H as (_ & Hp & H).
  assert (Hr : forall k, k <> "seed" -> k <> "checkpoint_config" ->
                 tr_cfg (it_train r) !! k = cfg !! k).
  { intros k ? ?. destruct Hp as (_ & _ & _ & _ & _ & Hc & _).
    by apply (cfg_of_pass_lookup _ _ _ _ _ Hc). }
  constructor; [done|].
  eapply Forall_impl; [by eapply IH|].
  intros r' Hr' k ? ?. cbn in Hr'. rewrite Hr' by done. by apply Hr.
Qed.

End Frame.

Section RunFacts.
Context {num : Type} (C : Collab num).

Lemma completed_new_trace cli w st w' distributed cfg pre wd ll n runs :
  completed_run C cli w st w' distributed cfg pre wd ll n runs ->
  new_trace w w'
  = (pre ++ setup_events C (namespace cli) distributed cfg wd ll
       ++ loop_events (mk_Logger (the_log_file C wd))
            (deterministic (namespace cli)) runs
       ++ report_events C (mk_Logger (the_log_file C wd)) st)%list.
Proof.
  intros (_ & _ & _ & _ & _ & _ & _ & Ht & _).
  apply new_trace_eq. rewrite Ht. by rewrite <- !app_assoc.
Qed.

Lemma configured_pre_views args tr distributed cfg pre :
  configured C args tr distributed cfg pre ->
  seeds_set pre = [] /\ train_calls pre = [] /\ test_calls pre = [] /\
  logged pre = [] /\ forallb (fun e => negb (is_loop_event e)) pre = true /\
  init_dist_calls pre = (if distributed then [launcher args] else []) /\
  distributed = bool_decide (launcher args <> none).
Proof.
  intros (cfg0 & _ & [(Hl & -> & -> & _)|(Hl & -> & kw & _ & -> & _)]).
  - rewrite Hl. by rewrite bool_decide_eq_false_2 by (intros ?; done).
  - by rewrite bool_decide_eq_true_2.
Qed.

Lemma completed_views cli w st w' distributed cfg pre wd ll n runs :
  completed_run C cli w st w' distributed cfg pre wd ll n runs ->
  seeds_set (new_trace w w') = it_seed <$> runs /\
  train_calls (new_trace w w') = it_train <$> runs /\
  test_calls (new_trace w w') = (fun r => (it_test r, it_result r)) <$> runs /\
  init_dist_calls (new_trace w w')
    = (if distributed then [launcher (namespace cli)] else []).
Proof.
  intros H. rewrite (completed_new_trace _ _ _ _ _ _ _ _ _ _ _ H).
  destruct H as (_ & Hc & _).
  apply configured_pre_views in Hc as (H1 & H2 & H3 & _ & _ & H4 & _).
  rewrite !seeds_set_app, !train_calls_app, !test_calls_app, !init_dist_calls_app.
  rewrite H1, H2, H3, H4.
  rewrite seeds_set_loop, train_calls_loop, test_calls_loop, init_dist_calls_loop.
  cbn. rewrite !app_nil_r. done.
Qed.

Lemma completed_runs_seeds cli w st w' distributed cfg pre wd ll n runs :
  completed_run C cli w st w' distributed cfg pre wd ll n runs ->
  it_seed <$> runs
  = py_range (seed (namespace cli)) (seed (namespace cli) + n) /\
  length runs = Z.to_nat n.
Proof.
  intros (_ & _ & _ & _ & _ & Hl & _).
  split; [by eapply loop_spec_seeds|].
  rewrite (loop_spec_length _ _ _ _ _ _ _ _ _ _ _ Hl), py_range_length.
  f_equal. lia.
Qed.

Lemma completed_frame cli w st w' distributed cfg pre wd ll n runs k :
  completed_run C cli w st w' distributed cfg pre wd ll n runs ->
  k <> "seed" -> k <> "checkpoint_config" ->
  loc_cfg st !! k = cfg !! k /\
  Forall (fun c => tr_cfg c !! k = cfg !! k) (train_calls (new_trace w w')).
Proof.
  intros H Hk1 Hk2.
  destruct (completed_views _ _ _ _ _ _ _ _ _ _ _ H) as (_ & -> & _).
  destruct H as (_ & _ & _ & _ & _ & Hl & -> & _).
  apply loop_spec_frame in Hl.
  split.
  - rewrite foldl_locals_after_cfg. cbn [loc_cfg].
    destruct (last runs) as [r|] eqn:E; [|done]. cbn.
    apply last_Some_elem_of in E.
    rewrite Forall_forall in Hl. by apply Hl.
  - apply Forall_fmap. eapply Forall_impl; [exact Hl|]. intros r Hr. by apply Hr.
Qed.

Lemma completed_cfg_iter cli w st w' distributed cfg pre wd ll n runs :
  completed_run C cli w st w' distributed cfg pre wd ll n runs ->
  cfg_iter (loc_cfg st) = Some n.
Proof.
  intros H.
  destruct (completed_frame _ _ _ _ _ _ _ _ _ _ _ "iter" H) as [Hk _]; [done..|].
  destruct H as (_ & _ & _ & _ & (v & Hv & Hn) & _).
  unfold cfg_iter. by rewrite Hk, Hv.
Qed.

End RunFacts.

Lemma osp_join_inside a b :
  startswith slash b = false -> osp_join a b = a ++ path_sep a ++ b.
Proof.
  intros Hb. unfold osp_join, path_sep. rewrite Hb.
  by destruct (String.eqb a "" || endswith slash a).
Qed.

Lemma rfind_ge c s : -1 <= rfind c s.
Proof. induction s as [|a s IH]; cbn; repeat case_match; lia. Qed.

Lemma rfind_lt c s : rfind c s < Z.of_nat (String.length s).
Proof. induction s as [|a s IH]; cbn -[Z.of_nat]; repeat case_match; lia. Qed.

Lemma rfind_none c s : rfind c s = -1 -> contains c s = false.
Proof.
  induction s as [|a s IH]; [done|]. cbn.
  pose proof (rfind_ge c s).
  destruct (0 <=? rfind c s) eqn:E; [lia|].
  apply Z.leb_gt in E. destruct (Ascii.eqb a c); [done|].
  intros _. apply IH. lia.
Qed.

Lemma substring_all s : String.substring 0 (String.length s) s = s.
Proof. induction s as [|a s IH]; [done|]. cbn. by rewrite IH. Qed.

Lemma osp_basename_no_slash p : contains slash (osp_basename p) = false.
Proof.
  unfold osp_basename. induction p as [|a p IH]; [done|].
  cbn -[Z.to_nat Z.add String.substring String.length].
  pose proof (rfind_ge slash p). pose proof (rfind_lt slash p).
  destruct (0 <=? rfind slash p) eqn:E.
  - apply Z.leb_le in E.
    replace (Z.to_nat (rfind slash p + 1 + 1)) with (S (Z.to_nat (rfind slash p + 1)))
      by lia.
    cbn [String.substring String.length]. exact IH.
  - apply Z.leb_gt in E. assert (Hr : rfind slash p = -1) by lia.
    destruct (Ascii.eqb a slash) eqn:Ea.
    + change (Z.to_nat (0 + 1)) with 1%nat.
      cbn [String.substring String.length Nat.sub].
      rewrite Nat.sub_0_r, substring_all. by apply rfind_none.
    + change (Z.to_nat (-1 + 1)) with 0%nat.
      cbn [String.substring String.length Nat.sub].
      rewrite substring_all. cbn. rewrite Ea. by apply rfind_none.
Qed.

Lemma contains_startswith c s : contains c s = false -> startswith c s = false.
Proof. destruct s; [done|]. cbn. by intros [? _]%orb_false_iff. Qed.

Lemma py_range_elem lo hi z : lo <= z < hi -> In z (py_range lo hi).
Proof.
  intros Hz. apply list_elem_of_In.
  apply (list_elem_of_lookup_2 _ (Z.to_nat (z - lo))).
  rewrite py_range_lookup by lia. f_equal. lia.
Qed.

Lemma two_digits_ok z : 0 <= z <= 99 -> two_digits z = true.
Proof.
  intros Hz.
  assert (Hall : forallb two_digits (py_range 0 100) = true) by (vm_compute; done).
  rewrite forallb_forall in Hall. apply Hall, py_range_elem. lia.
Qed.

Lemma is_digit_digit k : (k < 10)%N -> is_digit (digit k) = true.
Proof.
  intros Hk. unfold is_digit, digit.
  rewrite N_ascii_embedding by lia.
  apply andb_true_iff. split; apply N.leb_le; lia.
Qed.

Lemma dec_four_digits n :
  (1000 <= n <= 9999)%N ->
  dec n = String (digit (n / 10 / 10 / 10 mod 10))
            (String (digit (n / 10 / 10 mod 10))
               (String (digit (n / 10 mod 10))
                  (String (digit (n mod 10)) EmptyString))).
Proof.
  intros Hn.
  assert (B1 : (100 <= n / 10 < 1000)%N)
    by (split; [apply N.div_le_lower_bound|apply N.Div0.div_lt_upper_bound]; lia).
  assert (B2 : (10 <= n / 10 / 10 < 100)%N)
    by (split; [apply N.div_le_lower_bound|apply N.Div0.div_lt_upper_bound]; lia).
  assert (B3 : (1 <= n / 10 / 10 / 10 < 10)%N)
    by (split; [apply N.div_le_lower_bound|apply N.Div0.div_lt_upper_bound]; lia).
  assert (B4 : (n / 10 / 10 / 10 / 10 = 0)%N) by (apply N.div_small; lia).
  assert (Hsize : (10 <= N.size_nat n)%nat).
  { destruct n as [|p]; [lia|]. cbn [N.size_nat].
    change 10%nat with (Pos.size_nat 512). apply Pos.size_nat_monotone. lia. }
  unfold dec.
  destruct (N.size_nat n) as [|[|[|f]]]; [lia..|].
  cbn [dec_go].
  rewrite (proj2 (N.eqb_neq (n / 10) 0)) by lia.
  rewrite (proj2 (N.eqb_neq (n / 10 / 10) 0)) by lia.
  rewrite (proj2 (N.eqb_neq (n / 10 / 10 / 10) 0)) by lia.
  by rewrite B4.
Qed.

Lemma four_digits_ok z : 1000 <= z <= 9999 -> four_digits z = true.
Proof.
  intros Hz. unfold four_digits, str_int.
  rewrite (proj2 (Z.ltb_ge z 0)) by lia.
  rewrite dec_four_digits by lia.
  cbv beta iota delta [zfill zeros String.length Nat.sub String.append].
  rewrite !is_digit_digit; [done|apply N.mod_lt; lia..].
Qed.

Lemma strftime_shape t : valid_time t -> is_timestamp (strftime_Ymd_HMS t) = true.
Proof.
  intros (Hy & Hm & Hd & Hh & Hi & Hs).
  apply four_digits_ok in Hy.
  assert (Hm' := two_digits_ok (tm_mon t) ltac:(lia)).
  assert (Hd' := two_digits_ok (tm_mday t) ltac:(lia)).
  assert (Hh' := two_digits_ok (tm_hour t) ltac:(lia)).
  assert (Hi' := two_digits_ok (tm_min t) ltac:(lia)).
  assert (Hs' := two_digits_ok (tm_sec t) ltac:(lia)).
  clear Hm Hd Hh Hi Hs.
  unfold strftime_Ymd_HMS, four_digits, two_digits in *.
  destruct (zfill 4 _) as [|y1 [|y2 [|y3 [|y4 [|]]]]]; try done.
  destruct (zfill 2 (str_int (tm_mon t))) as [|m1 [|m2 [|]]]; try done.
  destruct (zfill 2 (str_int (tm_mday t))) as [|d1 [|d2 [|]]]; try done.
  destruct (zfill 2 (str_int (tm_hour t))) as [|h1 [|h2 [|]]]; try done.
  destruct (zfill 2 (str_int (tm_min t))) as [|i1 [|i2 [|]]]; try done.
  destruct (zfill 2 (str_int (tm_sec t))) as [|s1 [|s2 [|]]]; try done.
  cbv beta iota delta [is_timestamp String.append String.list_ascii_of_string forallb].
  apply andb_true_iff in Hy as [Hy Hy4]. apply andb_true_iff in Hy as [Hy Hy3].
  apply andb_true_iff in Hy as [Hy1 Hy2].
  apply andb_true_iff in Hm' as [Hm1 Hm2]. apply andb_true_iff in Hd' as [Hd1 Hd2].
  apply andb_true_iff in Hh' as [Hh1 Hh2]. apply andb_true_iff in Hi' as [Hi1 Hi2].
  apply andb_true_iff in Hs' as [Hs1 Hs2].
  rewrite Hy1, Hy2, Hy3, Hy4, Hm1, Hm2, Hd1, Hd2, Hh1, Hh2, Hi1, Hi2, Hs1, Hs2.
  reflexivity.
Qed.

Lemma timestamp_startswith s : is_timestamp s = true -> startswith slash s = false.
Proof.
  unfold is_timestamp. destruct s as [|a s]; [done|]. cbn.
  destruct (String.list_ascii_of_string s) as [|? [|? [|? [|? [|? [|? [|? [|? [|?
    [|? [|? [|? [|? [|? [|? ?]]]]]]]]]]]]]]]; try done.
  intros [[Ha _]%andb_true_iff _]%andb_true_iff.
  destruct (Ascii.eqb_spec a slash) as [->|]; [done|done].
Qed.

Section Claims.
Context {num : Type} (C : Collab num).

Lemma pass_spec_seed args distributed timestamp lg cfg meta tr nid r :
  pass_spec C args distributed timestamp lg cfg meta tr nid r ->
  tr_cfg (it_train r) !! "seed" = Some (VInt (it_seed r)) /\
  tr_meta (it_train r) !! "seed" = Some (VInt (it_seed r)).
Proof.
  intros (_ & _ & _ & _ & _ & Hc & _ & _ & _ & _ & _ & Hm & _).
  split; [by eapply cfg_of_pass_seed|]. rewrite Hm. by simplify_map_eq.
Qed.

(** C2. Whatever seed [s] the command line gives (2021 when it gives
    none) and whatever [n = cfg.iter] is, a completed [main] has made [n]
    [train_model] calls and [n] [test_model] calls, the seeds given to
    [set_random_seed] are [s, s+1, ..., s+n-1] in this order, and the
    call number [i] of [train_model] got a [cfg] with [cfg.seed = s + i]
    and a [meta] with [meta['seed'] = s + i]. *)
Theorem seeds_are_consecutive cli w st w' :
  main_body C cli w = (inr st, w') ->
  exists n,
    cfg_iter (loc_cfg st) = Some n /\
    let s := seed (namespace cli) in
    let tr := new_trace w w' in
    length (train_calls tr) = Z.to_nat n /\
    length (test_calls tr) = Z.to_nat n /\
    seeds_set tr = py_range s (s + n) /\
    forall i : nat, (i < Z.to_nat n)%nat ->
      seeds_set tr !! i = Some (s + Z.of_nat i) /\
      exists c, train_calls tr !! i = Some c /\
                tr_cfg c !! "seed" = Some (VInt (s + Z.of_nat i)) /\
                tr_meta c !! "seed" = Some (VInt (s + Z.of_nat i)).
Proof.
  intros H. apply main_body_inv in H as (d & cfg & pre & wd & ll & n & runs & H).
  exists n. split; [by eapply completed_cfg_iter|]. cbn zeta.
  destruct (completed_views _ _ _ _ _ _ _ _ _ _ _ _ H) as (-> & -> & -> & _).
  destruct (completed_runs_seeds _ _ _ _ _ _ _ _ _ _ _ _ H) as (Hs & Hlen).
  rewrite !length_fmap. split; [done|]. split; [done|]. split; [done|].
  intros i Hi.
  assert (Hsi : (it_seed <$> runs) !! i = Some (seed (namespace cli) + Z.of_nat i)).
  { rewrite Hs. apply py_range_lookup. by replace (_ + n - _) with n by lia. }
  split; [done|].
  rewrite list_lookup_fmap in Hsi.
  destruct (runs !! i) as [r|] eqn:Hr; [|done]. injection Hsi as Hsi.
  exists (it_train r). rewrite list_lookup_fmap, Hr. split; [done|].
  destruct H as (_ & _ & _ & _ & _ & Hl & _).
  apply loop_spec_each in Hl. rewrite Forall_forall in Hl.
  destruct (Hl r) as (cfg' & meta' & tr' & nid' & Hp);
    [by eapply list_elem_of_lookup_2|].
  apply pass_spec_seed in Hp as [-> ->]. by rewrite Hsi.
Qed.

(** C3. After a completed [main] with [n = cfg.iter], each of [KAPPA],
    [OA], [AA] and [ELEMENT_ACC] has [n] entries: the kappa, the overall
    accuracy, the average accuracy and the per-class accuracies of the
    [test_model] results, in call order; entry [i] comes from the call
    that has [i] [test_model] calls before it, and is what [test_model]
    returned there. *)
Theorem accumulators_collect_results cli w st w' :
  main_body C cli w = (inr st, w') ->
  exists n,
    cfg_iter (loc_cfg st) = Some n /\
    let tr := new_trace w w' in
    let results := (test_calls tr).*2 in
    length (KAPPA st) = Z.to_nat n /\ length (OA st) = Z.to_nat n /\
    length (AA st) = Z.to_nat n /\ length (ELEMENT_ACC st) = Z.to_nat n /\
    KAPPA st = kappa <$> results /\
    OA st = overall_acc <$> results /\
    AA st = average_acc <$> results /\
    ELEMENT_ACC st = each_acc <$> results /\
    forall i : nat, (i < Z.to_nat n)%nat ->
      exists before c r later,
        tr = (before ++ EvTestModel c r :: later)%list /\
        length (test_calls before) = i /\
        r = test_model C (trace w ++ before)%list c /\
        KAPPA st !! i = Some (kappa r) /\
        OA st !! i = Some (overall_acc r) /\
        AA st !! i = Some (average_acc r) /\
        ELEMENT_ACC st !! i = Some (each_acc r).
Proof.
  intros H. apply main_body_inv in H as (d & cfg & pre & wd & ll & n & runs & H).
  exists n. split; [by eapply completed_cfg_iter|]. cbn zeta.
  destruct (completed_views _ _ _ _ _ _ _ _ _ _ _ _ H) as (_ & _ & -> & _).
  destruct (completed_runs_seeds _ _ _ _ _ _ _ _ _ _ _ _ H) as (_ & Hlen).
  rewrite (completed_new_trace _ _ _ _ _ _ _ _ _ _ _ _ H).
  destruct H as (_ & Hc & _ & _ & _ & Hl & Hst & _).
  destruct (foldl_locals_after_acc
              (mk_Locals cfg (<["env_info" := VStr (env_info C)]> ∅) [] [] [] []) runs)
    as (HK & HO & HA & HE).
  rewrite <- Hst in HK, HO, HA, HE. cbn [KAPPA OA AA ELEMENT_ACC app] in *.
  rewrite HK, HO, HA, HE, <- !list_fmap_compose, !length_fmap.
  repeat (split; [done|]).
  intros i Hi.
  destruct (lookup_lt_is_Some_2 runs i) as [r Hr]; [lia|].
  apply configured_pre_views in Hc as (_ & _ & Hpre & _).
  set (lg := mk_Logger (the_log_file C wd)) in *.
  set (det := deterministic (namespace cli)) in *.
  set (setup := setup_events C (namespace cli) d cfg wd ll) in *.
  exists (pre ++ setup ++ loop_events lg det (take i runs)
            ++ iter_events_train lg det r)%list,
         (it_test r), (it_result r),
         (loop_events lg det (drop (S i) runs) ++ report_events C lg st)%list.
  split; [|split; [|split]].
  - rewrite <- (take_drop_middle runs i r Hr) at 1.
    rewrite loop_events_app, loop_events_cons. unfold iter_events.
    by rewrite <- !app_assoc.
  - rewrite !test_calls_app, Hpre, test_calls_loop, length_app, length_app, length_app.
    rewrite length_fmap, length_take. cbn. lia.
  - destruct (loop_spec_lookup _ _ _ _ _ _ _ _ _ _ _ _ _ Hl Hr)
      as (cfg' & meta' & Hp).
    destruct Hp as (_ & _ & _ & _ & _ & _ & _ & _ & _ & _ & _ & _ & _ & Hres).
    rewrite Hres. f_equal. by rewrite <- !app_assoc.
  - by rewrite !list_lookup_fmap, Hr.
Qed.


Lemma cli_cfg_work_dir args cfg0 d :
  work_dir args = Some d -> cli_cfg C args cfg0 !! "work_dir" = Some (VStr d).
Proof.
  intros Hd. unfold cli_cfg, set_gpu_ids, set_resume_from, set_work_dir.
  rewrite Hd. repeat case_match; by simplify_map_eq.
Qed.

Lemma configured_work_dir args tr distributed cfg pre d :
  configured C args tr distributed cfg pre ->
  work_dir args = Some d -> cfg !! "work_dir" = Some (VStr d).
Proof.
  intros (cfg0 & _ & [(_ & _ & _ & ->)|(_ & _ & kw & _ & _ & ->)]) Hd.
  - by apply cli_cfg_work_dir.
  - rewrite lookup_insert_ne by done. by apply cli_cfg_work_dir.
Qed.


(** C8. [parse_args] never leaves [args.work_dir] at [None]: it is the
    value of [--work-dir], or ['../results'].  So line 78 always runs:
    whatever the file said, [cfg.work_dir] is that value, in the [cfg]
    every [train_model] call got and in the one [main] ends with, and
    the directory made is that one; neither the [work_dir] of the file
    nor the name of the file is used. *)
Theorem work_dir_is_cli_value cli w st w' :
  main_body C cli w = (inr st, w') ->
  let d := default "../results" (cli_work_dir cli) in
  let tr := new_trace w w' in
  (forall (w1 w2 : World num) args,
      parse_args cli w1 = (inr args, w2) ->
      work_dir args = Some d /\
      forall cfg, set_work_dir args cfg = <["work_dir" := VStr d]> cfg) /\
  loc_cfg st !! "work_dir" = Some (VStr d) /\
  Forall (fun c => tr_cfg c !! "work_dir" = Some (VStr d)) (train_calls tr) /\
  EvMkdirOrExist (osp_abspath C d) ∈ tr.
Proof.
  intros H. apply main_body_inv in H as (dist & cfg & pre & wd & ll & n & runs & H).
  cbn zeta.
  destruct (completed_frame _ _ _ _ _ _ _ _ _ _ _ _ "work_dir" H) as [Hf Hg];
    [done..|].
  pose proof (completed_new_trace _ _ _ _ _ _ _ _ _ _ _ _ H) as Htr.
  destruct H as (_ & Hc & Hwd & _).
  pose proof (configured_work_dir _ _ _ _ _ _ Hc eq_refl) as Hd.
  cbn [work_dir namespace] in Hd.
  assert (wd = default "../results" (cli_work_dir cli)) as -> by congruence.
  split; [|split; [|split]].
  - intros w1 w2 args [-> _]%parse_args_inv. done.
  - by rewrite Hf.
  - eapply Forall_impl; [exact Hg|]. intros c ->. done.
  - rewrite Htr. rewrite !elem_of_app. right. left. cbn. left.
Qed.


Lemma pass_spec_shape args distributed timestamp lg cfg meta tr nid r :
  pass_spec C args distributed timestamp lg cfg meta tr nid r ->
  pass_shape (iter_events lg (deterministic args) r).
Proof.
  intros (Hm & Hb & Hmc & (d & Hd & Ht) & _ & Hc & Htm & _ & _ & _ & _ & _ & Hte & _).
  exists lg, (it_seed r), (deterministic args), (it_model_cfg r), (it_model r),
    (it_train_cfg r), (it_base r), (it_train r), (it_test r), (it_result r).
  split; [done|]. split; [done|]. split; [by rewrite Hte|].
  rewrite !(cfg_of_pass_lookup _ _ _ _ _ _ Hc) by done. eauto.
Qed.

Lemma app_eq_middle {A} (l1 l2 before later : list A) e :
  (l1 ++ l2 = before ++ e :: later)%list ->
  (exists later1, l1 = (before ++ e :: later1)%list /\ later = (later1 ++ l2)%list) \/
  (exists before2, before = (l1 ++ before2)%list /\ l2 = (before2 ++ e :: later)%list).
Proof.
  revert before. induction l1 as [|a l1 IH]; intros before H.
  - right. by exists before.
  - destruct before as [|b before]; cbn in H.
    + injection H as -> <-. left. by exists l1.
    + injection H as <- H.
      destruct (IH _ H) as [(l & -> & ->)|(l & -> & ->)]; [left|right]; eauto.
Qed.

Lemma not_loop_event_middle (l before later : list (Event num)) e :
  forallb (fun e => negb (is_loop_event e)) l = true ->
  l = (before ++ e :: later)%list -> is_loop_event e = false.
Proof.
  intros Hl ->. rewrite forallb_app in Hl. cbn in Hl.
  apply andb_true_iff in Hl as [_ [Hl _]%andb_true_iff].
  by apply negb_true_iff in Hl.
Qed.

(** In a sequence of passes, a [test_model] call comes right after the
    [train_model] call on its model. *)
Lemma passes_test_after_train (segs : list (list (Event num))) before c r later :
  Forall pass_shape segs ->
  concat segs = (before ++ EvTestModel c r :: later)%list ->
  exists before' ctr,
    before = (before' ++ [EvTrainModel ctr])%list /\ tr_model ctr = te_model c.
Proof.
  intros Hs. revert before.
  induction Hs as [|seg segs Hseg _ IH]; intros before H; cbn in H.
  - by destruct before.
  - apply app_eq_middle in H as [(l1 & Hseg1 & _)|(b2 & -> & H)].
    + destruct Hseg as (lg & s & det & mc & m & tc & b & ctr & cte & res
                        & -> & Hm1 & Hm2 & _).
      do 6 (destruct before as [|? before]; [done|injection Hseg1 as <- Hseg1]).
      destruct before as [|? before]; [|by destruct before].
      injection Hseg1 as <- <- _. eexists [_;_;_;_;_], ctr. split; [done|congruence].
    + destruct (IH _ H) as (b' & ctr & -> & Hm). exists (seg ++ b')%list, ctr.
      by rewrite app_assoc.
Qed.

(** C4. The calls a completed [main] makes for the loop are [n = cfg.iter]
    passes, each of the shape [pass_shape], one after the other, with
    none of these calls before the first pass or after the last.  Each
    pass builds a new model, and a [test_model] call always comes right
    after the [train_model] call on the same model. *)
Theorem loop_passes_in_order cli w st w' :
  main_body C cli w = (inr st, w') ->
  let tr := new_trace w w' in
  exists n set_up passes summary,
    cfg_iter (loc_cfg st) = Some n /\
    length passes = Z.to_nat n /\
    tr = (set_up ++ concat passes ++ summary)%list /\
    Forall pass_shape passes /\
    forallb (fun e => negb (is_loop_event e)) set_up = true /\
    forallb (fun e => negb (is_loop_event e)) summary = true /\
    NoDup (tr_model <$> train_calls tr) /\
    forall before c r later,
      tr = (before ++ EvTestModel c r :: later)%list ->
      exists before' ctr,
        before = (before' ++ [EvTrainModel ctr])%list /\ tr_model ctr = te_model c.
Proof.
  intros H. apply main_body_inv in H as (dist & cfg & pre & wd & ll & n & runs & H).
  cbn zeta.
  set (lg := mk_Logger (the_log_file C wd)).
  set (det := deterministic (namespace cli)).
  set (setup := (pre ++ setup_events C (namespace cli) dist cfg wd ll)%list).
  assert (Htr : new_trace w w'
                = (setup ++ concat (iter_events lg det <$> runs)
                     ++ report_events C lg st)%list).
  { rewrite (completed_new_trace _ _ _ _ _ _ _ _ _ _ _ _ H).
    unfold setup. by rewrite <- !app_assoc. }
  assert (Hshape : Forall pass_shape (iter_events lg det <$> runs)).
  { destruct H as (_ & _ & _ & _ & _ & Hl & _). apply loop_spec_each in Hl.
    apply Forall_fmap. eapply Forall_impl; [exact Hl|].
    intros r (cfg' & meta' & tr' & nid' & Hp). by eapply pass_spec_shape. }
  assert (Hsetup : forallb (fun e => negb (is_loop_event e)) setup = true).
  { destruct H as (_ & Hc & _).
    apply configured_pre_views in Hc as (_ & _ & _ & _ & Hpre & _).
    unfold setup. by rewrite forallb_app, Hpre. }
  exists n, setup, (iter_events lg det <$> runs), (report_events C lg st).
  split; [by eapply completed_cfg_iter|].
  split; [rewrite length_fmap; by eapply completed_runs_seeds|].
  split; [done|]. split; [done|]. split; [done|]. split; [done|].
  split.
  - destruct (completed_views _ _ _ _ _ _ _ _ _ _ _ _ H) as (_ & -> & _).
    destruct H as (_ & _ & _ & _ & _ & Hl & _).
    rewrite <- list_fmap_compose. apply NoDup_alt. intros i j m Hi Hj.
    rewrite list_lookup_fmap in Hi, Hj.
    destruct (runs !! i) as [ri|] eqn:Hri; [|done].
    destruct (runs !! j) as [rj|] eqn:Hrj; [|done].
    destruct (loop_spec_lookup _ _ _ _ _ _ _ _ _ _ _ _ _ Hl Hri)
      as (? & ? & (Hmi & _ & _ & _ & _ & _ & Hti & _)).
    destruct (loop_spec_lookup _ _ _ _ _ _ _ _ _ _ _ _ _ Hl Hrj)
      as (? & ? & (Hmj & _ & _ & _ & _ & _ & Htj & _)).
    cbn in Hi, Hj. injection Hi as Hi. injection Hj as Hj.
    rewrite Hti, Hmi in Hi. rewrite Htj, Hmj in Hj. lia.
  - intros before c r later Hsplit. rewrite Htr in Hsplit.
    apply app_eq_middle in Hsplit as [(l1 & Hs1 & _)|(b2 & -> & Hsplit)].
    { by pose proof (not_loop_event_middle _ _ _ _ Hsetup Hs1). }
    apply app_eq_middle in Hsplit as [(l1 & Hs1 & _)|(b3 & -> & Hsplit)].
    + destruct (passes_test_after_train _ _ _ _ _ Hshape Hs1) as (b' & ctr & -> & Hm).
      exists (setup ++ b')%list, ctr. by rewrite app_assoc.
    + by pose proof (not_loop_event_middle (report_events C lg st) _ _ _ eq_refl Hsplit).
Qed.

(** C7. The first calls of a completed [main], after [init_dist] when
    the run is distributed and so before any call of the loop, are:
    [mkdir_or_exist] on the absolute path of [cfg.work_dir]; [cfg.dump]
    of the merged configuration to [cfg.work_dir] joined with the base
    name of the config file; [get_root_logger] with the log file
    [cfg.work_dir] joined with ['<timestamp>.log'].  Both files are
    directly in [cfg.work_dir], the time stamp has the shape
    YYYYMMDD_HHMMSS, and every [logger.info] of [main] is made on the
    logger of that file. *)
Theorem work_dir_and_log_file_first cli w st w' :
  main_body C cli w = (inr st, w') ->
  valid_time (time_localtime C) ->
  let args := namespace cli in
  let tr := new_trace w w' in
  let ts := strftime_Ymd_HMS (time_localtime C) in
  exists wd distributed cfg log_level set_up later,
    configured C args (trace w) distributed cfg set_up /\
    cfg !! "work_dir" = Some (VStr wd) /\
    tr = (set_up
            ++ [EvMkdirOrExist (osp_abspath C wd);
                EvDump cfg (osp_join wd (osp_basename (config args)));
                EvGetRootLogger (osp_join wd (ts ++ ".log")) log_level]
            ++ later)%list /\
    forallb (fun e => negb (is_loop_event e)) set_up = true /\
    logged set_up = [] /\
    contains slash (osp_basename (config args)) = false /\
    osp_join wd (osp_basename (config args))
      = wd ++ path_sep wd ++ osp_basename (config args) /\
    is_timestamp ts = true /\
    osp_join wd (ts ++ ".log") = wd ++ path_sep wd ++ ts ++ ".log" /\
    Forall (fun x => log_file x.1 = osp_join wd (ts ++ ".log")) (logged tr).
Proof.
  intros H Ht. apply main_body_inv in H as (dist & cfg & pre & wd & ll & n & runs & H).
  cbn zeta.
  pose proof (completed_new_trace _ _ _ _ _ _ _ _ _ _ _ _ H) as Htr.
  destruct H as (_ & Hc & Hwd & _).
  destruct (configured_pre_views _ _ _ _ _ _ Hc) as (_ & _ & _ & Hlog & Hpre & _).
  pose proof (strftime_shape _ Ht) as Hts.
  exists wd, dist, cfg, ll, pre. eexists.
  split; [done|]. split; [done|]. split; [by rewrite Htr|].
  split; [done|]. split; [done|].
  split; [apply osp_basename_no_slash|].
  split; [apply osp_join_inside, contains_startswith, osp_basename_no_slash|].
  split; [done|].
  split.
  { apply osp_join_inside. apply timestamp_startswith in Hts.
    by destruct (strftime_Ymd_HMS (time_localtime C)). }
  rewrite Htr, !logged_app, Hlog. cbn [app].
  apply Forall_app. split; [by repeat constructor|].
  apply Forall_app. split.
  - eapply Forall_impl; [apply logged_loop|]. by intros [lg m] ->.
  - by repeat constructor.
Qed.


(** What a completed [main] logs last: the three lists, then for OA, AA
    and KAPPA a mean and a standard deviation, then the mean and the
    standard deviation of the per-class accuracies along axis 0.  The
    standard deviation logged in the [mean_AA ± std_AA] message is the
    one of the OA list. *)
Lemma summary_is_logged cli w st w' :
  main_body C cli w = (inr st, w') ->
  exists lg earlier,
    logged (new_trace w w')
    = (earlier ++
       [(lg, MsgOAs (OA st));
        (lg, MsgAAs (AA st));
        (lg, MsgKAPPAs (KAPPA st));
        (lg, Msg_mean_OA_std_OA (np_mean C (OA st)) (np_std C (OA st)));
        (lg, Msg_mean_AA_std_AA (np_mean C (AA st)) (np_std C (OA st)));
        (lg, Msg_mean_KAPPA_std_KAPPA (np_mean C (KAPPA st)) (np_std C (KAPPA st)));
        (lg, MsgElementMean (np_mean_axis0 C (ELEMENT_ACC st)));
        (lg, MsgElementStd (np_std_axis0 C (ELEMENT_ACC st)))])%list.
Proof.
  intros H. apply main_body_inv in H as (dist & cfg & pre & wd & ll & n & runs & H).
  rewrite (completed_new_trace _ _ _ _ _ _ _ _ _ _ _ _ H).
  eexists _, _. rewrite !logged_app. rewrite !app_assoc. done.
Qed.

End Claims.

(** ** The merge of [--options] *)

Section MergeFacts.














Lemma merge_value_not_dict v b :
  (forall d, b <> Some (VDict d)) -> merge_value v b = v.
Proof. intros Hb. destruct v, b as [[]|]; try done. by destruct (Hb d0). Qed.



End MergeFacts.

Section OptionsMerge.
Context {num : Type} (C : Collab num).


End OptionsMerge.


(** * Completion *)

Section Completion.
Context {num : Type} (C : Collab num).

Lemma loop_ready_inv cfg :
  loop_ready cfg = true ->
  exists mc d tc wf n,
    cfg !! "model" = Some mc /\ cfg !! "data" = Some (VDict d) /\
    d !! "train" = Some tc /\ cfg !! "workflow" = Some wf /\
    len_value wf = Some n /\
    (cfg !! "checkpoint_config" = Some VNone \/
     exists ck, cfg !! "checkpoint_config" = Some (VDict ck)).
Proof.
  unfold loop_ready. intros H.
  destruct (cfg !! "model") as [mc|]; [|done].
  destruct (cfg !! "data") as [[| | | | | |d]|]; try done.
  destruct (cfg !! "workflow") as [wf|]; [|done].
  destruct (cfg !! "checkpoint_config") as [ck|]; [|done].
  destruct (d !! "train") as [tc|] eqn:Ht; [|done].
  destruct (len_value wf) as [n|] eqn:Hn; [|done].
  exists mc, d, tc, wf, n. repeat (split; [done|]).
  destruct ck; try done; eauto.
Qed.

Lemma loop_ready_intro cfg mc d tc wf n :
  cfg !! "model" = Some mc -> cfg !! "data" = Some (VDict d) ->
  d !! "train" = Some tc -> cfg !! "workflow" = Some wf ->
  len_value wf = Some n ->
  (cfg !! "checkpoint_config" = Some VNone \/
   exists ck, cfg !! "checkpoint_config" = Some (VDict ck)) ->
  loop_ready cfg = true.
Proof.
  unfold loop_ready. intros -> -> Ht -> Hn [->|[ck ->]]; by rewrite Ht, Hn.
Qed.

(** A pass of the loop completes when [cfg] has what it reads, and leaves
    a [cfg] that still has it. *)
Lemma iteration_completes args distributed timestamp lg seed st i w s :
  seed !! i = Some s ->
  loop_ready (loc_cfg st) = true ->
  exists st' w',
    iteration C args distributed timestamp lg seed st i w = (inr st', w') /\
    loop_ready (loc_cfg st') = true.
Proof.
  intros Hs (mc & d & tc & wf & n & Hm & Hd & Ht & Hw & Hn & Hck)%loop_ready_inv.
  assert (Hm' : <["seed" := VInt s]> (loc_cfg st) !! "model" = Some mc)
    by (by rewrite lookup_insert_ne).
  assert (Hd' : <["seed" := VInt s]> (loc_cfg st) !! "data" = Some (VDict d))
    by (by rewrite lookup_insert_ne).
  assert (Hw' : <["seed" := VInt s]> (loc_cfg st) !! "workflow" = Some wf)
    by (by rewrite lookup_insert_ne).
  assert (Hck' : <["seed" := VInt s]> (loc_cfg st) !! "checkpoint_config" = Some VNone \/
                 exists ck, <["seed" := VInt s]> (loc_cfg st) !! "checkpoint_config"
                            = Some (VDict ck)).
  { rewrite lookup_insert_ne by done. exact Hck. }
  unfold iteration.
  unfold set_checkpoint_meta, attr_of, py_len, attr, of_option, mbind, M_bind, bind,
    emit, build, get_trace, ret.
  rewrite Hs. cbn beta iota zeta.
  rewrite Hm'. cbn beta iota zeta. rewrite Hd'. cbn beta iota zeta.
  rewrite Ht. cbn beta iota zeta. rewrite Hw'. cbn beta iota zeta.
  rewrite Hn. cbn beta iota zeta.
  destruct Hck' as [Hc|[ck Hc]]; rewrite Hc; cbn beta iota zeta.
  - eexists _, _. split; [reflexivity|]. cbn [loc_cfg].
    eapply loop_ready_intro;
      [exact Hm'|exact Hd'|exact Ht|exact Hw'|exact Hn|by left].
  - eexists _, _. split; [reflexivity|]. cbn [loc_cfg].
    eapply loop_ready_intro;
      [by rewrite lookup_insert_ne|by rewrite lookup_insert_ne|exact Ht
      |by rewrite lookup_insert_ne|exact Hn|].
    right. eexists. apply lookup_insert_eq.
Qed.

Lemma for_each_completes args distributed timestamp lg seed k : forall i st w,
  (i + k <= length seed)%nat ->
  loop_ready (loc_cfg st) = true ->
  exists st' w',
    for_each (iteration C args distributed timestamp lg seed) st (seq i k) w
    = (inr st', w').
Proof.
  induction k as [|k IH]; intros i st w Hlen Hr.
  - by eexists _, _.
  - destruct (lookup_lt_is_Some_2 seed i) as [s Hs]; [lia|].
    destruct (iteration_completes args distributed timestamp lg seed st i w s Hs Hr)
      as (st1 & w1 & E & Hr1).
    destruct (IH (S i) st1 w1) as (st' & w' & E'); [lia|done|].
    exists st', w'. cbn [seq for_each].
    by rewrite (bind_inr_intro _ _ _ _ _ E).
Qed.

Lemma parse_args_completes cli (w : World num) :
  parse_ok cli = true ->
  exists w0, parse_args cli w = (inr (namespace cli), w0) /\
             trace w0 = trace w /\ next_id w0 = next_id w.
Proof.
  unfold parse_ok, parse_args.
  intros [H1%negb_true_iff H2%negb_true_iff]%andb_true_iff. rewrite H1, H2.
  unfold mbind, M_bind, bind, set_local_rank, ret.
  destruct (environ w !! "LOCAL_RANK"); by eexists.
Qed.

Lemma parse_args_ok cli args (w w' : World num) :
  parse_args cli w = (inr args, w') -> parse_ok cli = true.
Proof.
  unfold parse_ok, parse_args.
  destruct (_ <? _)%nat; [done|]. by destruct (bool_decide _).
Qed.

Lemma loop_ready_ext cfg cfg' :
  (forall k, k <> "gpu_ids" -> cfg !! k = cfg' !! k) ->
  loop_ready cfg = loop_ready cfg'.
Proof. intros H. unfold loop_ready. by rewrite !H. Qed.

Lemma cudnn_step_completes (b : bool) (w : World num) :
  exists w2, (if b then set_cudnn_benchmark else ret tt) w = (inr tt, w2).
Proof. destruct b; by eexists. Qed.

Lemma configure_completes args (w : World num) cfg0 :
  Config_fromfile C (config args) = Some cfg0 ->
  match launcher args with
  | none => true
  | _ => match cli_cfg C args cfg0 !! "dist_params" with
         | Some (VDict _) => true
         | _ => false
         end
  end = true ->
  exists distributed cfg w1,
    configure C args w = (inr (distributed, cfg), w1) /\
    forall k, k <> "gpu_ids" -> cfg !! k = cli_cfg C args cfg0 !! k.
Proof.
  intros Hf Hl. unfold configure.
  assert (E1 : of_option (FileNotFoundError (config args))
                         (Config_fromfile C (config args)) w = (inr cfg0, w))
    by (by rewrite Hf).
  rewrite (bind_inr_intro _ _ _ _ _ E1). cbn zeta.
  destruct (cudnn_step_completes
              (truthy (default (VBool false)
                         (merge_options C args cfg0 !! "cudnn_benchmark"))) w)
    as [w2 E2].
  rewrite (bind_inr_intro _ _ _ _ _ E2).
  fold (cli_cfg C args cfg0).
  destruct (launcher args).
  { eexists _, _, _. split; [reflexivity|done]. }
  all: destruct (cli_cfg C args cfg0 !! "dist_params") as [[| | | | | |kw]|] eqn:Hd;
    try done.
  all: unfold attr, as_dict, of_option, mbind, M_bind, bind, emit, get_trace, ret.
  all: rewrite Hd; cbn beta iota zeta.
  all: eexists _, _, _; split; [reflexivity|].
  all: intros k Hk; by rewrite lookup_insert_ne.
Qed.

(** [main] returns when the command line and the configuration are
    [ready]. *)
Lemma ready_completes cli (w : World num) :
  ready C cli = true -> exists st w', main_body C cli w = (inr st, w').
Proof.
  unfold ready. intros [Hp H]%andb_true_iff.
  destruct (Config_fromfile C (config (namespace cli))) as [cfg0|] eqn:Hf; [|done].
  cbn zeta in H. apply andb_true_iff in H as [[Hl Hll]%andb_true_iff Hit].
  destruct (parse_args_completes cli w Hp) as (w0 & Ep & _).
  destruct (configure_completes (namespace cli) w0 cfg0 Hf Hl)
    as (distributed & cfg & w1 & Ec & Hk).
  assert (Hwd : cfg !! "work_dir"
                = Some (VStr (default "../results" (cli_work_dir cli)))).
  { rewrite Hk by done. by apply cli_cfg_work_dir. }
  destruct (cli_cfg C (namespace cli) cfg0 !! "log_level") as [ll|] eqn:Hlog;
    [|done].
  rewrite <- Hk in Hlog by done.
  destruct (cli_cfg C (namespace cli) cfg0 !! "iter") as [v|] eqn:Hv; [|done].
  cbn in Hit. destruct (int_value v) as [n|] eqn:Hn; [|done].
  rewrite <- Hk in Hv by done.
  rewrite <- (loop_ready_ext cfg) in Hit by exact Hk.
  unfold main_body.
  rewrite (bind_inr_intro _ _ _ _ _ Ep), (bind_inr_intro _ _ _ _ _ Ec).
  unfold attr, as_str, as_int, of_option, mbind, M_bind, bind, emit, ret.
  rewrite Hwd. cbn beta iota zeta. rewrite Hlog. cbn beta iota zeta.
  rewrite Hv. cbn beta iota zeta. rewrite Hn. cbn beta iota zeta.
  match goal with
  | |- context [for_each ?body ?st0 ?l ?w2] =>
      assert (Hloop : exists st' w', for_each body st0 l w2 = (inr st', w'))
  end.
  { destruct (Z.to_nat n) as [|k] eqn:Hk0; [by eexists _, _|].
    apply for_each_completes.
    - rewrite py_range_length. lia.
    - cbn [loc_cfg]. apply orb_true_iff in Hit as [Hit|Hit]; [|done].
      apply Z.leb_le in Hit. lia. }
  destruct Hloop as (st' & w' & ->). cbn beta iota zeta.
  by eexists _, _.
Qed.

Lemma pass_spec_ready args distributed timestamp lg cfg meta tr nid r :
  pass_spec C args distributed timestamp lg cfg meta tr nid r ->
  loop_ready cfg = true.
Proof.
  intros (_ & _ & Hm & (d & Hd & Ht) & (wf & n & Hw & Hn & _) & Hc & _).
  eapply loop_ready_intro; try eassumption.
  unfold cfg_of_pass in Hc. rewrite lookup_insert_ne in Hc by done.
  destruct (cfg !! "checkpoint_config") as [[]|]; try done; eauto.
Qed.

(** [main] returns only when the command line and the configuration are
    [ready]. *)
Lemma completes_ready cli (w : World num) st w' :
  main_body C cli w = (inr st, w') -> ready C cli = true.
Proof.
  intros H. apply main_body_inv in H as (dist & cfg & pre & wd & ll & n & runs & H).
  destruct H as ((w0 & Hp) & Hc & _ & Hll & (v & Hv & Hn) & Hl & _).
  apply parse_args_ok in Hp. unfold ready. rewrite Hp. cbn [andb].
  assert (Hk : exists cfg0,
             Config_fromfile C (config (namespace cli)) = Some cfg0 /\
             (forall k, k <> "gpu_ids" ->
                        cfg !! k = cli_cfg C (namespace cli) cfg0 !! k) /\
             match launcher (namespace cli) with
             | none => true
             | _ => match cli_cfg C (namespace cli) cfg0 !! "dist_params" with
                    | Some (VDict _) => true
                    | _ => false
                    end
             end = true).
  { destruct Hc as (cfg0 & Hf & [(Hn0 & _ & _ & ->)|(Hne & _ & kw & Hd & _ & ->)]).
    - exists cfg0. split; [done|]. split; [done|]. by rewrite Hn0.
    - exists cfg0. split; [done|].
      split; [intros k ?; by rewrite lookup_insert_ne|].
      rewrite Hd. by destruct (launcher (namespace cli)). }
  destruct Hk as (cfg0 & -> & Hk & ->). cbn zeta.
  rewrite <- !Hk by done. rewrite Hll, Hv. cbn. rewrite Hn.
  rewrite <- (loop_ready_ext cfg) by exact Hk.
  cbn [andb]. apply orb_true_iff.
  destruct (Z_le_gt_dec n 0) as [Hle|Hgt]; [left; by apply Z.leb_le|right].
  pose proof (loop_spec_length _ _ _ _ _ _ _ _ _ _ _ Hl) as Hlen.
  rewrite py_range_length in Hlen.
  destruct runs as [|r runs]; [cbn in Hlen; lia|].
  destruct (py_range _ _) as [|s seeds]; [done|].
  destruct Hl as (_ & Hpass & _). by eapply pass_spec_ready.
Qed.

(** A completed run in terms of its own result. *)
Lemma ready_run cli (w : World num) :
  ready C cli = true ->
  main_body C cli w
  = (inr (Demo.locals_of (main_body C cli w)), (main_body C cli w).2).
Proof.
  intros H. destruct (ready_completes cli w H) as (st & w' & E).
  by rewrite E.
Qed.

End Completion.

(** * The concrete runs *)

Example osp_basename_ex :
  osp_basename "../configs/resnet/resnet50_in.py" = "resnet50_in.py".
Proof. reflexivity. Qed.

Example osp_join_ex :
  osp_join "../results" "resnet50_in.py" = "../results/resnet50_in.py".
Proof. reflexivity. Qed.

Example osp_splitext_ex : osp_splitext "resnet50_in.py" = ("resnet50_in", ".py").
Proof. reflexivity. Qed.

Example osp_splitext_hidden : osp_splitext ".bashrc" = (".bashrc", "").
Proof. reflexivity. Qed.

Example strftime_ex :
  strftime_Ymd_HMS (mk_struct_time 2021 3 7 9 5 0) = "20210307_090500".
Proof. reflexivity. Qed.

Example no_file_raises :
  (main_body Demo.collabZ Demo.no_file_cli Demo.world0).1
  = inl (FileNotFoundError "nope.py").
Proof. vm_compute. reflexivity. Qed.

Example exclusive_group_exits :
  (main_body Demo.collabZ Demo.exclusive_cli Demo.world0).1 = inl SystemExit.
Proof. vm_compute. reflexivity. Qed.

Example plain_seeds : seeds_set (trace Demo.plain_w) = [2021; 2022].
Proof. vm_compute. reflexivity. Qed.

Example plain_accumulators :
  OA Demo.plain_st = [50; 50] /\ AA Demo.plain_st = [20; 40] /\
  KAPPA Demo.plain_st = [10; 30] /\ ELEMENT_ACC Demo.plain_st = [[40; 0]; [60; 20]].
Proof. vm_compute. done. Qed.

Example Config_merge_from_dict_ex :
  let merged :=
    Config_merge_from_dict Demo.file_cfg
      (list_to_map [("iter", VInt 3); ("model.depth", VInt 50)]) in
  merged !! "iter" = Some (VInt 3) /\
  merged !! "model"
  = Some (VDict (list_to_map [("type", VStr "ResNet"); ("depth", VInt 50)])) /\
  merged !! "log_level" = Some (VStr "INFO") /\
  lookup_path (split_dots "model.depth") merged = Some (VInt 50) /\
  lookup_path (split_dots "model.type") merged = Some (VStr "ResNet").
Proof. vm_compute. done. Qed.

Example full_seeds : seeds_set (trace Demo.full_w) = [7; 8; 9].
Proof. vm_compute. reflexivity. Qed.

Section GenericRun.
Context {num : Type}.
Variables (results : ident -> Metrics num).
Variables (mean std : list num -> num) (mean0 std0 : list (list num) -> list num).

Let run := Demo.outcome results mean std mean0 std0.

(** With the default command line the demo collaborators let [main]
    complete, whatever [test_model] and numpy compute. *)
Lemma generic_run_completes :
  main_body (Demo.collab results mean std mean0 std0) no_cli Demo.world0
  = (inr (Demo.locals_of run), run.2).
Proof.
  apply ready_run. reflexivity.
Qed.

(** The models tested are the objects 0 and 2. *)
Lemma generic_run_accumulators :
  OA (Demo.locals_of run) = [overall_acc (results 0%nat); overall_acc (results 2%nat)] /\
  AA (Demo.locals_of run) = [average_acc (results 0%nat); average_acc (results 2%nat)].
Proof.
  split.
  - vm_cast_no_check
      (eq_refl [overall_acc (results 0%nat); overall_acc (results 2%nat)]).
  - vm_cast_no_check
      (eq_refl [average_acc (results 0%nat); average_acc (results 2%nat)]).
Qed.

End GenericRun.

Lemma real_mean_AA : RealRun.mean [(1 / 5)%R; (2 / 5)%R] = (3 / 10)%R.
Proof. unfold RealRun.mean. cbn. lra. Qed.

Lemma real_std_OA : RealRun.std [(1 / 2)%R; (1 / 2)%R] = 0%R.
Proof.
  unfold RealRun.std.
  assert (Hm : RealRun.mean [(1 / 2)%R; (1 / 2)%R] = (1 / 2)%R)
    by (unfold RealRun.mean; cbn; lra).
  rewrite Hm. cbn [fmap list_fmap].
  replace (RealRun.mean _) with 0%R; [apply sqrt_0|].
  unfold RealRun.mean. cbn. lra.
Qed.

Lemma real_std_AA : RealRun.std [(1 / 5)%R; (2 / 5)%R] = (1 / 10)%R.
Proof.
  unfold RealRun.std. rewrite real_mean_AA. cbn [fmap list_fmap].
  apply sqrt_lem_1; [|lra|].
  - unfold RealRun.mean. cbn. lra.
  - unfold RealRun.mean. cbn. lra.
Qed.

(** C1, where the code departs from it.  The config file sets [iter = 2];
    [test_model] returns OA 0.5 and AA 0.2 for the first model, OA 0.5
    and AA 0.4 for the second.  [main] completes with [OA = [0.5, 0.5]]
    and [AA = [0.2, 0.4]], and its [mean_AA ± std_AA] message carries the
    mean 0.3 of [AA] and the standard deviation 0 of [OA]; the standard
    deviation of [AA] is 0.1. *)
Theorem std_AA_message_has_std_of_OA :
  exists st w' lg earlier later,
    main_body RealRun.collab no_cli Demo.world0 = (inr st, w') /\
    OA st = [(1 / 2)%R; (1 / 2)%R] /\
    AA st = [(1 / 5)%R; (2 / 5)%R] /\
    logged (trace w')
    = (earlier ++ (lg, Msg_mean_AA_std_AA (3 / 10)%R 0%R) :: later)%list /\
    RealRun.std (AA st) = (1 / 10)%R.
Proof.
  pose proof (generic_run_completes RealRun.results RealRun.mean RealRun.std
                (Demo.axis0 0%R RealRun.mean) (Demo.axis0 0%R RealRun.std)) as Hrun.
  destruct (generic_run_accumulators RealRun.results RealRun.mean RealRun.std
              (Demo.axis0 0%R RealRun.mean) (Demo.axis0 0%R RealRun.std))
    as [HOA HAA].
  fold RealRun.run in Hrun, HOA, HAA. fold RealRun.collab in Hrun.
  change (overall_acc (RealRun.results 0%nat)) with (1 / 2)%R in HOA.
  change (overall_acc (RealRun.results 2%nat)) with (1 / 2)%R in HOA.
  change (average_acc (RealRun.results 0%nat)) with (1 / 5)%R in HAA.
  change (average_acc (RealRun.results 2%nat)) with (2 / 5)%R in HAA.
  destruct (summary_is_logged _ _ _ _ _ Hrun) as (lg & earlier & Hlog).
  rewrite HOA, HAA in Hlog.
  change (np_mean RealRun.collab) with RealRun.mean in Hlog.
  change (np_std RealRun.collab) with RealRun.std in Hlog.
  rewrite real_mean_AA, real_std_OA in Hlog.
  exists (Demo.locals_of RealRun.run), RealRun.run.2, lg.
  eexists (earlier ++ [_; _; _; _])%list, [_; _; _].
  split; [exact Hrun|]. split; [exact HOA|]. split; [exact HAA|].
  split; [|rewrite HAA; apply real_std_AA].
  unfold new_trace in Hlog. cbn [Demo.world0 trace length] in Hlog.
  rewrite drop_0 in Hlog. rewrite Hlog, <- app_assoc. reflexivity.
Qed.

(** * The theorems at a concrete run *)

(** [seeds_are_consecutive] on the run of [Demo.full_cli]. *)
Lemma seeds_are_consecutive_witness :
  main_body Demo.collabZ Demo.full_cli Demo.world0 = (inr Demo.full_st, Demo.full_w) /\
  (exists n,
    cfg_iter (loc_cfg Demo.full_st) = Some n /\
    let s := seed (namespace Demo.full_cli) in
    let tr := new_trace Demo.world0 Demo.full_w in
    length (train_calls tr) = Z.to_nat n /\
    length (test_calls tr) = Z.to_nat n /\
    seeds_set tr = py_range s (s + n) /\
    forall i : nat, (i < Z.to_nat n)%nat ->
      seeds_set tr !! i = Some (s + Z.of_nat i) /\
      exists c, train_calls tr !! i = Some c /\
                tr_cfg c !! "seed" = Some (VInt (s + Z.of_nat i)) /\
                tr_meta c !! "seed" = Some (VInt (s + Z.of_nat i))).
Proof.
  assert (Hrun : main_body Demo.collabZ Demo.full_cli Demo.world0 = (inr Demo.full_st, Demo.full_w))
    by (apply ready_run; reflexivity).
  split; [exact Hrun|].
  exact (seeds_are_consecutive Demo.collabZ _ _ _ _ Hrun).
Defined.

(** [accumulators_collect_results] on the run of [Demo.full_cli]. *)
Lemma accumulators_collect_results_witness :
  main_body Demo.collabZ Demo.full_cli Demo.world0 = (inr Demo.full_st, Demo.full_w) /\
  (exists n,
    cfg_iter (loc_cfg Demo.full_st) = Some n /\
    let tr := new_trace Demo.world0 Demo.full_w in
    let results := (test_calls tr).*2 in
    length (KAPPA Demo.full_st) = Z.to_nat n /\ length (OA Demo.full_st) = Z.to_nat n /\
    length (AA Demo.full_st) = Z.to_nat n /\ length (ELEMENT_ACC Demo.full_st) = Z.to_nat n /\
    KAPPA Demo.full_st = kappa <$> results /\
    OA Demo.full_st = overall_acc <$> results /\
    AA Demo.full_st = average_acc <$> results /\
    ELEMENT_ACC Demo.full_st = each_acc <$> results /\
    forall i : nat, (i < Z.to_nat n)%nat ->
      exists before c r later,
        tr = (before ++ EvTestModel c r :: later)%list /\
        length (test_calls before) = i /\
        r = test_model Demo.collabZ (trace Demo.world0 ++ before)%list c /\
        KAPPA Demo.full_st !! i = Some (kappa r) /\
        OA Demo.full_st !! i = Some (overall_acc r) /\
        AA Demo.full_st !! i = Some (average_acc r) /\
        ELEMENT_ACC Demo.full_st !! i = Some (each_acc r)).
Proof.
  assert (Hrun : main_body Demo.collabZ Demo.full_cli Demo.world0 = (inr Demo.full_st, Demo.full_w))
    by (apply ready_run; reflexivity).
  split; [exact Hrun|].
  exact (accumulators_collect_results Demo.collabZ _ _ _ _ Hrun).
Defined.

(** [loop_passes_in_order] on the run of [Demo.full_cli]. *)
Lemma loop_passes_in_order_witness :
  main_body Demo.collabZ Demo.full_cli Demo.world0 = (inr Demo.full_st, Demo.full_w) /\
  (let tr := new_trace Demo.world0 Demo.full_w in
  exists n set_up passes summary,
    cfg_iter (loc_cfg Demo.full_st) = Some n /\
    length passes = Z.to_nat n /\
    tr = (set_up ++ concat passes ++ summary)%list /\
    Forall pass_shape passes /\
    forallb (fun e => negb (is_loop_event e)) set_up = true /\
    forallb (fun e => negb (is_loop_event e)) summary = true /\
    NoDup (tr_model <$> train_calls tr) /\
    forall before c r later,
      tr = (before ++ EvTestModel c r :: later)%list ->
      exists before' ctr,
        before = (before' ++ [EvTrainModel ctr])%list /\ tr_model ctr = te_model c).
Proof.
  assert (Hrun : main_body Demo.collabZ Demo.full_cli Demo.world0 = (inr Demo.full_st, Demo.full_w))
    by (apply ready_run; reflexivity).
  split; [exact Hrun|].
  exact (loop_passes_in_order Demo.collabZ _ _ _ _ Hrun).
Defined.



(** [work_dir_and_log_file_first] on the run of [Demo.full_cli]. *)
Lemma work_dir_and_log_file_first_witness :
  main_body Demo.collabZ Demo.full_cli Demo.world0 = (inr Demo.full_st, Demo.full_w) /\
  valid_time (time_localtime Demo.collabZ) /\
  (let args := namespace Demo.full_cli in
  let tr := new_trace Demo.world0 Demo.full_w in
  let ts := strftime_Ymd_HMS (time_localtime Demo.collabZ) in
  exists wd distributed cfg log_level set_up later,
    configured Demo.collabZ args (trace Demo.world0) distributed cfg set_up /\
    cfg !! "work_dir" = Some (VStr wd) /\
    tr = (set_up
            ++ [EvMkdirOrExist (osp_abspath Demo.collabZ wd);
                EvDump cfg (osp_join wd (osp_basename (config args)));
                EvGetRootLogger (osp_join wd (ts ++ ".log")) log_level]
            ++ later)%list /\
    forallb (fun e => negb (is_loop_event e)) set_up = true /\
    logged set_up = [] /\
    contains slash (osp_basename (config args)) = false /\
    osp_join wd (osp_basename (config args))
      = wd ++ path_sep wd ++ osp_basename (config args) /\
    is_timestamp ts = true /\
    osp_join wd (ts ++ ".log") = wd ++ path_sep wd ++ ts ++ ".log" /\
    Forall (fun x => log_file x.1 = osp_join wd (ts ++ ".log")) (logged tr)).
Proof.
  assert (Hrun : main_body Demo.collabZ Demo.full_cli Demo.world0 = (inr Demo.full_st, Demo.full_w))
    by (apply ready_run; reflexivity).
  assert (Ht : valid_time (time_localtime Demo.collabZ))
    by (unfold valid_time; cbn; lia).
  split; [exact Hrun|]. split; [exact Ht|].
  exact (work_dir_and_log_file_first Demo.collabZ _ _ _ _ Hrun Ht).
Defined.

(** [work_dir_is_cli_value] on the run of [Demo.full_cli]. *)
Lemma work_dir_is_cli_value_witness :
  main_body Demo.collabZ Demo.full_cli Demo.world0 = (inr Demo.full_st, Demo.full_w) /\
  (let d := default "../results" (cli_work_dir Demo.full_cli) in
  let tr := new_trace Demo.world0 Demo.full_w in
  (forall (w1 w2 : World Z) args,
      parse_args Demo.full_cli w1 = (inr args, w2) ->
      work_dir args = Some d /\
      forall cfg, set_work_dir args cfg = <["work_dir" := VStr d]> cfg) /\
  loc_cfg Demo.full_st !! "work_dir" = Some (VStr d) /\
  Forall (fun c => tr_cfg c !! "work_dir" = Some (VStr d)) (train_calls tr) /\
  EvMkdirOrExist (osp_abspath Demo.collabZ d) ∈ tr).
Proof.
  assert (Hrun : main_body Demo.collabZ Demo.full_cli Demo.world0 = (inr Demo.full_st, Demo.full_w))
    by (apply ready_run; reflexivity).
  split; [exact Hrun|].
  exact (work_dir_is_cli_value Demo.collabZ _ _ _ _ Hrun).
Defined.



(** * Where a claim fails as stated *)


(** * Further properties of [parse_args] and [main] *)

Section Further.
Context {num : Type} (C : Collab num).

(** X1.  [main] returns exactly when the command line is accepted, the config
    file can be loaded and the merged configuration has the keys [main]
    reads, with values it can use; in every other case it raises. *)
Theorem main_completes_iff_ready cli (w : World num) :
  (exists st w', main_body C cli w = (inr st, w')) <-> ready C cli = true.
Proof.
  split.
  - intros (st & w' & H). by eapply completes_ready.
  - apply ready_completes.
Qed.

Lemma cli_cfg_gpu_ids args cfg0 :
  cli_cfg C args cfg0 !! "gpu_ids"
  = Some (match gpu_ids args with
          | Some ids => VList (VInt <$> ids)
          | None => VRange (default 1 (gpus args))
          end).
Proof.
  unfold cli_cfg, set_gpu_ids.
  destruct (gpu_ids args); [by simplify_map_eq|].
  destruct (gpus args); by simplify_map_eq.
Qed.

(** X2.  Without a launcher, the [cfg] every [train_model] call gets has
    [gpu_ids] equal to the list given by [--gpu-ids], or else
    [range(n)] for [--gpus n], or else [range(1)]. *)
Theorem gpu_ids_without_launcher cli w st w' :
  main_body C cli w = (inr st, w') ->
  default none (cli_launcher cli) = none ->
  Forall (fun c =>
            tr_cfg c !! "gpu_ids"
            = Some (match cli_gpu_ids cli with
                    | Some ids => VList (VInt <$> ids)
                    | None => VRange (default 1 (cli_gpus cli))
                    end))
         (train_calls (new_trace w w')).
Proof.
  intros H Hl. apply main_body_inv in H as (dist & cfg & pre & wd & ll & n & runs & H).
  destruct (completed_frame _ _ _ _ _ _ _ _ _ _ _ _ "gpu_ids" H) as [_ Hg]; [done..|].
  destruct H as (_ & Hc & _).
  eapply Forall_impl; [exact Hg|]. intros c ->.
  destruct Hc as (cfg0 & _ & [(_ & _ & _ & ->)|(Hne & _)]).
  - apply cli_cfg_gpu_ids.
  - by destruct Hne.
Qed.

Lemma cli_cfg_resume_from args cfg0 :
  cli_cfg C args cfg0 !! "resume_from"
  = match resume_from args with
    | Some r => Some (VStr r)
    | None => merge_options C args cfg0 !! "resume_from"
    end.
Proof.
  unfold cli_cfg, set_gpu_ids, set_resume_from, set_work_dir.
  repeat case_match; by simplify_map_eq.
Qed.

(** X3.  The [cfg] every [train_model] call gets has [resume_from] equal to
    the value of [--resume-from] when it is given, and otherwise keeps
    what the file and [--options] say, the key being absent if they say
    nothing. *)
Theorem resume_from_cli_or_file cli w st w' cfg0 :
  main_body C cli w = (inr st, w') ->
  Config_fromfile C (config (namespace cli)) = Some cfg0 ->
  Forall (fun c =>
            tr_cfg c !! "resume_from"
            = match cli_resume_from cli with
              | Some r => Some (VStr r)
              | None => merge_options C (namespace cli) cfg0 !! "resume_from"
              end)
         (train_calls (new_trace w w')).
Proof.
  intros H Hf. apply main_body_inv in H as (dist & cfg & pre & wd & ll & n & runs & H).
  destruct (completed_frame _ _ _ _ _ _ _ _ _ _ _ _ "resume_from" H) as [_ Hg];
    [done..|].
  destruct H as (_ & Hc & _).
  eapply Forall_impl; [exact Hg|]. intros c ->.
  destruct Hc as (cfg0' & Hf' & [(_ & _ & _ & ->)|(_ & _ & kw & _ & _ & ->)]);
    rewrite Hf in Hf'; injection Hf' as <-.
  - apply cli_cfg_resume_from.
  - rewrite lookup_insert_ne by done. apply cli_cfg_resume_from.
Qed.

(** X4.  Call by call, [test_model] gets the model, the [cfg] and the device
    that [train_model] got, and the test part of the dataset whose train
    part heads the datasets given to [train_model]. *)
Theorem test_call_follows_train_call cli w st w' :
  main_body C cli w = (inr st, w') ->
  Forall2 (fun ctr cte =>
             te_model cte = tr_model ctr /\
             te_cfg cte = tr_cfg ctr /\
             te_device cte = tr_device ctr /\
             te_dataset cte = test_dataset (te_base cte) /\
             head (tr_datasets ctr) = Some (train_dataset (te_base cte)))
          (train_calls (new_trace w w')) (test_calls (new_trace w w')).*1.
Proof.
  intros H. apply main_body_inv in H as (dist & cfg & pre & wd & ll & n & runs & H).
  destruct (completed_views _ _ _ _ _ _ _ _ _ _ _ _ H) as (_ & -> & -> & _).
  destruct H as (_ & _ & _ & _ & _ & Hl & _).
  apply loop_spec_each in Hl.
  rewrite <- list_fmap_compose. apply Forall2_fmap, Forall_Forall2_diag.
  eapply Forall_impl; [exact Hl|].
  intros r (cfg' & meta' & tr' & nid' & Hp). cbn.
  destruct Hp as (_ & _ & _ & _ & (wf & k & _ & _ & Hds) & _ & Hm & _ & _ & _ & Hdev
                  & _ & -> & _).
  cbn. rewrite Hm, Hdev, Hds. repeat split. by destruct (k =? 2).
Qed.

(** In a sequence of passes, a [train_model] call comes right after the
    [build_dataset] call of its pass. *)
Lemma loop_train_after_build lg det (runs : list (IterRun num)) before c later :
  loop_events lg det runs = (before ++ EvTrainModel c :: later)%list ->
  exists r before',
    r ∈ runs /\ c = it_train r /\
    before = (before' ++ [EvBuildDataset (it_train_cfg r) (it_base r)])%list.
Proof.
  revert before. induction runs as [|r runs IH]; intros before H.
  - by destruct before.
  - rewrite loop_events_cons in H.
    apply app_eq_middle in H as [(l1 & Hs & _)|(b2 & -> & H)].
    + unfold iter_events, iter_events_train in Hs. cbn in Hs.
      do 5 (destruct before as [|? before]; [done|injection Hs as <- Hs]).
      destruct before as [|? before].
      * injection Hs as <- _. exists r. eexists [_; _; _; _].
        split; [apply elem_of_cons; by left|]. by split.
      * injection Hs as _ Hs. destruct before as [|? before]; [done|].
        injection Hs as _ Hs. by destruct before.
    + destruct (IH _ H) as (r' & b' & Hin & -> & ->).
      exists r', (iter_events lg det r ++ b')%list.
      split; [apply elem_of_cons; by right|]. split; [done|].
      by rewrite app_assoc.
Qed.

(** X5.  Every [train_model] call comes right after a [build_dataset]
    call, the one of its pass: the dataset is built from
    [cfg.data.train], and the datasets given to [train_model] are the
    train part of that dataset, followed by its validation part exactly
    when [cfg.workflow] has length 2. *)
Theorem datasets_follow_workflow cli w st w' :
  main_body C cli w = (inr st, w') ->
  forall before c later,
    new_trace w w' = (before ++ EvTrainModel c :: later)%list ->
    exists before' train_cfg base d wf n,
      before = (before' ++ [EvBuildDataset train_cfg base])%list /\
      tr_cfg c !! "data" = Some (VDict d) /\
      d !! "train" = Some train_cfg /\
      tr_cfg c !! "workflow" = Some wf /\
      len_value wf = Some n /\
      tr_datasets c = if n =? 2
                      then [train_dataset base; val_dataset base]
                      else [train_dataset base].
Proof.
  intros H before c later Hsplit.
  apply main_body_inv in H as (dist & cfg & pre & wd & ll & n & runs & H).
  rewrite (completed_new_trace _ _ _ _ _ _ _ _ _ _ _ _ H) in Hsplit.
  destruct H as (_ & Hc & _ & _ & _ & Hl & _).
  apply configured_pre_views in Hc as (_ & _ & _ & _ & Hpre & _).
  apply loop_spec_each in Hl.
  apply app_eq_middle in Hsplit as [(l1 & Hs1 & _)|(b1 & -> & Hsplit)].
  { by pose proof (not_loop_event_middle _ _ _ _ Hpre Hs1). }
  apply app_eq_middle in Hsplit as [(l1 & Hs1 & _)|(b2 & -> & Hsplit)].
  { by pose proof (not_loop_event_middle
                     (setup_events C (namespace cli) dist cfg wd ll) _ _ _ eq_refl Hs1). }
  apply app_eq_middle in Hsplit as [(l1 & Hs1 & _)|(b3 & -> & Hsplit)].
  - apply loop_train_after_build in Hs1 as (r & b' & Hin & -> & ->).
    rewrite Forall_forall in Hl.
    destruct (Hl r Hin) as (cfg' & meta' & tr' & nid' & Hp).
    destruct Hp as (_ & _ & _ & (d & Hd & Ht) & (wf & k & Hw & Hk & Hds) & Hcp & _).
    exists (pre ++ setup_events C (namespace cli) dist cfg wd ll ++ b')%list,
      (it_train_cfg r), (it_base r), d, wf, k.
    rewrite !(cfg_of_pass_lookup _ _ _ _ _ _ Hcp) by done.
    split; [by rewrite <- !app_assoc|done].
  - by pose proof (not_loop_event_middle
                     (report_events C (mk_Logger (the_log_file C wd)) st)
                     _ _ _ eq_refl Hsplit).
Qed.

Lemma cfg_of_pass_checkpoint cfg s base cfg' :
  cfg_of_pass C cfg s base = Some cfg' ->
  cfg' !! "checkpoint_config" = Some VNone \/
  exists d,
    cfg' !! "checkpoint_config"
    = Some (VDict (<["meta" :=
                       VDict (checkpoint_meta C (<["seed" := VInt s]> cfg)
                                (train_dataset base))]> d)) /\
    <["seed" := VInt s]> cfg !! "checkpoint_config" = Some (VDict d).
Proof.
  unfold cfg_of_pass. intros H.
  destruct (<["seed" := VInt s]> cfg !! "checkpoint_config") as [[| | | | | |d]|]
    eqn:E; simplify_eq.
  - by left.
  - right. exists d. by rewrite lookup_insert_eq.
Qed.

(** X6.  In the [cfg] every [train_model] call gets, [checkpoint_config] is
    [None] or a dict whose [meta] is a dict with exactly the keys
    [mmhyperspectral_version], [config] and [CLASSES]: the package
    version, the text of a configuration and the classes of the first
    dataset given to that call. *)
Theorem checkpoint_meta_in_train_cfg cli w st w' :
  main_body C cli w = (inr st, w') ->
  Forall (fun c =>
            tr_cfg c !! "checkpoint_config" = Some VNone \/
            exists d m ds text,
              tr_cfg c !! "checkpoint_config" = Some (VDict d) /\
              d !! "meta" = Some (VDict m) /\
              head (tr_datasets c) = Some ds /\
              m = <["mmhyperspectral_version" := VStr (version C)]>
                    (<["config" := VStr text]>
                       (<["CLASSES" := CLASSES C ds]> ∅)))
         (train_calls (new_trace w w')).
Proof.
  intros H. apply main_body_inv in H as (dist & cfg & pre & wd & ll & n & runs & H).
  destruct (completed_views _ _ _ _ _ _ _ _ _ _ _ _ H) as (_ & -> & _).
  destruct H as (_ & _ & _ & _ & _ & Hl & _).
  apply loop_spec_each in Hl. apply Forall_fmap.
  eapply Forall_impl; [exact Hl|].
  intros r (cfg' & meta' & tr' & nid' & Hp). cbn.
  destruct Hp as (_ & _ & _ & _ & (wf & k & _ & _ & Hds) & Hc & _).
  apply cfg_of_pass_checkpoint in Hc as [Hc|(d & Hc & _)]; [by left|right].
  eexists _, _, (train_dataset (it_base r)), _.
  split; [exact Hc|]. split; [apply lookup_insert_eq|].
  split; [rewrite Hds; by destruct (k =? 2)|]. reflexivity.
Qed.

End Further.

Section Further2.
Context {num : Type} (C : Collab num).

Lemma loop_spec_meta args distributed timestamp lg m0 cfg meta tr nid seeds runs :
  loop_spec C args distributed timestamp lg cfg meta tr nid seeds runs ->
  (forall s, <["seed" := VInt s]> meta = <["seed" := VInt s]> m0) ->
  Forall (fun r => tr_meta (it_train r) = <["seed" := VInt (it_seed r)]> m0) runs.
Proof.
  revert cfg meta tr nid runs.
  induction seeds as [|s seeds IH]; intros cfg meta tr nid [|r runs] H Hm;
    cbn [loop_spec] in H; try done.
  destruct H as (_ & Hp & H).
  assert (Hr : tr_meta (it_train r) = <["seed" := VInt (it_seed r)]> m0).
  { destruct Hp as (_ & _ & _ & _ & _ & _ & _ & _ & _ & _ & _ & -> & _). apply Hm. }
  constructor; [done|].
  eapply IH; [exact H|]. intros s'. rewrite Hr. apply insert_insert_eq.
Qed.

(** X7.  The [meta] every [train_model] call gets has exactly two entries:
    [env_info], and [seed] with the seed of that iteration. *)
Theorem meta_is_env_info_and_seed cli w st w' :
  main_body C cli w = (inr st, w') ->
  exists n,
    cfg_iter (loc_cfg st) = Some n /\
    tr_meta <$> train_calls (new_trace w w')
    = (fun s => <["seed" := VInt s]> (<["env_info" := VStr (env_info C)]> ∅))
        <$> py_range (seed (namespace cli)) (seed (namespace cli) + n).
Proof.
  intros H. apply main_body_inv in H as (dist & cfg & pre & wd & ll & n & runs & H).
  exists n. split; [by eapply completed_cfg_iter|].
  destruct (completed_views _ _ _ _ _ _ _ _ _ _ _ _ H) as (_ & -> & _).
  destruct (completed_runs_seeds _ _ _ _ _ _ _ _ _ _ _ _ H) as (<- & _).
  destruct H as (_ & _ & _ & _ & _ & Hl & _).
  eapply loop_spec_meta in Hl; [|done].
  rewrite <- !list_fmap_compose. by apply Forall_fmap_ext_1.
Qed.

Lemma seed_calls_app (tr1 tr2 : list (Event num)) :
  seed_calls (tr1 ++ tr2) = (seed_calls tr1 ++ seed_calls tr2)%list.
Proof. apply omap_app. Qed.

Lemma seed_calls_loop lg det (runs : list (IterRun num)) :
  seed_calls (loop_events lg det runs) = (fun r => (it_seed r, det)) <$> runs.
Proof.
  induction runs as [|r runs IH]; [done|].
  by rewrite loop_events_cons, seed_calls_app, IH.
Qed.

Lemma logged_loop_eq lg det (runs : list (IterRun num)) :
  logged (loop_events lg det runs)
  = (fun r => (lg, MsgSetSeed (it_seed r) det)) <$> runs.
Proof.
  induction runs as [|r runs IH]; [done|].
  by rewrite loop_events_cons, logged_app, IH.
Qed.

(** X8.  Each iteration logs its seed and calls [set_random_seed] with it and
    with the [--deterministic] flag: the [set_random_seed] calls are
    [(s, d), (s+1, d), ...], and what [main] logs is three messages, then
    one seed message per iteration in the same order, then eight
    messages, all on one logger. *)
Theorem seed_logged_and_set_with_flag cli w st w' :
  main_body C cli w = (inr st, w') ->
  let s := seed (namespace cli) in
  let d := cli_deterministic cli in
  exists n lg first last,
    cfg_iter (loc_cfg st) = Some n /\
    seed_calls (new_trace w w') = (fun x => (x, d)) <$> py_range s (s + n) /\
    length first = 3%nat /\ length last = 8%nat /\
    logged (new_trace w w')
    = (fun m => (lg, m))
        <$> (first ++ ((fun x => MsgSetSeed x d) <$> py_range s (s + n)) ++ last)%list.
Proof.
  intros H. apply main_body_inv in H as (dist & cfg & pre & wd & ll & n & runs & H).
  cbn zeta.
  pose proof (completed_new_trace _ _ _ _ _ _ _ _ _ _ _ _ H) as Htr.
  destruct (completed_runs_seeds _ _ _ _ _ _ _ _ _ _ _ _ H) as (Hs & _).
  pose proof (completed_cfg_iter _ _ _ _ _ _ _ _ _ _ _ _ H) as Hn.
  destruct H as (_ & Hc & _).
  apply configured_pre_views in Hc as (_ & _ & _ & Hlog & Hloop & _).
  set (lg := mk_Logger (the_log_file C wd)) in *.
  exists n, lg,
    (snd <$> logged (setup_events C (namespace cli) dist cfg wd ll)),
    (snd <$> logged (report_events C lg st)).
  split; [done|]. rewrite Htr. split; [|split; [done|split; [done|]]].
  - rewrite !seed_calls_app, seed_calls_loop.
    assert (Hpre : seed_calls pre = []).
    { clear -Hloop. induction pre as [|e pre IH]; [done|].
      cbn in Hloop. apply andb_true_iff in Hloop as [He Hloop].
      unfold seed_calls in *. cbn. destruct e; try done; by apply IH. }
    rewrite Hpre. cbn [app]. change (seed_calls (setup_events _ _ _ _ _ _)) with (@nil (Z * bool)).
    change (seed_calls (report_events _ _ _)) with (@nil (Z * bool)).
    rewrite app_nil_r. cbn [app]. rewrite <- Hs, <- list_fmap_compose. done.
  - rewrite !logged_app, Hlog, logged_loop_eq. cbn [app].
    rewrite !fmap_app, <- Hs, <- !list_fmap_compose. done.
Qed.

(** X9.  With [cfg.iter <= 0] the loop body never runs: no seed is set,
    nothing is trained or tested, the four lists stay empty, and the
    summary is still logged, with the mean and the standard deviation of
    empty lists. *)
Theorem no_pass_when_iter_not_positive cli w st w' n :
  main_body C cli w = (inr st, w') ->
  cfg_iter (loc_cfg st) = Some n ->
  n <= 0 ->
  let tr := new_trace w w' in
  seeds_set tr = [] /\ train_calls tr = [] /\ test_calls tr = [] /\
  KAPPA st = [] /\ OA st = [] /\ AA st = [] /\ ELEMENT_ACC st = [] /\
  exists lg,
    (lg, Msg_mean_OA_std_OA (np_mean C []) (np_std C [])) ∈ logged tr /\
    (lg, MsgElementMean (np_mean_axis0 C [])) ∈ logged tr.
Proof.
  intros H Hn Hle. apply main_body_inv in H as (dist & cfg & pre & wd & ll & n' & runs & H).
  cbn zeta.
  rewrite (completed_cfg_iter _ _ _ _ _ _ _ _ _ _ _ _ H) in Hn. injection Hn as ->.
  destruct (completed_views _ _ _ _ _ _ _ _ _ _ _ _ H) as (-> & -> & -> & _).
  destruct (completed_runs_seeds _ _ _ _ _ _ _ _ _ _ _ _ H) as (_ & Hlen).
  pose proof (completed_new_trace _ _ _ _ _ _ _ _ _ _ _ _ H) as Htr.
  destruct runs as [|r runs]; [|cbn in Hlen; lia].
  destruct H as (_ & _ & _ & _ & _ & _ & -> & _).
  repeat (split; [done|]).
  exists (mk_Logger (the_log_file C wd)). rewrite Htr, !logged_app.
  split; rewrite !elem_of_app; right; right; right; cbn; set_solver.
Qed.

End Further2.

Section Further3.
Context {num : Type} (C : Collab num).

Lemma bind_inl_intro {A B} (m : M num A) (k : A -> M num B) w e w1 :
  m w = (inl e, w1) -> (m ≫= k) w = (inl e, w1).
Proof. unfold mbind, M_bind, bind. by intros ->. Qed.

Lemma parse_args_world cli args (w w0 : World num) :
  parse_args cli w = (inr args, w0) ->
  environ w0 = match environ w !! "LOCAL_RANK" with
               | Some _ => environ w
               | None => <["LOCAL_RANK" := str_int (default 0 (cli_local_rank cli))]>
                           (environ w)
               end /\
  cudnn_benchmark w0 = cudnn_benchmark w.
Proof.
  unfold parse_args. intros H.
  destruct (_ <? _)%nat; [done|]. destruct (bool_decide _); [done|].
  step H as ? E. apply ret_inr in H as [-> ->].
  unfold set_local_rank in E.
  destruct (environ w !! "LOCAL_RANK"); by simplify_eq.
Qed.

(** X10.  [parse_args] exports [LOCAL_RANK] once.  When it returns, the
    variable is set: to the value it had, or else to the text of
    [--local_rank] (0 by default); no other variable has changed and no
    call was made.  A second [parse_args], whatever its command line,
    leaves the environment as the first left it. *)
Theorem local_rank_exported_once cli cli' (w w0 w1 : World num) args args' :
  parse_args cli w = (inr args, w0) ->
  parse_args cli' w0 = (inr args', w1) ->
  environ w0 !! "LOCAL_RANK"
  = Some (default (str_int (default 0 (cli_local_rank cli)))
                  (environ w !! "LOCAL_RANK")) /\
  (forall k, k <> "LOCAL_RANK" -> environ w0 !! k = environ w !! k) /\
  trace w0 = trace w /\
  environ w1 = environ w0.
Proof.
  intros H H'.
  pose proof (parse_args_world _ _ _ _ H) as [He _].
  pose proof (parse_args_world _ _ _ _ H') as [He' _].
  assert (Ht : trace w0 = trace w).
  { unfold parse_args in H.
    destruct (_ <? _)%nat; [done|]. destruct (bool_decide _); [done|].
    step H as ? E. apply ret_inr in H as [_ ->].
    unfold set_local_rank in E.
    destruct (environ w !! "LOCAL_RANK"); by simplify_eq. }
  assert (H0 : environ w0 !! "LOCAL_RANK"
               = Some (default (str_int (default 0 (cli_local_rank cli)))
                               (environ w !! "LOCAL_RANK"))).
  { rewrite He. destruct (environ w !! "LOCAL_RANK") eqn:E; [done|].
    by rewrite lookup_insert_eq. }
  split; [done|]. split; [|split; [done|]].
  - intros k Hk. rewrite He.
    destruct (environ w !! "LOCAL_RANK"); [done|]. by rewrite lookup_insert_ne.
  - by rewrite He', H0.
Qed.

(** X12.  When the config file cannot be loaded, [main] raises before it calls
    anything: no directory is made, nothing is dumped or logged. *)
Theorem missing_config_file_stops_main cli (w : World num) :
  parse_ok cli = true ->
  Config_fromfile C (config (namespace cli)) = None ->
  exists w0,
    main_body C cli w = (inl (FileNotFoundError (config (namespace cli))), w0) /\
    trace w0 = trace w /\ next_id w0 = next_id w.
Proof.
  intros Hp Hf. destruct (parse_args_completes cli w Hp) as (w0 & Ep & Ht & Hn).
  exists w0. split; [|done]. unfold main_body.
  rewrite (bind_inr_intro _ _ _ _ _ Ep).
  apply bind_inl_intro. unfold configure. apply bind_inl_intro.
  by rewrite Hf.
Qed.

Lemma configure_completes_trace args (w : World num) cfg0 :
  Config_fromfile C (config args) = Some cfg0 ->
  match launcher args with
  | none => true
  | _ => match cli_cfg C args cfg0 !! "dist_params" with
         | Some (VDict _) => true
         | _ => false
         end
  end = true ->
  exists distributed cfg w1 pre,
    configure C args w = (inr (distributed, cfg), w1) /\
    configured C args (trace w) distributed cfg pre /\
    trace w1 = (trace w ++ pre)%list /\
    forall k, k <> "gpu_ids" -> cfg !! k = cli_cfg C args cfg0 !! k.
Proof.
  intros Hf Hl.
  destruct (configure_completes C args w cfg0 Hf Hl) as (d & cfg & w1 & Ec & Hk).
  destruct (configure_inv _ _ _ _ _ _ Ec) as (pre & Hc & Ht & _).
  by exists d, cfg, w1, pre.
Qed.

(** X13.  A configuration without [log_level] makes [main] raise when the work
    directory has been made and the configuration dumped into it, and
    before a logger exists: nothing is logged. *)
Theorem missing_log_level_stops_after_dump cli (w : World num) cfg0 :
  parse_ok cli = true ->
  Config_fromfile C (config (namespace cli)) = Some cfg0 ->
  match launcher (namespace cli) with
  | none => true
  | _ => match cli_cfg C (namespace cli) cfg0 !! "dist_params" with
         | Some (VDict _) => true
         | _ => false
         end
  end = true ->
  cli_cfg C (namespace cli) cfg0 !! "log_level" = None ->
  let wd := default "../results" (cli_work_dir cli) in
  exists w1 before cfg,
    main_body C cli w = (inl (AttributeError "log_level"), w1) /\
    new_trace w w1
    = (before ++ [EvMkdirOrExist (osp_abspath C wd);
                  EvDump cfg (osp_join wd (osp_basename (config (namespace cli))))])%list /\
    logged (new_trace w w1) = [].
Proof.
  intros Hp Hf Hl Hll. cbn zeta.
  destruct (parse_args_completes cli w Hp) as (w0 & Ep & Ht0 & _).
  destruct (configure_completes_trace (namespace cli) w0 cfg0 Hf Hl)
    as (d & cfg & w1 & pre & Ec & Hc & Ht1 & Hk).
  assert (Hwd : cfg !! "work_dir"
                = Some (VStr (default "../results" (cli_work_dir cli)))).
  { rewrite Hk by done. by apply cli_cfg_work_dir. }
  rewrite <- Hk in Hll by done.
  eexists _, pre, cfg. split; [|split].
  - unfold main_body.
    rewrite (bind_inr_intro _ _ _ _ _ Ep), (bind_inr_intro _ _ _ _ _ Ec).
    unfold attr, as_str, of_option, mbind, M_bind, bind, emit, ret, raise.
    rewrite Hwd. cbn beta iota zeta. rewrite Hll. reflexivity.
  - apply new_trace_eq. cbn [trace]. rewrite Ht1, Ht0. by rewrite <- !app_assoc.
  - erewrite new_trace_eq; [|cbn [trace]; rewrite Ht1, Ht0; by rewrite <- !app_assoc].
    apply configured_pre_views in Hc as (_ & _ & _ & Hlog & _).
    by rewrite logged_app, Hlog.
Qed.

(** X14.  A configuration whose [iter] is missing or is not an integer makes
    [main] raise only after the set-up: the work directory is made, the
    configuration dumped, the log file opened and three messages logged;
    no seed is set and nothing is trained or tested. *)
Theorem bad_iter_stops_before_loop cli (w : World num) cfg0 ll :
  parse_ok cli = true ->
  Config_fromfile C (config (namespace cli)) = Some cfg0 ->
  match launcher (namespace cli) with
  | none => true
  | _ => match cli_cfg C (namespace cli) cfg0 !! "dist_params" with
         | Some (VDict _) => true
         | _ => false
         end
  end = true ->
  cli_cfg C (namespace cli) cfg0 !! "log_level" = Some ll ->
  cli_cfg C (namespace cli) cfg0 !! "iter" ≫= int_value = None ->
  let wd := default "../results" (cli_work_dir cli) in
  exists w1 before distributed cfg,
    main_body C cli w
    = (inl (match cli_cfg C (namespace cli) cfg0 !! "iter" with
            | None => AttributeError "iter"
            | Some _ => TypeError
            end), w1) /\
    new_trace w w1
    = (before ++ setup_events C (namespace cli) distributed cfg wd ll)%list /\
    forallb (fun e => negb (is_loop_event e)) (new_trace w w1) = true /\
    length (logged (new_trace w w1)) = 3%nat.
Proof.
  intros Hp Hf Hl Hll Hit. cbn zeta.
  destruct (parse_args_completes cli w Hp) as (w0 & Ep & Ht0 & _).
  destruct (configure_completes_trace (namespace cli) w0 cfg0 Hf Hl)
    as (d & cfg & w1 & pre & Ec & Hc & Ht1 & Hk).
  assert (Hwd : cfg !! "work_dir"
                = Some (VStr (default "../results" (cli_work_dir cli)))).
  { rewrite Hk by done. by apply cli_cfg_work_dir. }
  rewrite <- (Hk "log_level") in Hll by done.
  rewrite <- (Hk "iter") in Hit |- * by done.
  assert (Htr : forall wf,
             trace wf = (trace w1 ++ setup_events C (namespace cli) d cfg
                           (default "../results" (cli_work_dir cli)) ll)%list ->
             new_trace w wf
             = (pre ++ setup_events C (namespace cli) d cfg
                         (default "../results" (cli_work_dir cli)) ll)%list).
  { intros wf Hwf. apply new_trace_eq. rewrite Hwf, Ht1, Ht0.
    by rewrite <- !app_assoc. }
  apply configured_pre_views in Hc as (_ & _ & _ & Hlog & Hpre & _).
  destruct (cfg !! "iter") as [v|] eqn:Hv.
  - cbn in Hit. eexists _, pre, d, cfg. split; [|split; [|split]].
    + unfold main_body.
      rewrite (bind_inr_intro _ _ _ _ _ Ep), (bind_inr_intro _ _ _ _ _ Ec).
      unfold attr, as_str, as_int, of_option, mbind, M_bind, bind, emit, ret, raise.
      rewrite Hwd. cbn beta iota zeta. rewrite Hll. cbn beta iota zeta.
      rewrite Hv. cbn beta iota zeta. rewrite Hit. reflexivity.
    + apply Htr. cbn [trace]. by rewrite <- !app_assoc.
    + erewrite Htr by (cbn [trace]; by rewrite <- !app_assoc).
      by rewrite forallb_app, Hpre.
    + erewrite Htr by (cbn [trace]; by rewrite <- !app_assoc).
      by rewrite logged_app, Hlog.
  - eexists _, pre, d, cfg. split; [|split; [|split]].
    + unfold main_body.
      rewrite (bind_inr_intro _ _ _ _ _ Ep), (bind_inr_intro _ _ _ _ _ Ec).
      unfold attr, as_str, as_int, of_option, mbind, M_bind, bind, emit, ret, raise.
      rewrite Hwd. cbn beta iota zeta. rewrite Hll. cbn beta iota zeta.
      rewrite Hv. reflexivity.
    + apply Htr. cbn [trace]. by rewrite <- !app_assoc.
    + erewrite Htr by (cbn [trace]; by rewrite <- !app_assoc).
      by rewrite forallb_app, Hpre.
    + erewrite Htr by (cbn [trace]; by rewrite <- !app_assoc).
      by rewrite logged_app, Hlog.
Qed.

End Further3.

Section Further4.
Context {num : Type} (C : Collab num).

(** X15.  When more than one of [--device], [--gpus] and [--gpu-ids] is given,
    or [--gpu-ids] is given without a value, [parse_args] exits, and
    [main] with it, before anything happens: no call is made and
    [LOCAL_RANK] is not exported. *)
Theorem rejected_command_line_changes_nothing cli (w : World num) :
  parse_ok cli = false ->
  main_body C cli w = (inl SystemExit, w).
Proof.
  intros Hp. unfold main_body. apply bind_inl_intro.
  unfold parse_ok in Hp. unfold parse_args.
  destruct (1 <? _)%nat; [done|].
  destruct (bool_decide (cli_gpu_ids cli = Some [])); [done|].
  done.
Qed.

(** X16.  With a launcher, [init_dist] is the first call of a completed [main]
    and its keyword arguments are [cfg.dist_params], read after
    [--options] has been merged and [work_dir], [resume_from] and
    [gpu_ids] have been set. *)
Theorem init_dist_gets_dist_params cli w st w' cfg0 :
  main_body C cli w = (inr st, w') ->
  Config_fromfile C (config (namespace cli)) = Some cfg0 ->
  default none (cli_launcher cli) <> none ->
  exists kwargs later,
    cli_cfg C (namespace cli) cfg0 !! "dist_params" = Some (VDict kwargs) /\
    new_trace w w' = EvInitDist (default none (cli_launcher cli)) kwargs :: later.
Proof.
  intros H Hf Hl. apply main_body_inv in H as (dist & cfg & pre & wd & ll & n & runs & H).
  pose proof (completed_new_trace _ _ _ _ _ _ _ _ _ _ _ _ H) as Htr.
  destruct H as (_ & Hc & _).
  destruct Hc as (cfg0' & Hf' & [(Hn & _)|(_ & _ & kw & Hkw & -> & _)]);
    rewrite Hf in Hf'; injection Hf' as <-.
  - by destruct Hl.
  - exists kw. eexists. split; [exact Hkw|]. rewrite Htr. reflexivity.
Qed.

(** X17.  What a completed [main] logs ends with the eight messages of the
    summary, in this order: the lists [OA], [AA] and [KAPPA]; the mean
    and the standard deviation of [OA]; the mean of [AA] with the
    standard deviation of [OA]; the mean and the standard deviation of
    [KAPPA]; the per-class means and standard deviations of
    [ELEMENT_ACC].  The lists are the ones [main] ends with. *)
Theorem summary_closes_the_log cli w st w' :
  main_body C cli w = (inr st, w') ->
  exists lg earlier,
    logged (new_trace w w')
    = (earlier
         ++ ((fun m => (lg, m))
              <$> [MsgOAs (OA st);
                   MsgAAs (AA st);
                   MsgKAPPAs (KAPPA st);
                   Msg_mean_OA_std_OA (np_mean C (OA st)) (np_std C (OA st));
                   Msg_mean_AA_std_AA (np_mean C (AA st)) (np_std C (OA st));
                   Msg_mean_KAPPA_std_KAPPA (np_mean C (KAPPA st)) (np_std C (KAPPA st));
                   MsgElementMean (np_mean_axis0 C (ELEMENT_ACC st));
                   MsgElementStd (np_std_axis0 C (ELEMENT_ACC st))]))%list.
Proof.
  intros H. apply main_body_inv in H as (dist & cfg & pre & wd & ll & n & runs & H).
  rewrite (completed_new_trace _ _ _ _ _ _ _ _ _ _ _ _ H).
  exists (mk_Logger (the_log_file C wd)). eexists.
  rewrite !logged_app, !app_assoc. reflexivity.
Qed.

(** X18.  One time stamp is taken, before the loop: every [train_model] call
    gets the time stamp that names the log file. *)
Theorem train_timestamp_names_log_file cli w st w' :
  main_body C cli w = (inr st, w') ->
  let ts := strftime_Ymd_HMS (time_localtime C) in
  exists wd ll,
    loc_cfg st !! "work_dir" = Some (VStr wd) /\
    EvGetRootLogger (osp_join wd (ts ++ ".log")) ll ∈ new_trace w w' /\
    Forall (fun c => tr_timestamp c = ts) (train_calls (new_trace w w')).
Proof.
  intros H. apply main_body_inv in H as (dist & cfg & pre & wd & ll & n & runs & H).
  cbn zeta. exists wd, ll.
  destruct (completed_frame _ _ _ _ _ _ _ _ _ _ _ _ "work_dir" H) as [Hk _]; [done..|].
  destruct (completed_views _ _ _ _ _ _ _ _ _ _ _ _ H) as (_ & -> & _).
  rewrite (completed_new_trace _ _ _ _ _ _ _ _ _ _ _ _ H).
  destruct H as (_ & _ & Hwd & _ & _ & Hl & _).
  split; [by rewrite Hk|]. split.
  - rewrite !elem_of_app. right; left. unfold setup_events, the_log_file, the_timestamp.
    set_solver.
  - apply loop_spec_each in Hl. apply Forall_fmap.
    eapply Forall_impl; [exact Hl|].
    intros r (cfg' & meta' & tr' & nid' & Hp). cbn.
    by destruct Hp as (_ & _ & _ & _ & _ & _ & _ & _ & _ & -> & _).
Qed.

Lemma foldl_locals_after_last (st0 : Locals num) runs r :
  last runs = Some r ->
  loc_cfg (foldl locals_after st0 runs) = tr_cfg (it_train r) /\
  loc_meta (foldl locals_after st0 runs) = tr_meta (it_train r).
Proof.
  intros Hl. destruct runs as [|r0 runs _] using rev_ind; [done|].
  rewrite last_snoc in Hl. injection Hl as ->.
  by rewrite foldl_app.
Qed.

(** X19.  [cfg] and [meta] are updated in place: the [cfg] and the [meta] that
    [main] ends with are the ones the last [train_model] call got, seed
    and checkpoint meta of the last pass included; when there was no
    such call, [meta] holds [env_info] only. *)
Theorem last_train_call_has_final_cfg cli w st w' :
  main_body C cli w = (inr st, w') ->
  match last (train_calls (new_trace w w')) with
  | Some c => loc_cfg st = tr_cfg c /\ loc_meta st = tr_meta c
  | None => loc_meta st = <["env_info" := VStr (env_info C)]> ∅
  end.
Proof.
  intros H. apply main_body_inv in H as (dist & cfg & pre & wd & ll & n & runs & H).
  destruct (completed_views _ _ _ _ _ _ _ _ _ _ _ _ H) as (_ & -> & _).
  rewrite fmap_last.
  destruct H as (_ & _ & _ & _ & _ & _ & -> & _).
  destruct (last runs) as [r|] eqn:E; cbn.
  - by apply foldl_locals_after_last.
  - apply last_None in E as ->. done.
Qed.

End Further4.

Section Further5.
Context {num : Type} (C : Collab num).

(** A pass over a configuration that lacks something the loop reads
    stops after the seed has been logged and set, with at most a model
    and a dataset built. *)
Lemma iteration_stops args d ts lg seeds (st : Locals num) i s (w : World num) :
  seeds !! i = Some s ->
  loop_ready (loc_cfg st) = false ->
  exists e w' built,
    iteration C args d ts lg seeds st i w = (inl e, w') /\
    trace w' = (trace w ++ [EvLog lg (MsgSetSeed s (deterministic args));
                            EvSetRandomSeed s (deterministic args)] ++ built)%list /\
    seed_calls built = [] /\ train_calls built = [] /\ test_calls built = [] /\
    logged built = [].
Proof.
  intros Hs Hr. unfold iteration.
  unfold attr, attr_of, py_len, set_checkpoint_meta, attr, of_option,
    mbind, M_bind, bind, emit, build, get_trace, ret, raise.
  rewrite Hs. cbn beta iota zeta.
  rewrite !lookup_insert_ne by done.
  unfold loop_ready in Hr.
  destruct (loc_cfg st !! "model") as [mc|];
    [|eexists _, _, []; split; [reflexivity|];
      cbn [trace]; by rewrite <- !app_assoc].
  cbn beta iota zeta.
  destruct (loc_cfg st !! "data") as [dv|];
    [|eexists _, _, [_; _]; split; [reflexivity|];
      cbn [trace]; by rewrite <- !app_assoc].
  cbn beta iota zeta.
  destruct dv as [| | | | | |dd];
    try (eexists _, _, [_; _]; split; [reflexivity|];
         cbn [trace]; by rewrite <- !app_assoc).
  destruct (dd !! "train") as [tc|];
    [|eexists _, _, [_; _]; split; [reflexivity|];
      cbn [trace]; by rewrite <- !app_assoc].
  cbn beta iota zeta.
  destruct (loc_cfg st !! "workflow") as [wf|];
    [|eexists _, _, [_; _; _]; split; [reflexivity|];
      cbn [trace]; by rewrite <- !app_assoc].
  cbn beta iota zeta.
  destruct (len_value wf) as [k|];
    [|eexists _, _, [_; _; _]; split; [reflexivity|];
      cbn [trace]; by rewrite <- !app_assoc].
  cbn beta iota zeta.
  destruct (loc_cfg st !! "checkpoint_config") as [ck|];
    [|eexists _, _, [_; _; _]; split; [reflexivity|];
      cbn [trace]; by rewrite <- !app_assoc].
  cbn beta iota zeta.
  destruct ck; try done;
    (eexists _, _, [_; _; _]; split; [reflexivity|];
     cbn [trace]; by rewrite <- !app_assoc).
Qed.

(** X20.  When [cfg.iter] is positive and the merged configuration lacks
    something the body of the loop reads ([model], [data.train], a
    [workflow] with a length, a [checkpoint_config] that is [None] or a
    dict), [main] raises in the first pass: the first seed has been
    logged and set, [train_model] and [test_model] have not been called,
    and no summary is logged. *)
Theorem unusable_loop_config_stops_first_pass cli (w : World num) cfg0 ll n :
  parse_ok cli = true ->
  Config_fromfile C (config (namespace cli)) = Some cfg0 ->
  match launcher (namespace cli) with
  | none => true
  | _ => match cli_cfg C (namespace cli) cfg0 !! "dist_params" with
         | Some (VDict _) => true
         | _ => false
         end
  end = true ->
  cli_cfg C (namespace cli) cfg0 !! "log_level" = Some ll ->
  cli_cfg C (namespace cli) cfg0 !! "iter" ≫= int_value = Some n ->
  0 < n ->
  loop_ready (cli_cfg C (namespace cli) cfg0) = false ->
  exists e w1,
    main_body C cli w = (inl e, w1) /\
    seed_calls (new_trace w w1) = [(seed (namespace cli), cli_deterministic cli)] /\
    train_calls (new_trace w w1) = [] /\
    test_calls (new_trace w w1) = [] /\
    length (logged (new_trace w w1)) = 4%nat.
Proof.
  intros Hp Hf Hl Hll Hit Hn Hr.
  destruct (parse_args_completes cli w Hp) as (w0 & Ep & Ht0 & _).
  destruct (configure_completes_trace C (namespace cli) w0 cfg0 Hf Hl)
    as (d & cfg & w1 & pre & Ec & Hc & Ht1 & Hk).
  assert (Hwd : cfg !! "work_dir"
                = Some (VStr (default "../results" (cli_work_dir cli)))).
  { rewrite Hk by done. by apply cli_cfg_work_dir. }
  rewrite <- (Hk "log_level") in Hll by done.
  rewrite <- (Hk "iter") in Hit by done.
  rewrite <- (loop_ready_ext cfg) in Hr by exact Hk.
  destruct (cfg !! "iter") as [v|] eqn:Hv; [|done]. cbn in Hit.
  apply configured_pre_views in Hc as (_ & Hptr & Hpte & Hlog & _).
  assert (Hps : seed_calls pre = []).
  { destruct (configure_inv _ _ _ _ _ _ Ec) as (pre' & Hc' & Ht' & _).
    rewrite Ht1 in Ht'. apply app_inv_head in Ht' as <-.
    by destruct Hc' as (? & _ & [(_ & _ & -> & _)|(_ & _ & ? & _ & -> & _)]). }
  destruct (Z.to_nat n) as [|k] eqn:Hk0; [lia|].
  set (seeds := py_range (seed (namespace cli)) (seed (namespace cli) + n)).
  assert (Hs : seeds !! 0%nat = Some (seed (namespace cli))).
  { unfold seeds. rewrite py_range_lookup by lia. f_equal. lia. }
  assert (Hfail : forall (w2 : World num),
             trace w2 = (trace w1 ++ setup_events C (namespace cli) d cfg
                           (default "../results" (cli_work_dir cli)) ll)%list ->
             exists e w3,
               for_each (iteration C (namespace cli) d
                           (strftime_Ymd_HMS (time_localtime C))
                           (mk_Logger
                              (osp_join (default "../results" (cli_work_dir cli))
                                 (strftime_Ymd_HMS (time_localtime C) ++ ".log")))
                           seeds)
                        (mk_Locals cfg (<["env_info" := VStr (env_info C)]> ∅) [] [] [] [])
                        (seq 0 (S k)) w2 = (inl e, w3) /\
               seed_calls (new_trace w w3)
               = [(seed (namespace cli), cli_deterministic cli)] /\
               train_calls (new_trace w w3) = [] /\
               test_calls (new_trace w w3) = [] /\
               length (logged (new_trace w w3)) = 4%nat).
  { intros w2 Hw2.
    edestruct (iteration_stops (namespace cli) d
                 (strftime_Ymd_HMS (time_localtime C))
                 (mk_Logger
                    (osp_join (default "../results" (cli_work_dir cli))
                       (strftime_Ymd_HMS (time_localtime C) ++ ".log")))
                 seeds
                 (mk_Locals cfg (<["env_info" := VStr (env_info C)]> ∅) [] [] [] [])
                 0%nat (seed (namespace cli)) w2 Hs Hr)
      as (e & w3 & built & Ei & Ht3 & Hb1 & Hb2 & Hb3 & Hb4).
    exists e, w3. split.
    { cbn [seq for_each]. by apply bind_inl_intro. }
    assert (Htr : new_trace w w3
                  = (pre ++ setup_events C (namespace cli) d cfg
                               (default "../results" (cli_work_dir cli)) ll
                       ++ [EvLog (mk_Logger
                                    (osp_join (default "../results" (cli_work_dir cli))
                                       (strftime_Ymd_HMS (time_localtime C) ++ ".log")))
                                 (MsgSetSeed (seed (namespace cli))
                                    (deterministic (namespace cli)));
                           EvSetRandomSeed (seed (namespace cli))
                             (deterministic (namespace cli))]
                       ++ built)%list).
    { apply new_trace_eq. rewrite Ht3, Hw2, Ht1, Ht0. by rewrite <- !app_assoc. }
    rewrite Htr.
    rewrite !seed_calls_app, !train_calls_app, !test_calls_app, !logged_app.
    rewrite Hps, Hptr, Hpte, Hlog, Hb1, Hb2, Hb3, Hb4. done. }
  unfold main_body.
  rewrite (bind_inr_intro _ _ _ _ _ Ep), (bind_inr_intro _ _ _ _ _ Ec).
  unfold attr, as_str, as_int, of_option, mbind, M_bind, bind, emit, ret, raise.
  rewrite Hwd. cbn beta iota zeta. rewrite Hll. cbn beta iota zeta.
  rewrite Hv. cbn beta iota zeta. rewrite Hit. cbn beta iota zeta.
  rewrite Hk0. fold seeds.
  match goal with
  | |- context [for_each ?f ?s0 ?l ?w2] =>
      destruct (Hfail w2) as (e & w3 & Ef & Hviews);
        [cbn [trace]; by rewrite <- !app_assoc|];
      assert (Ef' : for_each f s0 l w2 = (inl e, w3)) by exact Ef;
      rewrite Ef'
  end.
  by exists e, w3.
Qed.

End Further5.

(** * The further properties at concrete runs *)

(** [main_completes_iff_ready] on the command line [Demo.full_cli]. *)
Lemma main_completes_iff_ready_witness :
  ready Demo.collabZ Demo.full_cli = true /\
  exists st w', main_body Demo.collabZ Demo.full_cli Demo.world0 = (inr st, w').
Proof.
  split; [reflexivity|].
  apply (main_completes_iff_ready Demo.collabZ Demo.full_cli Demo.world0).
  reflexivity.
Defined.

(** [gpu_ids_without_launcher] on the run with an empty command line. *)
Lemma gpu_ids_without_launcher_witness :
  main_body Demo.collabZ no_cli (@Demo.world0 Z) = (inr Demo.plain_st, Demo.plain_w) /\
  default none (cli_launcher no_cli) = none /\
  (Forall (fun c =>
            tr_cfg c !! "gpu_ids"
            = Some (match cli_gpu_ids no_cli with
                    | Some ids => VList (VInt <$> ids)
                    | None => VRange (default 1 (cli_gpus no_cli))
                    end))
         (train_calls (new_trace (@Demo.world0 Z) Demo.plain_w))).
Proof.
  assert (Hrun : main_body Demo.collabZ no_cli (@Demo.world0 Z) = (inr Demo.plain_st, Demo.plain_w))
    by (apply ready_run; reflexivity).
  split; [exact Hrun|]. split; [reflexivity|].
  exact (gpu_ids_without_launcher Demo.collabZ _ _ _ _ Hrun ltac:(reflexivity)).
Defined.

(** [resume_from_cli_or_file] on the run of [Demo.full_cli]. *)
Lemma resume_from_cli_or_file_witness :
  main_body Demo.collabZ Demo.full_cli (@Demo.world0 Z) = (inr Demo.full_st, Demo.full_w) /\
  Config_fromfile Demo.collabZ (config (namespace Demo.full_cli)) = Some Demo.file_cfg /\
  (Forall (fun c =>
            tr_cfg c !! "resume_from"
            = match cli_resume_from Demo.full_cli with
              | Some r => Some (VStr r)
              | None => merge_options Demo.collabZ (namespace Demo.full_cli) Demo.file_cfg !! "resume_from"
              end)
         (train_calls (new_trace (@Demo.world0 Z) Demo.full_w))).
Proof.
  assert (Hrun : main_body Demo.collabZ Demo.full_cli (@Demo.world0 Z) = (inr Demo.full_st, Demo.full_w))
    by (apply ready_run; reflexivity).
  split; [exact Hrun|]. split; [reflexivity|].
  exact (resume_from_cli_or_file Demo.collabZ _ _ _ _ _ Hrun ltac:(reflexivity)).
Defined.

(** [test_call_follows_train_call] on the run of [Demo.full_cli]. *)
Lemma test_call_follows_train_call_witness :
  main_body Demo.collabZ Demo.full_cli (@Demo.world0 Z) = (inr Demo.full_st, Demo.full_w) /\
  (Forall2 (fun ctr cte =>
             te_model cte = tr_model ctr /\
             te_cfg cte = tr_cfg ctr /\
             te_device cte = tr_device ctr /\
             te_dataset cte = test_dataset (te_base cte) /\
             head (tr_datasets ctr) = Some (train_dataset (te_base cte)))
          (train_calls (new_trace (@Demo.world0 Z) Demo.full_w)) (test_calls (new_trace (@Demo.world0 Z) Demo.full_w)).*1).
Proof.
  assert (Hrun : main_body Demo.collabZ Demo.full_cli (@Demo.world0 Z) = (inr Demo.full_st, Demo.full_w))
    by (apply ready_run; reflexivity).
  split; [exact Hrun|].
  exact (test_call_follows_train_call Demo.collabZ _ _ _ _ Hrun).
Defined.

(** [datasets_follow_workflow] on the run of [Demo.full_cli]. *)
Lemma datasets_follow_workflow_witness :
  main_body Demo.collabZ Demo.full_cli (@Demo.world0 Z) = (inr Demo.full_st, Demo.full_w) /\
  (forall before c later,
    new_trace (@Demo.world0 Z) Demo.full_w = (before ++ EvTrainModel c :: later)%list ->
    exists before' train_cfg base d wf n,
      before = (before' ++ [EvBuildDataset train_cfg base])%list /\
      tr_cfg c !! "data" = Some (VDict d) /\
      d !! "train" = Some train_cfg /\
      tr_cfg c !! "workflow" = Some wf /\
      len_value wf = Some n /\
      tr_datasets c = if n =? 2
                      then [train_dataset base; val_dataset base]
                      else [train_dataset base]).
Proof.
  assert (Hrun : main_body Demo.collabZ Demo.full_cli (@Demo.world0 Z) = (inr Demo.full_st, Demo.full_w))
    by (apply ready_run; reflexivity).
  split; [exact Hrun|].
  exact (datasets_follow_workflow Demo.collabZ _ _ _ _ Hrun).
Defined.

(** [checkpoint_meta_in_train_cfg] on the run of [Demo.full_cli]. *)
Lemma checkpoint_meta_in_train_cfg_witness :
  main_body Demo.collabZ Demo.full_cli (@Demo.world0 Z) = (inr Demo.full_st, Demo.full_w) /\
  (Forall (fun c =>
            tr_cfg c !! "checkpoint_config" = Some VNone \/
            exists d m ds text,
              tr_cfg c !! "checkpoint_config" = Some (VDict d) /\
              d !! "meta" = Some (VDict m) /\
              head (tr_datasets c) = Some ds /\
              m = <["mmhyperspectral_version" := VStr (version Demo.collabZ)]>
                    (<["config" := VStr text]>
                       (<["CLASSES" := CLASSES Demo.collabZ ds]> ∅)))
         (train_calls (new_trace (@Demo.world0 Z) Demo.full_w))).
Proof.
  assert (Hrun : main_body Demo.collabZ Demo.full_cli (@Demo.world0 Z) = (inr Demo.full_st, Demo.full_w))
    by (apply ready_run; reflexivity).
  split; [exact Hrun|].
  exact (checkpoint_meta_in_train_cfg Demo.collabZ _ _ _ _ Hrun).
Defined.

(** [meta_is_env_info_and_seed] on the run of [Demo.full_cli]. *)
Lemma meta_is_env_info_and_seed_witness :
  main_body Demo.collabZ Demo.full_cli (@Demo.world0 Z) = (inr Demo.full_st, Demo.full_w) /\
  (exists n,
    cfg_iter (loc_cfg Demo.full_st) = Some n /\
    tr_meta <$> train_calls (new_trace (@Demo.world0 Z) Demo.full_w)
    = (fun s => <["seed" := VInt s]> (<["env_info" := VStr (env_info Demo.collabZ)]> ∅))
        <$> py_range (seed (namespace Demo.full_cli)) (seed (namespace Demo.full_cli) + n)).
Proof.
  assert (Hrun : main_body Demo.collabZ Demo.full_cli (@Demo.world0 Z) = (inr Demo.full_st, Demo.full_w))
    by (apply ready_run; reflexivity).
  split; [exact Hrun|].
  exact (meta_is_env_info_and_seed Demo.collabZ _ _ _ _ Hrun).
Defined.

(** [seed_logged_and_set_with_flag] on the run of [Demo.full_cli]. *)
Lemma seed_logged_and_set_with_flag_witness :
  main_body Demo.collabZ Demo.full_cli (@Demo.world0 Z) = (inr Demo.full_st, Demo.full_w) /\
  (let s := seed (namespace Demo.full_cli) in
  let d := cli_deterministic Demo.full_cli in
  exists n lg first last,
    cfg_iter (loc_cfg Demo.full_st) = Some n /\
    seed_calls (new_trace (@Demo.world0 Z) Demo.full_w) = (fun x => (x, d)) <$> py_range s (s + n) /\
    length first = 3%nat /\ length last = 8%nat /\
    logged (new_trace (@Demo.world0 Z) Demo.full_w)
    = (fun m => (lg, m))
        <$> (first ++ ((fun x => MsgSetSeed x d) <$> py_range s (s + n)) ++ last)%list).
Proof.
  assert (Hrun : main_body Demo.collabZ Demo.full_cli (@Demo.world0 Z) = (inr Demo.full_st, Demo.full_w))
    by (apply ready_run; reflexivity).
  split; [exact Hrun|].
  exact (seed_logged_and_set_with_flag Demo.collabZ _ _ _ _ Hrun).
Defined.

(** [no_pass_when_iter_not_positive] on the run of [--options iter=0]. *)
Lemma no_pass_when_iter_not_positive_witness :
  main_body Demo.collabZ Edge.zero_iter_cli (@Demo.world0 Z) = (inr Edge.zero_iter_st, Edge.zero_iter_w) /\
  cfg_iter (loc_cfg Edge.zero_iter_st) = Some 0 /\
  0 <= 0 /\
  (let tr := new_trace (@Demo.world0 Z) Edge.zero_iter_w in
  seeds_set tr = [] /\ train_calls tr = [] /\ test_calls tr = [] /\
  KAPPA Edge.zero_iter_st = [] /\ OA Edge.zero_iter_st = [] /\ AA Edge.zero_iter_st = [] /\ ELEMENT_ACC Edge.zero_iter_st = [] /\
  exists lg,
    (lg, Msg_mean_OA_std_OA (np_mean Demo.collabZ []) (np_std Demo.collabZ [])) ∈ logged tr /\
    (lg, MsgElementMean (np_mean_axis0 Demo.collabZ [])) ∈ logged tr).
Proof.
  assert (Hrun : main_body Demo.collabZ Edge.zero_iter_cli (@Demo.world0 Z) = (inr Edge.zero_iter_st, Edge.zero_iter_w))
    by (apply ready_run; reflexivity).
  split; [exact Hrun|]. split; [reflexivity|]. split; [lia|].
  exact (no_pass_when_iter_not_positive Demo.collabZ _ _ _ _ _ Hrun ltac:(reflexivity) ltac:(lia)).
Defined.

(** [local_rank_exported_once] on [Demo.full_cli], then an empty command line. *)
Lemma local_rank_exported_once_witness :
  (parse_args Demo.full_cli (@Demo.world0 Z) = (inr (namespace Demo.full_cli), Edge.parsed_w)) /\
  (parse_args no_cli Edge.parsed_w = (inr (namespace no_cli), (parse_args no_cli Edge.parsed_w).2)) /\
  (environ Edge.parsed_w !! "LOCAL_RANK"
  = Some (default (str_int (default 0 (cli_local_rank Demo.full_cli)))
                  (environ (@Demo.world0 Z) !! "LOCAL_RANK")) /\
  (forall k, k <> "LOCAL_RANK" -> environ Edge.parsed_w !! k = environ (@Demo.world0 Z) !! k) /\
  trace Edge.parsed_w = trace (@Demo.world0 Z) /\
  environ (parse_args no_cli Edge.parsed_w).2 = environ Edge.parsed_w).
Proof.
  split; [reflexivity|]. split; [reflexivity|].
  exact (local_rank_exported_once Demo.full_cli no_cli (@Demo.world0 Z) Edge.parsed_w
           (parse_args no_cli Edge.parsed_w).2 (namespace Demo.full_cli)
           (namespace no_cli) eq_refl eq_refl).
Defined.

(** [missing_config_file_stops_main] on [--config nope.py]. *)
Lemma missing_config_file_stops_main_witness :
  (parse_ok Demo.no_file_cli = true) /\
  (Config_fromfile Demo.collabZ (config (namespace Demo.no_file_cli)) = None) /\
  (exists w0,
    main_body Demo.collabZ Demo.no_file_cli (@Demo.world0 Z) = (inl (FileNotFoundError (config (namespace Demo.no_file_cli))), w0) /\
    trace w0 = trace (@Demo.world0 Z) /\ next_id w0 = next_id (@Demo.world0 Z)).
Proof.
  split; [reflexivity|]. split; [reflexivity|].
  exact (missing_config_file_stops_main Demo.collabZ Demo.no_file_cli Demo.world0 ltac:(reflexivity) ltac:(reflexivity)).
Defined.

(** [missing_log_level_stops_after_dump] on a config file without [log_level]. *)
Lemma missing_log_level_stops_after_dump_witness :
  (parse_ok no_cli = true) /\
  (Config_fromfile (Edge.collab_of Edge.no_log_level) (config (namespace no_cli)) = Some Edge.no_log_level) /\
  (match launcher (namespace no_cli) with
  | none => true
  | _ => match cli_cfg (Edge.collab_of Edge.no_log_level) (namespace no_cli) Edge.no_log_level !! "dist_params" with
         | Some (VDict _) => true
         | _ => false
         end
  end = true) /\
  (cli_cfg (Edge.collab_of Edge.no_log_level) (namespace no_cli) Edge.no_log_level !! "log_level" = None) /\
  (let wd := default "../results" (cli_work_dir no_cli) in
  exists w1 before cfg,
    main_body (Edge.collab_of Edge.no_log_level) no_cli (@Demo.world0 Z) = (inl (AttributeError "log_level"), w1) /\
    new_trace (@Demo.world0 Z) w1
    = (before ++ [EvMkdirOrExist (osp_abspath (Edge.collab_of Edge.no_log_level) wd);
                  EvDump cfg (osp_join wd (osp_basename (config (namespace no_cli))))])%list /\
    logged (new_trace (@Demo.world0 Z) w1) = []).
Proof.
  split; [reflexivity|]. split; [reflexivity|]. split; [reflexivity|]. split; [reflexivity|].
  exact (missing_log_level_stops_after_dump (Edge.collab_of Edge.no_log_level) no_cli Demo.world0 Edge.no_log_level ltac:(reflexivity) ltac:(reflexivity) ltac:(reflexivity) ltac:(reflexivity)).
Defined.

(** [bad_iter_stops_before_loop] on a config file whose [iter] is a string. *)
Lemma bad_iter_stops_before_loop_witness :
  (parse_ok no_cli = true) /\
  (Config_fromfile (Edge.collab_of Edge.text_iter) (config (namespace no_cli)) = Some Edge.text_iter) /\
  (match launcher (namespace no_cli) with
  | none => true
  | _ => match cli_cfg (Edge.collab_of Edge.text_iter) (namespace no_cli) Edge.text_iter !! "dist_params" with
         | Some (VDict _) => true
         | _ => false
         end
  end = true) /\
  (cli_cfg (Edge.collab_of Edge.text_iter) (namespace no_cli) Edge.text_iter !! "log_level" = Some (VStr "INFO")) /\
  (cli_cfg (Edge.collab_of Edge.text_iter) (namespace no_cli) Edge.text_iter !! "iter" ≫= int_value = None) /\
  (let wd := default "../results" (cli_work_dir no_cli) in
  exists w1 before distributed cfg,
    main_body (Edge.collab_of Edge.text_iter) no_cli (@Demo.world0 Z)
    = (inl (match cli_cfg (Edge.collab_of Edge.text_iter) (namespace no_cli) Edge.text_iter !! "iter" with
            | None => AttributeError "iter"
            | Some _ => TypeError
            end), w1) /\
    new_trace (@Demo.world0 Z) w1
    = (before ++ setup_events (Edge.collab_of Edge.text_iter) (namespace no_cli) distributed cfg wd (VStr "INFO"))%list /\
    forallb (fun e => negb (is_loop_event e)) (new_trace (@Demo.world0 Z) w1) = true /\
    length (logged (new_trace (@Demo.world0 Z) w1)) = 3%nat).
Proof.
  split; [reflexivity|]. split; [reflexivity|]. split; [reflexivity|]. split; [reflexivity|]. split; [reflexivity|].
  exact (bad_iter_stops_before_loop (Edge.collab_of Edge.text_iter) no_cli Demo.world0 Edge.text_iter (VStr "INFO") ltac:(reflexivity) ltac:(reflexivity) ltac:(reflexivity) ltac:(reflexivity) ltac:(reflexivity)).
Defined.

(** [rejected_command_line_changes_nothing] on [--device cuda --gpus 2]. *)
Lemma rejected_command_line_changes_nothing_witness :
  (parse_ok Demo.exclusive_cli = false) /\
  (main_body Demo.collabZ Demo.exclusive_cli (@Demo.world0 Z) = (inl SystemExit, (@Demo.world0 Z))).
Proof.
  split; [reflexivity|].
  exact (rejected_command_line_changes_nothing Demo.collabZ Demo.exclusive_cli Demo.world0 ltac:(reflexivity)).
Defined.

(** [init_dist_gets_dist_params] on the run of [Demo.full_cli]. *)
Lemma init_dist_gets_dist_params_witness :
  main_body Demo.collabZ Demo.full_cli (@Demo.world0 Z) = (inr Demo.full_st, Demo.full_w) /\
  Config_fromfile Demo.collabZ (config (namespace Demo.full_cli)) = Some Demo.file_cfg /\
  default none (cli_launcher Demo.full_cli) <> none /\
  (exists kwargs later,
    cli_cfg Demo.collabZ (namespace Demo.full_cli) Demo.file_cfg !! "dist_params" = Some (VDict kwargs) /\
    new_trace (@Demo.world0 Z) Demo.full_w = EvInitDist (default none (cli_launcher Demo.full_cli)) kwargs :: later).
Proof.
  assert (Hrun : main_body Demo.collabZ Demo.full_cli (@Demo.world0 Z) = (inr Demo.full_st, Demo.full_w))
    by (apply ready_run; reflexivity).
  split; [exact Hrun|]. split; [reflexivity|]. split; [discriminate|].
  exact (init_dist_gets_dist_params Demo.collabZ _ _ _ _ _ Hrun ltac:(reflexivity) ltac:(discriminate)).
Defined.

(** [summary_closes_the_log] on the run of [Demo.full_cli]. *)
Lemma summary_closes_the_log_witness :
  main_body Demo.collabZ Demo.full_cli (@Demo.world0 Z) = (inr Demo.full_st, Demo.full_w) /\
  (exists lg earlier,
    logged (new_trace (@Demo.world0 Z) Demo.full_w)
    = (earlier
         ++ ((fun m => (lg, m))
              <$> [MsgOAs (OA Demo.full_st);
                   MsgAAs (AA Demo.full_st);
                   MsgKAPPAs (KAPPA Demo.full_st);
                   Msg_mean_OA_std_OA (np_mean Demo.collabZ (OA Demo.full_st)) (np_std Demo.collabZ (OA Demo.full_st));
                   Msg_mean_AA_std_AA (np_mean Demo.collabZ (AA Demo.full_st)) (np_std Demo.collabZ (OA Demo.full_st));
                   Msg_mean_KAPPA_std_KAPPA (np_mean Demo.collabZ (KAPPA Demo.full_st)) (np_std Demo.collabZ (KAPPA Demo.full_st));
                   MsgElementMean (np_mean_axis0 Demo.collabZ (ELEMENT_ACC Demo.full_st));
                   MsgElementStd (np_std_axis0 Demo.collabZ (ELEMENT_ACC Demo.full_st))]))%list).
Proof.
  assert (Hrun : main_body Demo.collabZ Demo.full_cli (@Demo.world0 Z) = (inr Demo.full_st, Demo.full_w))
    by (apply ready_run; reflexivity).
  split; [exact Hrun|].
  exact (summary_closes_the_log Demo.collabZ _ _ _ _ Hrun).
Defined.

(** [train_timestamp_names_log_file] on the run of [Demo.full_cli]. *)
Lemma train_timestamp_names_log_file_witness :
  main_body Demo.collabZ Demo.full_cli (@Demo.world0 Z) = (inr Demo.full_st, Demo.full_w) /\
  (let ts := strftime_Ymd_HMS (time_localtime Demo.collabZ) in
  exists wd ll,
    loc_cfg Demo.full_st !! "work_dir" = Some (VStr wd) /\
    EvGetRootLogger (osp_join wd (ts ++ ".log")) ll ∈ new_trace (@Demo.world0 Z) Demo.full_w /\
    Forall (fun c => tr_timestamp c = ts) (train_calls (new_trace (@Demo.world0 Z) Demo.full_w))).
Proof.
  assert (Hrun : main_body Demo.collabZ Demo.full_cli (@Demo.world0 Z) = (inr Demo.full_st, Demo.full_w))
    by (apply ready_run; reflexivity).
  split; [exact Hrun|].
  exact (train_timestamp_names_log_file Demo.collabZ _ _ _ _ Hrun).
Defined.

(** [last_train_call_has_final_cfg] on the run of [Demo.full_cli]. *)
Lemma last_train_call_has_final_cfg_witness :
  main_body Demo.collabZ Demo.full_cli (@Demo.world0 Z) = (inr Demo.full_st, Demo.full_w) /\
  (match last (train_calls (new_trace (@Demo.world0 Z) Demo.full_w)) with
  | Some c => loc_cfg Demo.full_st = tr_cfg c /\ loc_meta Demo.full_st = tr_meta c
  | None => loc_meta Demo.full_st = <["env_info" := VStr (env_info Demo.collabZ)]> ∅
  end).
Proof.
  assert (Hrun : main_body Demo.collabZ Demo.full_cli (@Demo.world0 Z) = (inr Demo.full_st, Demo.full_w))
    by (apply ready_run; reflexivity).
  split; [exact Hrun|].
  exact (last_train_call_has_final_cfg Demo.collabZ _ _ _ _ Hrun).
Defined.

(** [unusable_loop_config_stops_first_pass] on a config file without [model]. *)
Lemma unusable_loop_config_stops_first_pass_witness :
  (parse_ok no_cli = true) /\
  (Config_fromfile (Edge.collab_of Edge.no_model) (config (namespace no_cli)) = Some Edge.no_model) /\
  (match launcher (namespace no_cli) with
  | none => true
  | _ => match cli_cfg (Edge.collab_of Edge.no_model) (namespace no_cli) Edge.no_model !! "dist_params" with
         | Some (VDict _) => true
         | _ => false
         end
  end = true) /\
  (cli_cfg (Edge.collab_of Edge.no_model) (namespace no_cli) Edge.no_model !! "log_level" = Some (VStr "INFO")) /\
  (cli_cfg (Edge.collab_of Edge.no_model) (namespace no_cli) Edge.no_model !! "iter" ≫= int_value = Some 2) /\
  (0 < 2) /\
  (loop_ready (cli_cfg (Edge.collab_of Edge.no_model) (namespace no_cli) Edge.no_model) = false) /\
  (exists e w1,
    main_body (Edge.collab_of Edge.no_model) no_cli (@Demo.world0 Z) = (inl e, w1) /\
    seed_calls (new_trace (@Demo.world0 Z) w1) = [(seed (namespace no_cli), cli_deterministic no_cli)] /\
    train_calls (new_trace (@Demo.world0 Z) w1) = [] /\
    test_calls (new_trace (@Demo.world0 Z) w1) = [] /\
    length (logged (new_trace (@Demo.world0 Z) w1)) = 4%nat).
Proof.
  split; [reflexivity|]. split; [reflexivity|]. split; [reflexivity|]. split; [reflexivity|]. split; [reflexivity|]. split; [lia|]. split; [reflexivity|].
  exact (unusable_loop_config_stops_first_pass (Edge.collab_of Edge.no_model) no_cli Demo.world0 Edge.no_model (VStr "INFO") 2 ltac:(reflexivity) ltac:(reflexivity) ltac:(reflexivity) ltac:(reflexivity) ltac:(reflexivity) ltac:(lia) ltac:(reflexivity)).
Defined.
